(** * PNTS point clouds, the file-system tileset source and the tileset
      object upgrader

    A shallow embedding of [PntsPointClouds.ts] (the decode pipeline that
    turns a PNTS feature table, its binary body and a batch table into a
    point cloud) and of [TilesetSourceFs.ts] (the directory-backed tileset
    source), together with the properties of both that the design document
    states, and of [TilesetObjectUpgrader.ts] (the upgrade of a parsed
    legacy tileset), with further properties that the code of the three
    shows.

    JavaScript numbers are IEEE 754 binary64 values: they are modelled by
    Rocq's primitive floats.  Buffers are lists of bytes.  Exceptions are
    modelled by a result type, objects used as dictionaries by finite maps
    ([gmap]) and, where the key order is observable, by association lists. *)

From Stdlib Require Import ZArith PrimFloat FloatOps.
From Stdlib.Strings Require Import Byte.
From stdpp Require Import gmap strings list.

Local Open Scope Z_scope.

(** ** Errors and results *)

(** The exceptions that can leave the modelled code.  [AttributeExists] is
    the refusal of [addAttribute] to store a name that is present;
    [IOError] is a failure of the underlying file system. *)
Inductive Error :=
  | TileFormatError (message : string)
  | RangeError
  | DracoError
  | AttributeExists (name : string)
  | TilesetError (message : string)
  | IOError.

Inductive Result (A : Type) :=
  | Ok (value : A)
  | Err (error : Error).
Arguments Ok {A} value.
Arguments Err {A} error.

#[global] Instance Result_ret : MRet Result := fun _ x => Ok x.
#[global] Instance Result_bind : MBind Result := fun _ _ f r =>
  match r with
  | Ok x => f x
  | Err e => Err e
  end.
#[global] Instance Result_fmap : FMap Result := fun _ _ f r =>
  match r with
  | Ok x => Ok (f x)
  | Err e => Err e
  end.

(** Collects the results of a list of computations, stopping at the first
    exception. *)
Fixpoint sequenceResults {A} (rs : list (Result A)) : Result (list A) :=
  match rs with
  | [] => Ok []
  | r :: rest => x ← r; xs ← sequenceResults rest; Ok (x :: xs)
  end.

Definition isFormatError {A} (r : Result A) : bool :=
  match r with
  | Err (TileFormatError _) => true
  | _ => false
  end.

(** ** Buffers, numbers and iterables *)

Abbreviation Buffer := (list byte).
Abbreviation number := float.

(** [Buffer.subarray(start, end)]: the indices are clamped to the buffer. *)
Definition subarray (binary : Buffer) (arrayStart arrayEnd : nat) : Buffer :=
  take (arrayEnd - arrayStart)%nat (drop arrayStart binary).

(** The value of a JavaScript number that holds an integer. *)
Definition numberOfZ (z : Z) : number :=
  match z with
  | Z0 => zero
  | Zpos _ => of_uint63 (Uint63Axioms.of_Z z)
  | Zneg p => PrimFloat.opp (of_uint63 (Uint63Axioms.of_Z (Zpos p)))
  end.

(** What a dynamically typed element of an attribute can be: a number
    (SCALAR) or an array of numbers (VEC2, VEC3, VEC4). *)
Inductive Value :=
  | Num (x : number)
  | Arr (xs : list number).

(** [input[i]] where it is used as an operand of arithmetic: a missing
    entry is [undefined], which arithmetic turns into NaN. *)
Definition idx (input : Value) (i : nat) : number :=
  match input with
  | Arr xs => nth i xs nan
  | Num _ => nan
  end.

(** A lazy, restartable sequence: the list of the outcomes of producing
    its successive elements.  An element that cannot be produced is an
    exception that is raised when the iteration reaches it, not when the
    iterable is created. *)
Abbreviation Iterable := (list (Result Value)).

Module Iterables.
(** Modelled from the spec: the lazy mapping of an iterable
    ([Iterables.ts] is not among the sources); the function is applied
    to an element when the iteration produces it. *)
Definition map (f : Value -> Value) (it : Iterable) : Iterable :=
  fmap (M := list) (fmap (M := Result) f) it.

(** Runs the iteration to its end. *)
Definition toArray (it : Iterable) : Result (list Value) :=
  sequenceResults it.
End Iterables.

(** ** Legacy attribute reader *)

Inductive LegacyType := SCALAR | VEC2 | VEC3 | VEC4.

Inductive LegacyComponentType :=
  | BYTE | UNSIGNED_BYTE | SHORT | UNSIGNED_SHORT
  | INT | UNSIGNED_INT | FLOAT | DOUBLE.

Module BinaryBodyOffset.
(** A field descriptor of the feature table. *)
Record t := {
  byteOffset : nat;
  componentType : option LegacyComponentType
}.
End BinaryBodyOffset.

(** A feature-table property that is either an inline array of numbers
    or a reference into the binary body. *)
Inductive NumberArrayProperty :=
  | InlineArray (values : list number)
  | BodyOffset (reference : BinaryBodyOffset.t).

Module TileTableData.

(** Modelled from the spec: the table that maps a legacy array type to
    the canonical element-type name ([TileTableData.ts] is not among the
    sources). *)
Definition convertLegacyTypeToType (legacyType : LegacyType) : string :=
  match legacyType with
  | SCALAR => "SCALAR"
  | VEC2 => "VEC2"
  | VEC3 => "VEC3"
  | VEC4 => "VEC4"
  end.

(** Modelled from the spec: the table that maps a legacy component
    datatype to the canonical numeric-type name. *)
Definition convertLegacyComponentTypeToComponentType
    (legacyComponentType : LegacyComponentType) : string :=
  match legacyComponentType with
  | BYTE => "INT8"
  | UNSIGNED_BYTE => "UINT8"
  | SHORT => "INT16"
  | UNSIGNED_SHORT => "UINT16"
  | INT => "INT32"
  | UNSIGNED_INT => "UINT32"
  | FLOAT => "FLOAT32"
  | DOUBLE => "FLOAT64"
  end.

(** Modelled from the spec: the tuple length of an element. *)
Definition componentCount (legacyType : LegacyType) : nat :=
  match legacyType with
  | SCALAR => 1
  | VEC2 => 2
  | VEC3 => 3
  | VEC4 => 4
  end.

(** Modelled from the spec: the width of one component in bytes, 1, 2,
    4 or 8 for the byte, short, float-or-int32 and double families. *)
Definition componentSize (legacyComponentType : LegacyComponentType) : nat :=
  match legacyComponentType with
  | BYTE | UNSIGNED_BYTE => 1
  | SHORT | UNSIGNED_SHORT => 2
  | INT | UNSIGNED_INT | FLOAT => 4
  | DOUBLE => 8
  end.

(** The unsigned integer that a little-endian sequence of bytes
    denotes. *)
Definition littleEndian (bytes : list byte) : Z :=
  foldr (fun b acc => Z.of_N (Byte.to_N b) + 256 * acc) 0 bytes.

(** Two's complement reading of a [width]-bit pattern. *)
Definition signed (width : Z) (pattern : Z) : Z :=
  if pattern <? 2 ^ (width - 1) then pattern else pattern - 2 ^ width.

(** The number denoted by an IEEE 754 bit pattern with [ew] exponent
    bits and [mw] mantissa bits (binary32 and binary64 values are all
    representable as JavaScript numbers). *)
Definition ieee (ew mw : Z) (pattern : Z) : number :=
  let mantissa := Z.land pattern (2 ^ mw - 1) in
  let exponent := Z.land (Z.shiftr pattern mw) (2 ^ ew - 1) in
  let bias := 2 ^ (ew - 1) - 1 in
  let magnitude :=
    if exponent =? 2 ^ ew - 1 then
      if mantissa =? 0 then infinity else nan
    else if exponent =? 0 then
      Z.ldexp (numberOfZ mantissa) (1 - bias - mw)
    else
      Z.ldexp (numberOfZ (mantissa + 2 ^ mw)) (exponent - bias - mw) in
  if Z.testbit pattern (ew + mw) then PrimFloat.opp magnitude else magnitude.

(** Modelled from the spec: the number that the bytes of one component
    denote, by component datatype. *)
Definition decodeComponent
    (legacyComponentType : LegacyComponentType) (pattern : Z) : number :=
  match legacyComponentType with
  | BYTE => numberOfZ (signed 8 pattern)
  | SHORT => numberOfZ (signed 16 pattern)
  | INT => numberOfZ (signed 32 pattern)
  | UNSIGNED_BYTE | UNSIGNED_SHORT | UNSIGNED_INT => numberOfZ pattern
  | FLOAT => ieee 8 23 pattern
  | DOUBLE => ieee 11 52 pattern
  end.

(** Modelled from the spec: reads one little-endian component at
    [byteOffset]; a read that does not fit in the buffer raises a range
    error. *)
Definition readComponent (legacyComponentType : LegacyComponentType)
    (binary : Buffer) (byteOffset : nat) : Result number :=
  let size := componentSize legacyComponentType in
  if decide (byteOffset + size <= length binary)%nat then
    Ok (decodeComponent legacyComponentType
          (littleEndian (take size (drop byteOffset binary))))
  else Err RangeError.

(** Modelled from the spec: reads [count] consecutive components,
    without padding. *)
Definition readComponents (legacyComponentType : LegacyComponentType)
    (binary : Buffer) (byteOffset : nat) (count : nat)
    : Result (list number) :=
  sequenceResults
    (List.map
       (fun k => readComponent legacyComponentType binary
                   (byteOffset + k * componentSize legacyComponentType)%nat)
       (seq 0 count)).

(** Modelled from the spec: reads the element with the given index, a
    number for SCALAR, an array for the vector types.  The stride is the
    element width. *)
Definition readElement (legacyType : LegacyType)
    (legacyComponentType : LegacyComponentType)
    (binary : Buffer) (byteOffset : nat) (index : nat) : Result Value :=
  let count := componentCount legacyType in
  let stride := (count * componentSize legacyComponentType)%nat in
  components ← readComponents legacyComponentType binary
                  (byteOffset + index * stride)%nat count;
  Ok (match legacyType, components with
      | SCALAR, x :: _ => Num x
      | _, _ => Arr components
      end).

(** Modelled from the spec: the legacy attribute reader of
    [TileTableData.ts], which is not among the sources.  It yields
    [numElements] elements read from [binary] at [byteOffset], tightly
    packed and little-endian; a read past the end of the buffer is a
    range error raised lazily, by the element that needs it. *)
Definition createNumericArrayIterable (legacyType : LegacyType)
    (legacyComponentType : LegacyComponentType)
    (binary : Buffer) (byteOffset : nat) (numElements : nat) : Iterable :=
  readElement legacyType legacyComponentType binary byteOffset
    <$> seq 0 numElements.

(** Modelled from the spec: same reader, as the source calls it for
    attributes that are declared scalar. *)
Definition createNumericScalarIterable (legacyType : LegacyType)
    (legacyComponentType : LegacyComponentType)
    (binary : Buffer) (byteOffset : nat) (numElements : nat) : Iterable :=
  createNumericArrayIterable legacyType legacyComponentType
    binary byteOffset numElements.

(** Modelled from the spec: a property given inline is returned as it
    is; a property given as a reference into the binary body is decoded
    at once as [length] components of the given datatype. *)
Definition obtainNumberArray (binary : Buffer)
    (property : NumberArrayProperty) (length : nat)
    (componentType : LegacyComponentType) : Result (list number) :=
  match property with
  | InlineArray values => Ok values
  | BodyOffset reference =>
      readComponents componentType binary
        (BinaryBodyOffset.byteOffset reference) length
  end.

(** Modelled from the spec: RTC_CENTER is decoded as three floats. *)
Definition obtainRtcCenter (rtcCenter : NumberArrayProperty)
    (binary : Buffer) : Result (list number) :=
  obtainNumberArray binary rtcCenter 3 FLOAT.

End TileTableData.

(** ** Codecs *)

Module AttributeCompression.

(** Modelled from the spec: the sign of a number, with [sign(0) = +1]. *)
Definition signNotZero (x : number) : number :=
  (if x <? 0 then -1 else 1)%float.

(** Modelled from the spec: oct-decoding of a normal, section 4.3a
    ([AttributeCompression.ts] is not among the sources). *)
Definition octDecode (input : Value) : Value :=
  let x := (idx input 0 / 255 * 2 - 1)%float in
  let y := (idx input 1 / 255 * 2 - 1)%float in
  let z := (1 - abs x - abs y)%float in
  let '(x', y') :=
    if (z <? 0)%float
    then (((1 - abs y) * signNotZero x)%float,
          ((1 - abs x) * signNotZero y)%float)
    else (x, y) in
  let len := sqrt (x' * x' + y' * y' + z * z)%float in
  Arr [(x' / len)%float; (y' / len)%float; (z / len)%float].

End AttributeCompression.

(** The primitives of the colour codec that the design leaves pluggable:
    the gamma-to-linear transfer of a standard byte component, the
    normalization of a byte alpha, and the unpacking of an RGB565 word
    into standard RGB. *)
Class ColorTransfer := {
  componentToLinear : number -> number;
  alphaToNormalized : number -> number;
  unpackRGB565 : Value -> Value
}.

Module Colors.
Section WithTransfer.
Context {transfer : ColorTransfer}.

(** Modelled from the spec, section 4.3b ([Colors.ts] is not among
    the sources): the transfer function on the three colour
    components, the alpha carried over. *)
Definition standardRGBAToNormalizedLinearRGBA (input : Value) : Value :=
  Arr [componentToLinear (idx input 0);
       componentToLinear (idx input 1);
       componentToLinear (idx input 2);
       alphaToNormalized (idx input 3)].

(** Modelled from the spec: RGB to RGBA sets alpha to 1.0. *)
Definition standardRGBToNormalizedLinearRGBA (input : Value) : Value :=
  Arr [componentToLinear (idx input 0);
       componentToLinear (idx input 1);
       componentToLinear (idx input 2);
       1%float].

(** Modelled from the spec: an RGB565 word is unpacked to standard
    RGB first. *)
Definition standardRGB565ToNormalizedLinearRGBA (input : Value) : Value :=
  standardRGBToNormalizedLinearRGBA (unpackRGB565 input).
End WithTransfer.
End Colors.

(** ** The point cloud (point attribute sink) *)

Record Attribute := {
  attributeType : string;
  attributeComponentType : string;
  attributeValues : Iterable
}.

Record DefaultPointCloud := {
  attributes : gmap string Attribute;
  globalPosition : option (number * number * number);
  globalColor : option (number * number * number * number)
}.

Module PointCloud.

(** [new DefaultPointCloud()]. *)
Definition empty : DefaultPointCloud :=
  {| attributes := ∅; globalPosition := None; globalColor := None |}.

(** Modelled from the spec: the operations of the point attribute sink,
    sections 3 and 4.2 ([DefaultPointCloud.ts] is not among the
    sources).  Attribute names are unique keys, and [addAttribute] fails
    if the name is already present. *)
Definition addAttribute (name type componentType : string)
    (values : Iterable) (pointCloud : DefaultPointCloud)
    : Result DefaultPointCloud :=
  match attributes pointCloud !! name with
  | Some _ => Err (AttributeExists name)
  | None =>
      Ok {| attributes :=
              <[name := {| attributeType := type;
                           attributeComponentType := componentType;
                           attributeValues := values |}]>
                (attributes pointCloud);
            globalPosition := globalPosition pointCloud;
            globalColor := globalColor pointCloud |}
  end.

(** Modelled from the spec: the attribute stored under a name. *)
Definition getAttribute (name : string) (pointCloud : DefaultPointCloud)
    : option Attribute :=
  attributes pointCloud !! name.

(** Modelled from the spec: [getAttributeValues(name)], a sequence or
    absent. *)
Definition getAttributeValues (name : string)
    (pointCloud : DefaultPointCloud) : option Iterable :=
  attributeValues <$> attributes pointCloud !! name.

(** Modelled from the spec: the assignment of a well-known slot.  The
    slots of the positions, normals and per-point colours are the
    attributes POSITION, NORMAL and COLOR_0 (the pipeline tests them
    through [getAttributeValues]).  Section 4.2 gives the failure on a
    name that is present to [addAttribute] only: a setter sets its slot,
    whatever the slot holds. *)
Definition assignSlot (name type componentType : string)
    (values : Iterable) (pointCloud : DefaultPointCloud)
    : DefaultPointCloud :=
  {| attributes :=
       <[name := {| attributeType := type;
                    attributeComponentType := componentType;
                    attributeValues := values |}]>
         (attributes pointCloud);
     globalPosition := globalPosition pointCloud;
     globalColor := globalColor pointCloud |}.

(** Modelled from the spec: the slot of the positions, float triples. *)
Definition setPositions (positions : Iterable) :=
  assignSlot "POSITION" "VEC3" "FLOAT32" positions.

(** Modelled from the spec: the slot of the normals, float triples. *)
Definition setNormals (normals : Iterable) :=
  assignSlot "NORMAL" "VEC3" "FLOAT32" normals.

(** Modelled from the spec: the slot of the per-point colours,
    normalized-linear float 4-tuples. *)
Definition setNormalizedLinearColors (colors : Iterable) :=
  assignSlot "COLOR_0" "VEC4" "FLOAT32" colors.

(** Modelled from the spec: the optional slot of the global colour. *)
Definition setNormalizedLinearGlobalColor
    (color : option (number * number * number * number))
    (pointCloud : DefaultPointCloud) : DefaultPointCloud :=
  {| attributes := attributes pointCloud;
     globalPosition := globalPosition pointCloud;
     globalColor := color |}.

(** Modelled from the spec: the optional slot of the global position. *)
Definition setGlobalPosition (position : option (number * number * number))
    (pointCloud : DefaultPointCloud) : DefaultPointCloud :=
  {| attributes := attributes pointCloud;
     globalPosition := position;
     globalColor := globalColor pointCloud |}.

End PointCloud.

(** ** Tables *)

(** The [3DTILES_draco_point_compression] extension object of the feature
    table.  [properties] keeps the key order of the JSON object. *)
Record DracoPointCompression := {
  properties : list (string * Z);
  dracoByteOffset : nat;
  byteLength : nat
}.

(** The [extensions] dictionary; entries under other names are ignored
    by the decode pipeline. *)
Record FeatureTableExtensions := {
  ext_3DTILES_draco_point_compression : option DracoPointCompression
}.

Record PntsFeatureTable := {
  POSITION : option BinaryBodyOffset.t;
  POSITION_QUANTIZED : option BinaryBodyOffset.t;
  RGBA : option BinaryBodyOffset.t;
  RGB : option BinaryBodyOffset.t;
  RGB565 : option BinaryBodyOffset.t;
  NORMAL : option BinaryBodyOffset.t;
  NORMAL_OCT16P : option BinaryBodyOffset.t;
  BATCH_ID : option BinaryBodyOffset.t;
  POINTS_LENGTH : nat;
  RTC_CENTER : option NumberArrayProperty;
  QUANTIZED_VOLUME_OFFSET : option NumberArrayProperty;
  QUANTIZED_VOLUME_SCALE : option NumberArrayProperty;
  CONSTANT_RGBA : option NumberArrayProperty;
  BATCH_LENGTH : option nat;
  extensions : option FeatureTableExtensions
}.

Module BatchTableBinaryBodyReference.
Record t := {
  byteOffset : nat;
  componentType : LegacyComponentType;
  type : LegacyType
}.
End BatchTableBinaryBodyReference.

(** A property of the batch table: a reference into the binary body, or
    values given inline (kept as their JSON text, which the pipeline
    never inspects). *)
Inductive BatchTableProperty :=
  | BinaryBodyReference (reference : BatchTableBinaryBodyReference.t)
  | InlineValues (json : string).

(** The batch table: its properties by name, and the [properties] of its
    own [3DTILES_draco_point_compression] extension (in key order) when
    it has one. *)
Record BatchTable := {
  batchTableProperties : gmap string BatchTableProperty;
  batchTableDracoProperties : option (list (string * Z))
}.

Module BatchTables.

(** Modelled from the spec: the mesh-compression block of the side
    table, empty when there is none ([BatchTables.ts] is not among the
    sources). *)
Definition obtainDracoProperties (batchTable : BatchTable)
    : list (string * Z) :=
  default [] (batchTableDracoProperties batchTable).

(** Modelled from the spec: the names of the properties listed there. *)
Definition obtainDracoPropertyNames (batchTable : BatchTable)
    : list string :=
  (obtainDracoProperties batchTable).*1.

End BatchTables.

(** Modelled from the spec: the test
    [TileTableData.isBatchTableBinaryBodyReference] (a binary-body
    reference, not an inline constant), with the lookup
    [batchTable[propertyName]] that precedes it in the source. *)
Definition batchTableBinaryBodyReference (batchTable : BatchTable)
    (propertyName : string) : option BatchTableBinaryBodyReference.t :=
  match batchTableProperties batchTable !! propertyName with
  | Some (BinaryBodyReference reference) => Some reference
  | _ => None
  end.

(** ** The mesh-compression decoder *)

Module AttributeInfo.
Record t := {
  byteOffset : nat;
  componentDatatype : LegacyComponentType
}.
End AttributeInfo.

Record DracoAttribute := {
  attributeData : Buffer;
  attributeInfo : AttributeInfo.t
}.

Abbreviation DracoDecoderResult := (gmap string DracoAttribute).

(** The external decoder: one operation, from the property-to-stream map
    and the compressed bytes to a result; [None] when the decoder cannot
    be set up or rejects its input, which the caller sees as a
    compression error. *)
Class DracoDecoder := {
  decodePointCloud : gmap string Z -> Buffer -> option DracoDecoderResult
}.

(** ** The decode pipeline *)

(** [xs[i]] for an array of numbers, as an operand of arithmetic. *)
Definition at_ (xs : list number) (i : nat) : number := nth i xs nan.

(** Truthiness of a value of type [string | undefined]: the empty string
    is falsy. *)
Definition truthy (s : option string) : bool :=
  match s with
  | Some text => negb (String.eqb text "")
  | None => false
  end.

(** One statement of a method that updates the point cloud, or throws. *)
Definition Step := DefaultPointCloud -> Result DefaultPointCloud.

(** Runs statements in sequence; an exception ends the run. *)
Fixpoint run (steps : list Step) (pointCloud : DefaultPointCloud)
    : Result DefaultPointCloud :=
  match steps with
  | [] => Ok pointCloud
  | step :: rest => pointCloud' ← step pointCloud; run rest pointCloud'
  end.

(** The states of the point cloud during a run: the initial one and the
    one after each statement that completed. *)
Fixpoint reached (steps : list Step) (pointCloud : DefaultPointCloud)
    : list DefaultPointCloud :=
  pointCloud ::
  match steps with
  | [] => []
  | step :: rest =>
      match step pointCloud with
      | Ok pointCloud' => reached rest pointCloud'
      | Err _ => []
      end
  end.

Module PntsPointClouds.
Import PointCloud.

Section WithCollaborators.
Context {transfer : ColorTransfer} {decoder : DracoDecoder}.

Definition createPositionsInternal
    (binary : Buffer) (byteOffset numPoints : nat) : Iterable :=
  TileTableData.createNumericArrayIterable VEC3 FLOAT
    binary byteOffset numPoints.

Definition createQuantizedPositionsInternal
    (binary : Buffer) (byteOffset numPoints : nat) : Iterable :=
  TileTableData.createNumericArrayIterable VEC3 UNSIGNED_SHORT
    binary byteOffset numPoints.

Definition createNormalsInternal
    (binary : Buffer) (byteOffset numPoints : nat) : Iterable :=
  TileTableData.createNumericArrayIterable VEC3 FLOAT
    binary byteOffset numPoints.

Definition createOctEncodedNormalsInternal
    (binary : Buffer) (byteOffset numPoints : nat) : Iterable :=
  TileTableData.createNumericArrayIterable VEC2 UNSIGNED_BYTE
    binary byteOffset numPoints.

Definition createColorsStandardRGBInternal
    (binary : Buffer) (byteOffset numPoints : nat) : Iterable :=
  TileTableData.createNumericArrayIterable VEC3 UNSIGNED_BYTE
    binary byteOffset numPoints.

Definition createColorsStandardRGBAInternal
    (binary : Buffer) (byteOffset numPoints : nat) : Iterable :=
  TileTableData.createNumericArrayIterable VEC4 UNSIGNED_BYTE
    binary byteOffset numPoints.

Definition createColorsStandardRGB656Internal
    (binary : Buffer) (byteOffset numPoints : nat) : Iterable :=
  TileTableData.createNumericScalarIterable SCALAR UNSIGNED_SHORT
    binary byteOffset numPoints.

Definition createBatchIdsInternal (binary : Buffer) (byteOffset : nat)
    (legacyComponentType : LegacyComponentType) (numPoints : nat)
    : Iterable :=
  TileTableData.createNumericScalarIterable SCALAR legacyComponentType
    binary byteOffset numPoints.

Definition createDequantization (volumeOffset volumeScale : list number)
    : Value -> Value :=
  let scaleX := (at_ volumeScale 0 / 65535)%float in
  let scaleY := (at_ volumeScale 1 / 65535)%float in
  let scaleZ := (at_ volumeScale 2 / 65535)%float in
  let offsetX := at_ volumeOffset 0 in
  let offsetY := at_ volumeOffset 1 in
  let offsetZ := at_ volumeOffset 2 in
  fun input =>
    Arr [(idx input 0 * scaleX + offsetX)%float;
         (idx input 1 * scaleY + offsetY)%float;
         (idx input 2 * scaleZ + offsetZ)%float].

Definition mayRequireAlpha (featureTable : PntsFeatureTable) : bool :=
  if RGBA featureTable is Some _ then true
  else if RGB featureTable is Some _ then false
  else if RGB565 featureTable is Some _ then false
  else if CONSTANT_RGBA featureTable is Some _ then true
  else false.

Definition hasQuantizedPositions (featureTable : PntsFeatureTable)
    : bool :=
  if POSITION_QUANTIZED featureTable is Some _ then true else false.

Definition hasOctEncodedNormals (featureTable : PntsFeatureTable)
    : bool :=
  if NORMAL_OCT16P featureTable is Some _ then true else false.

(** Offset and scale of the quantized volume, or [undefined] when one
    of the two is missing.  (The source names the datatype of both
    arrays "FLOAT32".) *)
Definition obtainQuantizationOffsetScale
    (featureTable : PntsFeatureTable) (featureTableBinary : Buffer)
    : Result (option (list number * list number)) :=
  match QUANTIZED_VOLUME_OFFSET featureTable with
  | None => Ok None
  | Some quantizedVolumeOffset =>
      match QUANTIZED_VOLUME_SCALE featureTable with
      | None => Ok None
      | Some quantizedVolumeScale =>
          volumeOffset ← TileTableData.obtainNumberArray
            featureTableBinary quantizedVolumeOffset 3 FLOAT;
          volumeScale ← TileTableData.obtainNumberArray
            featureTableBinary quantizedVolumeScale 3 FLOAT;
          Ok (Some (volumeOffset, volumeScale))
      end
  end.

(** The decoder is created and called once; a failure of either is
    a compression error. *)
Definition obtainDracoDecodedAttributes
    (featureTable : PntsFeatureTable) (featureTableBinary : Buffer)
    (batchTable : BatchTable) : Result (option DracoDecoderResult) :=
  match extensions featureTable with
  | None => Ok None
  | Some exts =>
      match ext_3DTILES_draco_point_compression exts with
      | None => Ok None
      | Some featureTableExtension =>
          let allProperties : gmap string Z :=
            list_to_map (BatchTables.obtainDracoProperties batchTable)
            ∪ list_to_map (properties featureTableExtension) in
          let arrayStart := dracoByteOffset featureTableExtension in
          let arrayEnd :=
            (arrayStart + byteLength featureTableExtension)%nat in
          let buffer := subarray featureTableBinary arrayStart arrayEnd in
          match decodePointCloud allProperties buffer with
          | Some decoded => Ok (Some decoded)
          | None => Err DracoError
          end
      end
  end.

(** *** Statements of [assignDracoDecodedAttributes] *)

Definition assignDracoPositions (numPoints : nat)
    (dracoDecoderResult : DracoDecoderResult) : Step :=
  fun pointCloud =>
    match dracoDecoderResult !! "POSITION" with
    | Some dracoPositions =>
        let positions := createPositionsInternal
          (attributeData dracoPositions)
          (AttributeInfo.byteOffset (attributeInfo dracoPositions))
          numPoints in
        Ok (setPositions positions pointCloud)
    | None => Ok pointCloud
    end.

Definition assignDracoNormals (numPoints : nat)
    (dracoDecoderResult : DracoDecoderResult) : Step :=
  fun pointCloud =>
    match dracoDecoderResult !! "NORMAL" with
    | Some dracoNormals =>
        let normals := createNormalsInternal
          (attributeData dracoNormals)
          (AttributeInfo.byteOffset (attributeInfo dracoNormals))
          numPoints in
        Ok (setNormals normals pointCloud)
    | None => Ok pointCloud
    end.

Definition assignDracoRGB (numPoints : nat)
    (dracoDecoderResult : DracoDecoderResult) : Step :=
  fun pointCloud =>
    match dracoDecoderResult !! "RGB" with
    | Some dracoRGB =>
        let colorsStandardRGB := createColorsStandardRGBInternal
          (attributeData dracoRGB)
          (AttributeInfo.byteOffset (attributeInfo dracoRGB))
          numPoints in
        let colorsNormalizedLinearRGBA := Iterables.map
          Colors.standardRGBToNormalizedLinearRGBA colorsStandardRGB in
        Ok (setNormalizedLinearColors colorsNormalizedLinearRGBA
              pointCloud)
    | None => Ok pointCloud
    end.

Definition assignDracoRGBA (numPoints : nat)
    (dracoDecoderResult : DracoDecoderResult) : Step :=
  fun pointCloud =>
    match dracoDecoderResult !! "RGBA" with
    | Some dracoRGBA =>
        let colorsStandardRGBA := createColorsStandardRGBAInternal
          (attributeData dracoRGBA)
          (AttributeInfo.byteOffset (attributeInfo dracoRGBA))
          numPoints in
        let colorsNormalizedLinearRGBA := Iterables.map
          Colors.standardRGBAToNormalizedLinearRGBA colorsStandardRGBA in
        Ok (setNormalizedLinearColors colorsNormalizedLinearRGBA
              pointCloud)
    | None => Ok pointCloud
    end.

Definition assignDracoBatchId (numPoints : nat)
    (dracoDecoderResult : DracoDecoderResult) : Step :=
  fun pointCloud =>
    match dracoDecoderResult !! "BATCH_ID" with
    | Some dracoBatchId =>
        let legacyComponentType :=
          AttributeInfo.componentDatatype (attributeInfo dracoBatchId) in
        let batchIds := createBatchIdsInternal
          (attributeData dracoBatchId)
          (AttributeInfo.byteOffset (attributeInfo dracoBatchId))
          legacyComponentType numPoints in
        let componentType :=
          TileTableData.convertLegacyComponentTypeToComponentType
            legacyComponentType in
        addAttribute "_FEATURE_ID_0" "SCALAR" componentType batchIds
          pointCloud
    | None => Ok pointCloud
    end.

(** The body of the loop over the batch table's compressed property
    names. *)
Definition assignDracoProperty (numPoints : nat)
    (dracoDecoderResult : DracoDecoderResult) (batchTable : BatchTable)
    (propertyName : string) : Step :=
  fun pointCloud =>
    match dracoDecoderResult !! propertyName with
    | Some dracoProperty =>
        match batchTableBinaryBodyReference batchTable propertyName with
        | Some propertyValue =>
            let legacyType :=
              BatchTableBinaryBodyReference.type propertyValue in
            let legacyComponentType :=
              AttributeInfo.componentDatatype
                (attributeInfo dracoProperty) in
            let prpertyValues := TileTableData.createNumericScalarIterable
              legacyType legacyComponentType
              (attributeData dracoProperty)
              (AttributeInfo.byteOffset (attributeInfo dracoProperty))
              numPoints in
            let type := TileTableData.convertLegacyTypeToType legacyType in
            let componentType :=
              TileTableData.convertLegacyComponentTypeToComponentType
                legacyComponentType in
            addAttribute propertyName type componentType prpertyValues
              pointCloud
        | None => Ok pointCloud
        end
    | None => Ok pointCloud
    end.

Definition dracoSteps (numPoints : nat)
    (dracoDecoderResult : DracoDecoderResult) (batchTable : BatchTable)
    : list Step :=
  [assignDracoPositions numPoints dracoDecoderResult;
   assignDracoNormals numPoints dracoDecoderResult;
   assignDracoRGB numPoints dracoDecoderResult;
   assignDracoRGBA numPoints dracoDecoderResult;
   assignDracoBatchId numPoints dracoDecoderResult]
  ++ List.map (assignDracoProperty numPoints dracoDecoderResult batchTable)
       (BatchTables.obtainDracoPropertyNames batchTable).

Definition assignDracoDecodedAttributes (pointCloud : DefaultPointCloud)
    (numPoints : nat) (dracoDecoderResult : DracoDecoderResult)
    (batchTable : BatchTable) : Result DefaultPointCloud :=
  run (dracoSteps numPoints dracoDecoderResult batchTable) pointCloud.

(** *** Raw decodes *)

Definition createBatchIds (featureTable : PntsFeatureTable)
    (binary : Buffer) : Result (option Iterable) :=
  match BATCH_ID featureTable with
  | None => Ok None
  | Some batchId =>
      match BATCH_LENGTH featureTable with
      | None =>
          Err (TileFormatError "Found BATCH_ID but no BATCH_LENGTH")
      | Some batchLength =>
          let numPoints := POINTS_LENGTH featureTable in
          let legacyComponentType :=
            default UNSIGNED_SHORT
              (BinaryBodyOffset.componentType batchId) in
          let batchIds := createBatchIdsInternal binary
            (BinaryBodyOffset.byteOffset batchId)
            legacyComponentType numPoints in
          Ok (Some batchIds)
      end
  end.

Definition obtainBatchIdComponentType (featureTable : PntsFeatureTable)
    : option string :=
  match BATCH_ID featureTable with
  | None => None
  | Some batchId =>
      let legacyComponentType :=
        default UNSIGNED_SHORT (BinaryBodyOffset.componentType batchId) in
      Some (TileTableData.convertLegacyComponentTypeToComponentType
              legacyComponentType)
  end.

Definition createPositions (featureTable : PntsFeatureTable)
    (binary : Buffer) : Result Iterable :=
  let numPoints := POINTS_LENGTH featureTable in
  match POSITION featureTable with
  | Some position =>
      Ok (createPositionsInternal binary
            (BinaryBodyOffset.byteOffset position) numPoints)
  | None =>
      match POSITION_QUANTIZED featureTable with
      | Some positionQuantized =>
          quantization ←
            obtainQuantizationOffsetScale featureTable binary;
          match quantization with
          | None =>
              Err (TileFormatError
                ("The feature table contains POSITION_QUANTIZED, but not "
                 +:+ "QUANTIZED_VOLUME_OFFSET and QUANTIZED_VOLUME_OFFSET"))
          | Some (_, quantizationScale) =>
              let quantizedPositions := createQuantizedPositionsInternal
                binary (BinaryBodyOffset.byteOffset positionQuantized)
                numPoints in
              let offset := [0; 0; 0]%float in
              let dequantization :=
                createDequantization offset quantizationScale in
              Ok (Iterables.map dequantization quantizedPositions)
          end
      | None =>
          Err (TileFormatError
            "The feature table contains neither POSITION nor POSITION_QUANTIZED")
      end
  end.

Definition obtainGlobalPosition (featureTable : PntsFeatureTable)
    (featureTableBinary : Buffer)
    : Result (option (number * number * number)) :=
  fromRtcCenter ←
    match RTC_CENTER featureTable with
    | Some rtc =>
        rtcCenter ← TileTableData.obtainRtcCenter rtc featureTableBinary;
        Ok (Some (at_ rtcCenter 0, at_ rtcCenter 2,
                  (- at_ rtcCenter 1)%float))
    | None => Ok None
    end;
  quantization ←
    obtainQuantizationOffsetScale featureTable featureTableBinary;
  match quantization with
  | Some (quantizationOffset, _) =>
      let '(g0, g1, g2) := default (0, 0, 0)%float fromRtcCenter in
      Ok (Some ((g0 + at_ quantizationOffset 0)%float,
                (g1 + at_ quantizationOffset 2)%float,
                (g2 + - at_ quantizationOffset 1)%float))
  | None => Ok fromRtcCenter
  end.

Definition createNormals (featureTable : PntsFeatureTable)
    (binary : Buffer) : option Iterable :=
  let numPoints := POINTS_LENGTH featureTable in
  match NORMAL featureTable with
  | Some normal =>
      Some (createNormalsInternal binary
              (BinaryBodyOffset.byteOffset normal) numPoints)
  | None =>
      match NORMAL_OCT16P featureTable with
      | Some normalOct16p =>
          let octEncodedNormals := createOctEncodedNormalsInternal binary
            (BinaryBodyOffset.byteOffset normalOct16p) numPoints in
          Some (Iterables.map AttributeCompression.octDecode
                  octEncodedNormals)
      | None => None
      end
  end.

Definition createNormalizedLinearColors (featureTable : PntsFeatureTable)
    (binary : Buffer) : option Iterable :=
  let numPoints := POINTS_LENGTH featureTable in
  match RGBA featureTable with
  | Some rgba =>
      let colorsStandardRGBA := createColorsStandardRGBAInternal binary
        (BinaryBodyOffset.byteOffset rgba) numPoints in
      Some (Iterables.map Colors.standardRGBAToNormalizedLinearRGBA
              colorsStandardRGBA)
  | None =>
      match RGB featureTable with
      | Some rgb =>
          let colorsStandardRGB := createColorsStandardRGBInternal binary
            (BinaryBodyOffset.byteOffset rgb) numPoints in
          Some (Iterables.map Colors.standardRGBToNormalizedLinearRGBA
                  colorsStandardRGB)
      | None =>
          match RGB565 featureTable with
          | Some rgb565 =>
              let colorsStandardRGB565 :=
                createColorsStandardRGB656Internal binary
                  (BinaryBodyOffset.byteOffset rgb565) numPoints in
              Some (Iterables.map
                      Colors.standardRGB565ToNormalizedLinearRGBA
                      colorsStandardRGB565)
          | None => None
          end
      end
  end.

Definition createGlobalNormalizedLinearColor
    (featureTable : PntsFeatureTable) (binary : Buffer)
    : Result (option (number * number * number * number)) :=
  match CONSTANT_RGBA featureTable with
  | None => Ok None
  | Some constant =>
      constantRGBA ←
        TileTableData.obtainNumberArray binary constant 4 UNSIGNED_BYTE;
      let normalizedLinearRGBA :=
        Colors.standardRGBAToNormalizedLinearRGBA (Arr constantRGBA) in
      Ok (Some (idx normalizedLinearRGBA 0, idx normalizedLinearRGBA 1,
                idx normalizedLinearRGBA 2, idx normalizedLinearRGBA 3))
  end.

(** *** Statements of [create] after the mesh-compression block *)

Definition assignPositions (featureTable : PntsFeatureTable)
    (featureTableBinary : Buffer) : Step :=
  fun pointCloud =>
    if getAttributeValues "POSITION" pointCloud is Some _
    then Ok pointCloud
    else positions ← createPositions featureTable featureTableBinary;
         Ok (setPositions positions pointCloud).

Definition assignNormals (featureTable : PntsFeatureTable)
    (featureTableBinary : Buffer) : Step :=
  fun pointCloud =>
    if getAttributeValues "NORMAL" pointCloud is Some _
    then Ok pointCloud
    else match createNormals featureTable featureTableBinary with
         | Some normals => Ok (setNormals normals pointCloud)
         | None => Ok pointCloud
         end.

Definition assignColors (featureTable : PntsFeatureTable)
    (featureTableBinary : Buffer) : Step :=
  fun pointCloud =>
    if getAttributeValues "COLOR_0" pointCloud is Some _
    then Ok pointCloud
    else match createNormalizedLinearColors featureTable
                 featureTableBinary with
         | Some colors => Ok (setNormalizedLinearColors colors pointCloud)
         | None => Ok pointCloud
         end.

Definition assignBatchIds (featureTable : PntsFeatureTable)
    (featureTableBinary : Buffer) : Step :=
  fun pointCloud =>
    if getAttributeValues "_FEATURE_ID_0" pointCloud is Some _
    then Ok pointCloud
    else
      batchIds ← createBatchIds featureTable featureTableBinary;
      match batchIds with
      | Some batchIds =>
          let componentType := obtainBatchIdComponentType featureTable in
          if truthy componentType
          then addAttribute "_FEATURE_ID_0" "SCALAR"
                 (default "" componentType) batchIds pointCloud
          else Ok pointCloud
      | None => Ok pointCloud
      end.

Definition assignGlobalColor (featureTable : PntsFeatureTable)
    (featureTableBinary : Buffer) : Step :=
  fun pointCloud =>
    if getAttributeValues "COLOR_0" pointCloud is Some _
    then Ok pointCloud
    else
      globalColor ← createGlobalNormalizedLinearColor featureTable
                      featureTableBinary;
      Ok (setNormalizedLinearGlobalColor globalColor pointCloud).

Definition assignGlobalPosition (featureTable : PntsFeatureTable)
    (featureTableBinary : Buffer) : Step :=
  fun pointCloud =>
    globalPosition ← obtainGlobalPosition featureTable featureTableBinary;
    Ok (setGlobalPosition globalPosition pointCloud).

Definition rawSteps (featureTable : PntsFeatureTable)
    (featureTableBinary : Buffer) : list Step :=
  [assignPositions featureTable featureTableBinary;
   assignNormals featureTable featureTableBinary;
   assignColors featureTable featureTableBinary;
   assignBatchIds featureTable featureTableBinary;
   assignGlobalColor featureTable featureTableBinary;
   assignGlobalPosition featureTable featureTableBinary].

(** The point cloud after the mesh-compression block of [create]. *)
Definition afterDraco (featureTable : PntsFeatureTable)
    (dracoDecoderResult : option DracoDecoderResult)
    (batchTable : BatchTable) : Result DefaultPointCloud :=
  match dracoDecoderResult with
  | Some decoded =>
      let numPoints := POINTS_LENGTH featureTable in
      assignDracoDecodedAttributes PointCloud.empty numPoints decoded
        batchTable
  | None => Ok PointCloud.empty
  end.

Definition create (featureTable : PntsFeatureTable)
    (featureTableBinary : Buffer) (batchTable : BatchTable)
    : Result DefaultPointCloud :=
  dracoDecoderResult ← obtainDracoDecodedAttributes featureTable
                         featureTableBinary batchTable;
  pointCloud ← afterDraco featureTable dracoDecoderResult batchTable;
  run (rawSteps featureTable featureTableBinary) pointCloud.

(** The point cloud after step 1 of [create], the mesh-compression
    block. *)
Definition afterStep1 (featureTable : PntsFeatureTable)
    (featureTableBinary : Buffer) (batchTable : BatchTable)
    : Result DefaultPointCloud :=
  dracoDecoderResult ← obtainDracoDecodedAttributes featureTable
                         featureTableBinary batchTable;
  afterDraco featureTable dracoDecoderResult batchTable.

(** The point cloud after step 4 of [create]: positions, normals and
    colours are assigned. *)
Definition afterStep4 (featureTable : PntsFeatureTable)
    (featureTableBinary : Buffer) (batchTable : BatchTable)
    : Result DefaultPointCloud :=
  pointCloud ← afterStep1 featureTable featureTableBinary batchTable;
  run [assignPositions featureTable featureTableBinary;
       assignNormals featureTable featureTableBinary;
       assignColors featureTable featureTableBinary] pointCloud.


End WithCollaborators.
End PntsPointClouds.

(** ** The tileset source over a directory *)

(** The services of the platform that [TilesetSourceFs] calls: Node's
    [fs] and [path] modules, and the directory walk and path
    relativization of the repository's base library. *)
Class FileSystem := {
  existsSync : string -> bool;
  readFileSync : string -> Result Buffer;
  pathJoin : string -> string -> string;
  overFiles : string -> bool -> Result (list string);
  relativize : string -> string -> string
}.

Record TilesetSourceFs := {
  fullInputName : option string
}.

Module TilesetSource.
Section WithFileSystem.
Context {fileSystem : FileSystem}.

Definition notOpened : Error :=
  TilesetError "Source is not opened. Call 'open' first.".

(** The constructor. *)
Definition new : TilesetSourceFs := {| fullInputName := None |}.

Definition open (name : string) (source : TilesetSourceFs)
    : Result TilesetSourceFs :=
  if truthy (fullInputName source)
  then Err (TilesetError "Source already opened")
  else Ok {| fullInputName := Some name |}.

Definition getKeys (source : TilesetSourceFs) : Result (list string) :=
  if negb (truthy (fullInputName source)) then Err notOpened
  else
    let name := default "" (fullInputName source) in
    files ← overFiles name true;
    Ok (List.map (fun file => relativize name file) files).

Definition getValue (key : string) (source : TilesetSourceFs)
    : Result (option Buffer) :=
  if negb (truthy (fullInputName source)) then Err notOpened
  else
    let fullFileName :=
      pathJoin (default "" (fullInputName source)) key in
    if negb (existsSync fullFileName) then Ok None
    else data ← readFileSync fullFileName; Ok (Some data).

Definition close (source : TilesetSourceFs) : Result TilesetSourceFs :=
  if negb (truthy (fullInputName source)) then Err notOpened
  else Ok {| fullInputName := None |}.

(** The source counts as opened when its directory name is set (to
    a truthy, that is non-empty, string). *)
Definition isOpened (source : TilesetSourceFs) : Prop :=
  truthy (fullInputName source) = true.

End WithFileSystem.
End TilesetSource.

(** ** Instances used by the examples *)

(** A transfer function for the examples: plain normalization of the
    byte, and an RGB565 source that is already unpacked. *)
Definition exampleTransfer : ColorTransfer := {|
  componentToLinear := fun c => (c / 255)%float;
  alphaToNormalized := fun a => (a / 255)%float;
  unpackRGB565 := fun word => word
|}.

(** A decoder that is never reached (tables without the extension) and
    rejects its input otherwise. *)
Definition rejectingDecoder : DracoDecoder := {|
  decodePointCloud := fun _ _ => None
|}.

(** A decoder that returns one attribute, whose data are the compressed
    bytes themselves, for every stream it is asked for. *)
Definition echoDecoder (legacyComponentType : LegacyComponentType)
    : DracoDecoder := {|
  decodePointCloud := fun allProperties buffer =>
    Some ((fun _ => {| attributeData := buffer;
                     attributeInfo :=
                       {| AttributeInfo.byteOffset := 0;
                          AttributeInfo.componentDatatype :=
                            legacyComponentType |} |})
        <$> allProperties)
|}.

(** A directory that holds a single file. *)
Definition exampleFileSystem : FileSystem := {|
  existsSync := fun file => String.eqb file "tiles/tileset.json";
  readFileSync := fun file =>
    if String.eqb file "tiles/tileset.json" then Ok [x7b; x7d]
    else Err IOError;
  pathJoin := fun directory key => directory +:+ "/" +:+ key;
  overFiles := fun directory _ =>
    if String.eqb directory "tiles" then Ok ["tiles/tileset.json"]
    else Err IOError;
  relativize := fun directory file =>
    String.substring (String.length directory + 1)
      (String.length file - (String.length directory + 1)) file
|}.

Definition emptyFeatureTable (numPoints : nat) : PntsFeatureTable := {|
  POSITION := None; POSITION_QUANTIZED := None;
  RGBA := None; RGB := None; RGB565 := None;
  NORMAL := None; NORMAL_OCT16P := None; BATCH_ID := None;
  POINTS_LENGTH := numPoints;
  RTC_CENTER := None;
  QUANTIZED_VOLUME_OFFSET := None; QUANTIZED_VOLUME_SCALE := None;
  CONSTANT_RGBA := None; BATCH_LENGTH := None;
  extensions := None
|}.

Definition emptyBatchTable : BatchTable := {|
  batchTableProperties := ∅;
  batchTableDracoProperties := None
|}.

Definition at0 : BinaryBodyOffset.t :=
  {| BinaryBodyOffset.byteOffset := 0; BinaryBodyOffset.componentType := None |}.

(** The feature table with other POSITION and POSITION_QUANTIZED fields. *)
Definition withPositions (featureTable : PntsFeatureTable)
    (position positionQuantized : option BinaryBodyOffset.t)
    : PntsFeatureTable := {|
  POSITION := position;
  POSITION_QUANTIZED := positionQuantized;
  RGBA := RGBA featureTable;
  RGB := RGB featureTable;
  RGB565 := RGB565 featureTable;
  NORMAL := NORMAL featureTable;
  NORMAL_OCT16P := NORMAL_OCT16P featureTable;
  BATCH_ID := BATCH_ID featureTable;
  POINTS_LENGTH := POINTS_LENGTH featureTable;
  RTC_CENTER := RTC_CENTER featureTable;
  QUANTIZED_VOLUME_OFFSET := QUANTIZED_VOLUME_OFFSET featureTable;
  QUANTIZED_VOLUME_SCALE := QUANTIZED_VOLUME_SCALE featureTable;
  CONSTANT_RGBA := CONSTANT_RGBA featureTable;
  BATCH_LENGTH := BATCH_LENGTH featureTable;
  extensions := extensions featureTable
|}.

(** The feature table with another CONSTANT_RGBA field. *)
Definition withConstantRGBA (featureTable : PntsFeatureTable)
    (constant : option NumberArrayProperty) : PntsFeatureTable := {|
  POSITION := POSITION featureTable;
  POSITION_QUANTIZED := POSITION_QUANTIZED featureTable;
  RGBA := RGBA featureTable;
  RGB := RGB featureTable;
  RGB565 := RGB565 featureTable;
  NORMAL := NORMAL featureTable;
  NORMAL_OCT16P := NORMAL_OCT16P featureTable;
  BATCH_ID := BATCH_ID featureTable;
  POINTS_LENGTH := POINTS_LENGTH featureTable;
  RTC_CENTER := RTC_CENTER featureTable;
  QUANTIZED_VOLUME_OFFSET := QUANTIZED_VOLUME_OFFSET featureTable;
  QUANTIZED_VOLUME_SCALE := QUANTIZED_VOLUME_SCALE featureTable;
  CONSTANT_RGBA := constant;
  BATCH_LENGTH := BATCH_LENGTH featureTable;
  extensions := extensions featureTable
|}.

(** A statement only adds attributes: those present before it are
    present after it, with the same type and values. *)
Definition monotone (step : Step) : Prop :=
  forall pointCloud pointCloud',
    step pointCloud = Ok pointCloud' ->
    attributes pointCloud ⊆ attributes pointCloud'.

(** A statement leaves every attribute other than [name] as it is. *)
Definition touchesOnly (name : string) (step : Step) : Prop :=
  forall pointCloud pointCloud' other,
    step pointCloud = Ok pointCloud' ->
    other <> name ->
    attributes pointCloud' !! other = attributes pointCloud !! other.

(** A statement leaves the attribute [name] as it is. *)
Definition preserves (name : string) (step : Step) : Prop :=
  forall pointCloud pointCloud',
    step pointCloud = Ok pointCloud' ->
    attributes pointCloud' !! name = attributes pointCloud !! name.

(** A statement leaves the attribute [name] as it is when the point
    cloud has it. *)
Definition keepsName (name : string) (step : Step) : Prop :=
  forall pointCloud pointCloud' attribute,
    step pointCloud = Ok pointCloud' ->
    attributes pointCloud !! name = Some attribute ->
    attributes pointCloud' !! name = Some attribute.


(** A statement leaves the global colour slot as it is. *)
Definition keepsGlobalColor (step : Step) : Prop :=
  forall pointCloud pointCloud',
    step pointCloud = Ok pointCloud' ->
    globalColor pointCloud' = globalColor pointCloud.

(** The structural conditions of the feature table under which the
    design document has [create] raise a format error: POSITION_QUANTIZED
    without QUANTIZED_VOLUME_OFFSET or QUANTIZED_VOLUME_SCALE, BATCH_ID
    without BATCH_LENGTH, neither POSITION nor POSITION_QUANTIZED. *)
Definition formatErrorConditions (featureTable : PntsFeatureTable) : Prop :=
  (is_Some (POSITION_QUANTIZED featureTable) /\
   (QUANTIZED_VOLUME_OFFSET featureTable = None \/
    QUANTIZED_VOLUME_SCALE featureTable = None))
  \/ (is_Some (BATCH_ID featureTable) /\ BATCH_LENGTH featureTable = None)
  \/ (POSITION featureTable = None /\ POSITION_QUANTIZED featureTable = None).

(** A table with POSITION and POSITION_QUANTIZED and no quantized
    volume, for no points. *)
Definition bothPositionsTable : PntsFeatureTable :=
  withPositions (emptyFeatureTable 0) (Some at0) (Some at0).

(** A feature table for no points with a raw POSITION field and an
    empty mesh-compression extension, and a batch table that lists its
    property FOO as compressed but gives it inline. *)
Definition compressedFeatureTable : PntsFeatureTable := {|
  POSITION := Some at0; POSITION_QUANTIZED := None;
  RGBA := None; RGB := None; RGB565 := None;
  NORMAL := None; NORMAL_OCT16P := None; BATCH_ID := None;
  POINTS_LENGTH := 0;
  RTC_CENTER := None;
  QUANTIZED_VOLUME_OFFSET := None; QUANTIZED_VOLUME_SCALE := None;
  CONSTANT_RGBA := None; BATCH_LENGTH := None;
  extensions :=
    Some {| ext_3DTILES_draco_point_compression :=
              Some {| properties := [];
                      dracoByteOffset := 0;
                      byteLength := 0 |} |}
|}.

Definition inlineFooBatchTable : BatchTable := {|
  batchTableProperties := {[ "FOO" := InlineValues "[1,2,3]" ]};
  batchTableDracoProperties := Some [("FOO", 3)]
|}.

(** One point with quantized coordinates (1, 2, 65535) in a volume of
    scale (65535, 131070, 1) and offset (10, 20, 30), around the centre
    (1, 2, 3), with the constant colour red. *)
Definition quantizedTable : PntsFeatureTable := {|
  POSITION := None; POSITION_QUANTIZED := Some at0;
  RGBA := None; RGB := None; RGB565 := None;
  NORMAL := None; NORMAL_OCT16P := None; BATCH_ID := None;
  POINTS_LENGTH := 1;
  RTC_CENTER := Some (InlineArray [1; 2; 3]%float);
  QUANTIZED_VOLUME_OFFSET := Some (InlineArray [10; 20; 30]%float);
  QUANTIZED_VOLUME_SCALE := Some (InlineArray [65535; 131070; 1]%float);
  CONSTANT_RGBA := Some (InlineArray [255; 0; 0; 255]%float);
  BATCH_LENGTH := None;
  extensions := None
|}.

Definition quantizedBinary : Buffer := [x01; x00; x02; x00; xff; xff].

(** No points, raw positions, and RTC_CENTER = [1, 2, 3] without a
    quantized volume. *)
Definition rtcTable : PntsFeatureTable := {|
  POSITION := Some at0; POSITION_QUANTIZED := None;
  RGBA := None; RGB := None; RGB565 := None;
  NORMAL := None; NORMAL_OCT16P := None; BATCH_ID := None;
  POINTS_LENGTH := 0;
  RTC_CENTER := Some (InlineArray [1; 2; 3]%float);
  QUANTIZED_VOLUME_OFFSET := None; QUANTIZED_VOLUME_SCALE := None;
  CONSTANT_RGBA := None; BATCH_LENGTH := None;
  extensions := None
|}.

(** One point at (1, -2, 0), with RGBA and RGB both present, and a batch
    identifier without a declared component datatype. *)
Definition colorsTable : PntsFeatureTable := {|
  POSITION := Some at0; POSITION_QUANTIZED := None;
  RGBA := Some {| BinaryBodyOffset.byteOffset := 12;
                  BinaryBodyOffset.componentType := None |};
  RGB := Some {| BinaryBodyOffset.byteOffset := 16;
                 BinaryBodyOffset.componentType := None |};
  RGB565 := None;
  NORMAL := None; NORMAL_OCT16P := None;
  BATCH_ID := Some {| BinaryBodyOffset.byteOffset := 20;
                      BinaryBodyOffset.componentType := None |};
  POINTS_LENGTH := 1;
  RTC_CENTER := None;
  QUANTIZED_VOLUME_OFFSET := None; QUANTIZED_VOLUME_SCALE := None;
  CONSTANT_RGBA := Some (InlineArray [255; 0; 0; 255]%float);
  BATCH_LENGTH := Some 1%nat;
  extensions := None
|}.

Definition colorsBinary : Buffer :=
  [x00; x00; x80; x3f; x00; x00; x00; xc0; x00; x00; x00; x00;
   xff; x80; x00; xff;
   x00; xff; x00; x00;
   x34; x12].

(** One point whose POSITION and RGB are mesh-compressed, in a table
    that also has raw POSITION and RGBA fields. *)
Definition dracoTable : PntsFeatureTable := {|
  POSITION := Some at0; POSITION_QUANTIZED := None;
  RGBA := Some at0; RGB := None; RGB565 := None;
  NORMAL := None; NORMAL_OCT16P := None; BATCH_ID := None;
  POINTS_LENGTH := 1;
  RTC_CENTER := None;
  QUANTIZED_VOLUME_OFFSET := None; QUANTIZED_VOLUME_SCALE := None;
  CONSTANT_RGBA := None; BATCH_LENGTH := None;
  extensions :=
    Some {| ext_3DTILES_draco_point_compression :=
              Some {| properties := [("POSITION", 0); ("RGB", 1)];
                      dracoByteOffset := 0;
                      byteLength := 12 |} |}
|}.

(** One point whose POSITION, RGB and RGBA are all mesh-compressed. *)
Definition bothColorsTable : PntsFeatureTable := {|
  POSITION := None; POSITION_QUANTIZED := None;
  RGBA := None; RGB := None; RGB565 := None;
  NORMAL := None; NORMAL_OCT16P := None; BATCH_ID := None;
  POINTS_LENGTH := 1;
  RTC_CENTER := None;
  QUANTIZED_VOLUME_OFFSET := None; QUANTIZED_VOLUME_SCALE := None;
  CONSTANT_RGBA := None; BATCH_LENGTH := None;
  extensions :=
    Some {| ext_3DTILES_draco_point_compression :=
              Some {| properties :=
                        [("POSITION", 0); ("RGB", 1); ("RGBA", 2)];
                      dracoByteOffset := 0;
                      byteLength := 16 |} |}
|}.


(** A batch table whose compressed property FOO is a reference into the
    binary body, declared as VEC3 of FLOAT. *)
Definition referenceFooBatchTable : BatchTable := {|
  batchTableProperties :=
    {[ "FOO" := BinaryBodyReference
                  {| BatchTableBinaryBodyReference.byteOffset := 0;
                     BatchTableBinaryBodyReference.componentType := FLOAT;
                     BatchTableBinaryBodyReference.type := VEC3 |} ]};
  batchTableDracoProperties := Some [("FOO", 3)]
|}.

(** A source opened on the directory of the example file system. *)
Definition openedSource : TilesetSourceFs :=
  {| fullInputName := Some "tiles" |}.

(** A statement never raises a format error. *)
Definition neverFormatError (step : Step) : Prop :=
  forall pointCloud, isFormatError (step pointCloud) = false.

(** ** What one call of [create] can store *)

Section Stores.
Context {transfer : ColorTransfer}.
Import PntsPointClouds.

(** The stores that the statements of [create] make, read off the
    source: the name and the attribute of each call of [setPositions],
    [setNormals], [setNormalizedLinearColors] and [addAttribute], with the
    condition under which the statement makes it. *)
Inductive Stored (featureTable : PntsFeatureTable) (binary : Buffer)
    (batchTable : BatchTable) (decoded : option DracoDecoderResult)
    : string -> Attribute -> Prop :=
  | StoredDracoPositions result dracoPositions :
      decoded = Some result ->
      result !! "POSITION" = Some dracoPositions ->
      Stored featureTable binary batchTable decoded "POSITION"
        {| attributeType := "VEC3"; attributeComponentType := "FLOAT32";
           attributeValues :=
             createPositionsInternal (attributeData dracoPositions)
               (AttributeInfo.byteOffset (attributeInfo dracoPositions))
               (POINTS_LENGTH featureTable) |}
  | StoredDracoNormals result dracoNormals :
      decoded = Some result ->
      result !! "NORMAL" = Some dracoNormals ->
      Stored featureTable binary batchTable decoded "NORMAL"
        {| attributeType := "VEC3"; attributeComponentType := "FLOAT32";
           attributeValues :=
             createNormalsInternal (attributeData dracoNormals)
               (AttributeInfo.byteOffset (attributeInfo dracoNormals))
               (POINTS_LENGTH featureTable) |}
  | StoredDracoRGB result dracoRGB :
      decoded = Some result ->
      result !! "RGB" = Some dracoRGB ->
      Stored featureTable binary batchTable decoded "COLOR_0"
        {| attributeType := "VEC4"; attributeComponentType := "FLOAT32";
           attributeValues :=
             Iterables.map Colors.standardRGBToNormalizedLinearRGBA
               (createColorsStandardRGBInternal (attributeData dracoRGB)
                  (AttributeInfo.byteOffset (attributeInfo dracoRGB))
                  (POINTS_LENGTH featureTable)) |}
  | StoredDracoRGBA result dracoRGBA :
      decoded = Some result ->
      result !! "RGBA" = Some dracoRGBA ->
      Stored featureTable binary batchTable decoded "COLOR_0"
        {| attributeType := "VEC4"; attributeComponentType := "FLOAT32";
           attributeValues :=
             Iterables.map Colors.standardRGBAToNormalizedLinearRGBA
               (createColorsStandardRGBAInternal (attributeData dracoRGBA)
                  (AttributeInfo.byteOffset (attributeInfo dracoRGBA))
                  (POINTS_LENGTH featureTable)) |}
  | StoredDracoBatchId result dracoBatchId :
      decoded = Some result ->
      result !! "BATCH_ID" = Some dracoBatchId ->
      Stored featureTable binary batchTable decoded "_FEATURE_ID_0"
        {| attributeType := "SCALAR";
           attributeComponentType :=
             TileTableData.convertLegacyComponentTypeToComponentType
               (AttributeInfo.componentDatatype (attributeInfo dracoBatchId));
           attributeValues :=
             createBatchIdsInternal (attributeData dracoBatchId)
               (AttributeInfo.byteOffset (attributeInfo dracoBatchId))
               (AttributeInfo.componentDatatype (attributeInfo dracoBatchId))
               (POINTS_LENGTH featureTable) |}
  | StoredDracoProperty result propertyName dracoProperty propertyValue :
      decoded = Some result ->
      propertyName ∈ BatchTables.obtainDracoPropertyNames batchTable ->
      result !! propertyName = Some dracoProperty ->
      batchTableBinaryBodyReference batchTable propertyName
        = Some propertyValue ->
      Stored featureTable binary batchTable decoded propertyName
        {| attributeType :=
             TileTableData.convertLegacyTypeToType
               (BatchTableBinaryBodyReference.type propertyValue);
           attributeComponentType :=
             TileTableData.convertLegacyComponentTypeToComponentType
               (AttributeInfo.componentDatatype (attributeInfo dracoProperty));
           attributeValues :=
             TileTableData.createNumericScalarIterable
               (BatchTableBinaryBodyReference.type propertyValue)
               (AttributeInfo.componentDatatype (attributeInfo dracoProperty))
               (attributeData dracoProperty)
               (AttributeInfo.byteOffset (attributeInfo dracoProperty))
               (POINTS_LENGTH featureTable) |}
  | StoredPositions positions :
      createPositions featureTable binary = Ok positions ->
      Stored featureTable binary batchTable decoded "POSITION"
        {| attributeType := "VEC3"; attributeComponentType := "FLOAT32";
           attributeValues := positions |}
  | StoredNormals normals :
      createNormals featureTable binary = Some normals ->
      Stored featureTable binary batchTable decoded "NORMAL"
        {| attributeType := "VEC3"; attributeComponentType := "FLOAT32";
           attributeValues := normals |}
  | StoredColors colors :
      createNormalizedLinearColors featureTable binary = Some colors ->
      Stored featureTable binary batchTable decoded "COLOR_0"
        {| attributeType := "VEC4"; attributeComponentType := "FLOAT32";
           attributeValues := colors |}
  | StoredBatchIds batchId batchLength :
      BATCH_ID featureTable = Some batchId ->
      BATCH_LENGTH featureTable = Some batchLength ->
      Stored featureTable binary batchTable decoded "_FEATURE_ID_0"
        {| attributeType := "SCALAR";
           attributeComponentType :=
             TileTableData.convertLegacyComponentTypeToComponentType
               (default UNSIGNED_SHORT
                  (BinaryBodyOffset.componentType batchId));
           attributeValues :=
             createBatchIdsInternal binary
               (BinaryBodyOffset.byteOffset batchId)
               (default UNSIGNED_SHORT
                  (BinaryBodyOffset.componentType batchId))
               (POINTS_LENGTH featureTable) |}.

End Stores.

(** Every attribute of the point cloud satisfies [P]. *)
Definition attributesSatisfy (P : string -> Attribute -> Prop)
    (pointCloud : DefaultPointCloud) : Prop :=
  forall name attribute,
    attributes pointCloud !! name = Some attribute -> P name attribute.

(** A statement keeps the attributes within [P]. *)
Definition stepKeeps (P : string -> Attribute -> Prop) (step : Step) : Prop :=
  forall pointCloud pointCloud',
    attributesSatisfy P pointCloud ->
    step pointCloud = Ok pointCloud' ->
    attributesSatisfy P pointCloud'.

(** The feature table with other NORMAL and NORMAL_OCT16P fields. *)
Definition withNormals (featureTable : PntsFeatureTable)
    (normal normalOct16p : option BinaryBodyOffset.t)
    : PntsFeatureTable := {|
  POSITION := POSITION featureTable;
  POSITION_QUANTIZED := POSITION_QUANTIZED featureTable;
  RGBA := RGBA featureTable;
  RGB := RGB featureTable;
  RGB565 := RGB565 featureTable;
  NORMAL := normal;
  NORMAL_OCT16P := normalOct16p;
  BATCH_ID := BATCH_ID featureTable;
  POINTS_LENGTH := POINTS_LENGTH featureTable;
  RTC_CENTER := RTC_CENTER featureTable;
  QUANTIZED_VOLUME_OFFSET := QUANTIZED_VOLUME_OFFSET featureTable;
  QUANTIZED_VOLUME_SCALE := QUANTIZED_VOLUME_SCALE featureTable;
  CONSTANT_RGBA := CONSTANT_RGBA featureTable;
  BATCH_LENGTH := BATCH_LENGTH featureTable;
  extensions := extensions featureTable
|}.

(** The feature table with other colour fields. *)
Definition withColors (featureTable : PntsFeatureTable)
    (rgba rgb rgb565 : option BinaryBodyOffset.t)
    (constant : option NumberArrayProperty) : PntsFeatureTable := {|
  POSITION := POSITION featureTable;
  POSITION_QUANTIZED := POSITION_QUANTIZED featureTable;
  RGBA := rgba;
  RGB := rgb;
  RGB565 := rgb565;
  NORMAL := NORMAL featureTable;
  NORMAL_OCT16P := NORMAL_OCT16P featureTable;
  BATCH_ID := BATCH_ID featureTable;
  POINTS_LENGTH := POINTS_LENGTH featureTable;
  RTC_CENTER := RTC_CENTER featureTable;
  QUANTIZED_VOLUME_OFFSET := QUANTIZED_VOLUME_OFFSET featureTable;
  QUANTIZED_VOLUME_SCALE := QUANTIZED_VOLUME_SCALE featureTable;
  CONSTANT_RGBA := constant;
  BATCH_LENGTH := BATCH_LENGTH featureTable;
  extensions := extensions featureTable
|}.

(** The feature table with other BATCH_ID and BATCH_LENGTH fields. *)
Definition withBatchIds (featureTable : PntsFeatureTable)
    (batchId : option BinaryBodyOffset.t) (batchLength : option nat)
    : PntsFeatureTable := {|
  POSITION := POSITION featureTable;
  POSITION_QUANTIZED := POSITION_QUANTIZED featureTable;
  RGBA := RGBA featureTable;
  RGB := RGB featureTable;
  RGB565 := RGB565 featureTable;
  NORMAL := NORMAL featureTable;
  NORMAL_OCT16P := NORMAL_OCT16P featureTable;
  BATCH_ID := batchId;
  POINTS_LENGTH := POINTS_LENGTH featureTable;
  RTC_CENTER := RTC_CENTER featureTable;
  QUANTIZED_VOLUME_OFFSET := QUANTIZED_VOLUME_OFFSET featureTable;
  QUANTIZED_VOLUME_SCALE := QUANTIZED_VOLUME_SCALE featureTable;
  CONSTANT_RGBA := CONSTANT_RGBA featureTable;
  BATCH_LENGTH := batchLength;
  extensions := extensions featureTable
|}.

(** The exceptions of the raw decodes: a format error or a range
    error. *)
Definition isDecodeError (e : Error) : bool :=
  match e with
  | TileFormatError _ | RangeError => true
  | _ => false
  end.

(** The feature table declares no mesh compression. *)
Definition withoutCompression (featureTable : PntsFeatureTable) : Prop :=
  forall exts,
    extensions featureTable = Some exts ->
    ext_3DTILES_draco_point_compression exts = None.

(** ** The tileset object upgrader *)

Module Content.
(** A tile content: its [uri], the legacy [url] that old tilesets use in
    its place, and its other properties (kept as their JSON text, which
    the upgrader never inspects). *)
Record t := {
  uri : option string;
  url : option string;
  others : string
}.
End Content.

(** The properties of a tile other than its children. *)
Record TileData := {
  refine : option string;
  content : option Content.t;
  contents : option (list Content.t);
  tileOthers : string
}.

(** A tile of the explicit hierarchy. *)
#[local] Set Warnings "-register-all".
Inductive Tile :=
  | mkTile (data : TileData) (children : option (list Tile)).

Record Asset := {
  version : string;
  assetOthers : string
}.

Record Tileset := {
  asset : Asset;
  root : Tile;
  tilesetOthers : string
}.

(** The fields of [TilesetUpgradeOptions] that the upgrader reads. *)
Module TilesetUpgradeOptions.
Record t := {
  upgradedAssetVersionNumber : option string;
  upgradeRefineCase : bool;
  upgradeContentUrlToUri : bool;
  upgradeContentGltfExtensionDeclarations : bool
}.
End TilesetUpgradeOptions.

(** A value together with the messages passed to the log callback while
    it was computed, in order. *)
Definition Logged (A : Type) : Type := A * list string.

(** What the upgrader calls and the sources do not contain: the
    [toUpperCase] of the platform's strings, the removal of a name from
    the extension declarations of a tileset ([Extensions.ts]), and the
    traversal of the explicit tile hierarchy ([Tiles.ts]).  Both
    callbacks that the upgrader passes to the traversal answer [true] (go
    on with the children) and read and write only the [refine], [content]
    and [contents] of the last tile of the path they are given, so a
    callback is a function on the properties of one tile. *)
Class UpgraderPlatform := {
  toUpperCase : string -> string;
  removeExtensionUsed : Tileset -> string -> Tileset;
  traverseExplicit :
    (TileData -> Logged TileData) -> Tile -> Logged Tile
}.

(** The induction principle of tiles, with the children of a tile as
    induction hypotheses. *)
Fixpoint Tile_induction (P : Tile -> Prop)
    (step : forall data children,
        match children with
        | Some tiles => Forall P tiles
        | None => True
        end ->
        P (mkTile data children))
    (tile : Tile) : P tile :=
  match tile with
  | mkTile data children =>
      step data children
        (match children as c
               return match c with
                      | Some tiles => Forall P tiles
                      | None => True
                      end with
         | None => I
         | Some tiles =>
             (fix all (ts : list Tile) : Forall P ts :=
                match ts with
                | [] => @List.Forall_nil _ P
                | t :: rest =>
                    @List.Forall_cons _ P t rest
                        (Tile_induction P step t) (all rest)
                end) tiles
         end)
  end.

Module TilesetObjectUpgrader.
Section WithPlatform.
Context {platform : UpgraderPlatform}.

Definition upgradeAssetVersionNumber (tileset : Tileset)
    (targetVersion : string) : Logged Tileset :=
  if negb (String.eqb (version (asset tileset)) targetVersion)
  then
    ({| asset := {| version := targetVersion;
                    assetOthers := assetOthers (asset tileset) |};
        root := root tileset;
        tilesetOthers := tilesetOthers tileset |},
     ["  Upgrading asset version from " +:+ version (asset tileset)
      +:+ " to " +:+ targetVersion])
  else (tileset, []).

Definition upgradeContentUrlToUri (content : Content.t)
    : Logged Content.t :=
  if truthy (Content.uri content) then (content, [])
  else if truthy (Content.url content) then
    ({| Content.uri := Content.url content;
        Content.url := None;
        Content.others := Content.others content |},
     ["  Renaming 'url' property for content "
      +:+ default "" (Content.url content) +:+ " to 'uri'"])
  else
    (content,
     ["  The content does not have a 'uri' property (and no legacy 'url' property)"]).

(** The loop over [tile.contents]. *)
Fixpoint upgradeContents (contents : list Content.t)
    : Logged (list Content.t) :=
  match contents with
  | [] => ([], [])
  | content :: rest =>
      let (content', messages) := upgradeContentUrlToUri content in
      let (rest', messages') := upgradeContents rest in
      (content' :: rest', messages ++ messages')
  end.

(** The callback of [upgradeEachContentUrlToUri]. *)
Definition upgradeTileContents (tile : TileData) : Logged TileData :=
  let (content', messages) :=
    match content tile with
    | Some c =>
        let (c', messages) := upgradeContentUrlToUri c in (Some c', messages)
    | None => (None, [])
    end in
  let (contents', messages') :=
    match contents tile with
    | Some cs =>
        let (cs', messages') := upgradeContents cs in (Some cs', messages')
    | None => (None, [])
    end in
  ({| refine := refine tile;
      content := content';
      contents := contents';
      tileOthers := tileOthers tile |},
   messages ++ messages').

Definition upgradeEachContentUrlToUri (tileset : Tileset)
    : Logged Tileset :=
  let (root', messages) :=
    traverseExplicit upgradeTileContents (root tileset) in
  ({| asset := asset tileset;
      root := root';
      tilesetOthers := tilesetOthers tileset |},
   messages).

(** The callback of [upgradeRefineValues]. *)
Definition upgradeTileRefine (tile : TileData) : Logged TileData :=
  if truthy (refine tile)
     && negb (String.eqb (default "" (refine tile)) "ADD")
     && negb (String.eqb (default "" (refine tile)) "REPLACE")
  then
    let oldValue := default "" (refine tile) in
    let newValue := toUpperCase oldValue in
    ({| refine := Some newValue;
        content := content tile;
        contents := contents tile;
        tileOthers := tileOthers tile |},
     ["  Renaming 'refine' value from " +:+ oldValue
      +:+ " to " +:+ newValue])
  else (tile, []).

Definition upgradeRefineValues (tileset : Tileset) : Logged Tileset :=
  let (root', messages) :=
    traverseExplicit upgradeTileRefine (root tileset) in
  ({| asset := asset tileset;
      root := root';
      tilesetOthers := tilesetOthers tileset |},
   messages).

Definition upgradeTilesetObject (upgradeOptions : TilesetUpgradeOptions.t)
    (tileset : Tileset) : Logged Tileset :=
  let (tileset1, messages1) :=
    if truthy (TilesetUpgradeOptions.upgradedAssetVersionNumber upgradeOptions)
    then
      let (t, messages) :=
        upgradeAssetVersionNumber tileset
          (default "" (TilesetUpgradeOptions.upgradedAssetVersionNumber upgradeOptions)) in
      (t, "Upgrading asset version number" :: messages)
    else (tileset, []) in
  let (tileset2, messages2) :=
    if TilesetUpgradeOptions.upgradeRefineCase upgradeOptions
    then
      let (t, messages) := upgradeRefineValues tileset1 in
      (t, "Upgrading refine to be in uppercase" :: messages)
    else (tileset1, []) in
  let (tileset3, messages3) :=
    if TilesetUpgradeOptions.upgradeContentUrlToUri upgradeOptions
    then
      let (t, messages) := upgradeEachContentUrlToUri tileset2 in
      (t, "Upgrading content.url to content.uri" :: messages)
    else (tileset2, []) in
  let (tileset4, messages4) :=
    if TilesetUpgradeOptions.upgradeContentGltfExtensionDeclarations upgradeOptions
    then (removeExtensionUsed tileset3 "3DTILES_content_gltf",
          ["Upgrading extension declarations"])
    else (tileset3, []) in
  (tileset4, messages1 ++ messages2 ++ messages3 ++ messages4).

End WithPlatform.
End TilesetObjectUpgrader.

(** The location that a content refers to: its [uri], or its legacy
    [url] when it has no [uri]. *)
Definition contentLocation (content : Content.t) : option string :=
  if truthy (Content.uri content) then Content.uri content
  else if truthy (Content.url content) then Content.url content
  else None.

(** A traversal for the examples: a tile before its children, and the
    children in order. *)
Fixpoint preorderTraversal (callback : TileData -> Logged TileData)
    (tile : Tile) : Logged Tile :=
  match tile with
  | mkTile data children =>
      let (data', messages) := callback data in
      match children with
      | None => (mkTile data' None, messages)
      | Some tiles =>
          let results := List.map (preorderTraversal callback) tiles in
          (mkTile data' (Some (List.map fst results)),
           messages ++ concat (List.map snd results))
      end
  end.

(** A platform for the examples: upper case of the letters a to z, no
    extension declarations to remove, and the traversal in order. *)
Definition asciiUpperCase (c : Ascii.ascii) : Ascii.ascii :=
  let n := Ascii.nat_of_ascii c in
  if ((97 <=? n) && (n <=? 122))%nat
  then Ascii.ascii_of_nat (n - 32)
  else c.

Fixpoint mapString (f : Ascii.ascii -> Ascii.ascii) (s : string) : string :=
  match s with
  | EmptyString => EmptyString
  | String c rest => String (f c) (mapString f rest)
  end.

Definition examplePlatform : UpgraderPlatform := {|
  toUpperCase := mapString asciiUpperCase;
  removeExtensionUsed := fun tileset _ => tileset;
  traverseExplicit := preorderTraversal
|}.

(** One point at (1, -2, 0) with the normal (0, 0, 1), given both as
    NORMAL and as NORMAL_OCT16P, and the colour green as RGB. *)
Definition normalsTable : PntsFeatureTable := {|
  POSITION := Some at0; POSITION_QUANTIZED := None;
  RGBA := None;
  RGB := Some {| BinaryBodyOffset.byteOffset := 26;
                 BinaryBodyOffset.componentType := None |};
  RGB565 := None;
  NORMAL := Some {| BinaryBodyOffset.byteOffset := 12;
                    BinaryBodyOffset.componentType := None |};
  NORMAL_OCT16P := Some {| BinaryBodyOffset.byteOffset := 24;
                           BinaryBodyOffset.componentType := None |};
  BATCH_ID := None;
  POINTS_LENGTH := 1;
  RTC_CENTER := None;
  QUANTIZED_VOLUME_OFFSET := None; QUANTIZED_VOLUME_SCALE := None;
  CONSTANT_RGBA := None; BATCH_LENGTH := None;
  extensions := None
|}.

Definition normalsBinary : Buffer :=
  [x00; x00; x80; x3f; x00; x00; x00; xc0; x00; x00; x00; x00;
   x00; x00; x00; x00; x00; x00; x00; x00; x00; x00; x80; x3f;
   x80; x80;
   x00; xff; x00].

(** One point whose POSITION, NORMAL and BATCH_ID are mesh-compressed,
    in a table that also has raw NORMAL and BATCH_ID fields, the latter
    without BATCH_LENGTH. *)
Definition dracoNormalsTable : PntsFeatureTable := {|
  POSITION := None; POSITION_QUANTIZED := None;
  RGBA := None; RGB := None; RGB565 := None;
  NORMAL := Some at0; NORMAL_OCT16P := None;
  BATCH_ID := Some at0;
  POINTS_LENGTH := 1;
  RTC_CENTER := None;
  QUANTIZED_VOLUME_OFFSET := None; QUANTIZED_VOLUME_SCALE := None;
  CONSTANT_RGBA := None; BATCH_LENGTH := None;
  extensions :=
    Some {| ext_3DTILES_draco_point_compression :=
              Some {| properties :=
                        [("POSITION", 0); ("NORMAL", 1); ("BATCH_ID", 2)];
                      dracoByteOffset := 0;
                      byteLength := 12 |} |}
|}.

(** ** Sequences of calls on a tileset source *)

Inductive LifecycleCall :=
  | CallOpen (name : string)
  | CallClose.

Definition callLifecycle (call : LifecycleCall) (source : TilesetSourceFs)
    : Result TilesetSourceFs :=
  match call with
  | CallOpen name => TilesetSource.open name source
  | CallClose => TilesetSource.close source
  end.

(** The calls in order, up to the first exception. *)
Fixpoint callAll (calls : list LifecycleCall) (source : TilesetSourceFs)
    : Result TilesetSourceFs :=
  match calls with
  | [] => Ok source
  | call :: rest =>
      source' ← callLifecycle call source; callAll rest source'
  end.

(** The calls alternate between [open] and [close], starting with
    [close] on an opened source and with [open] otherwise. *)
Fixpoint alternates (opened : bool) (calls : list LifecycleCall) : bool :=
  match calls with
  | [] => true
  | CallOpen _ :: rest => negb opened && alternates true rest
  | CallClose :: rest => opened && alternates false rest
  end.



Definition opensNonEmptyName (call : LifecycleCall) : Prop :=
  match call with
  | CallOpen name => name <> ""
  | CallClose => True
  end.

(** ** Notions for the properties of the upgrader *)

(** The tile hierarchy with [f] applied to the properties of each
    tile. *)
Fixpoint mapTile (f : TileData -> TileData) (tile : Tile) : Tile :=
  match tile with
  | mkTile data children =>
      mkTile (f data)
        match children with
        | Some tiles => Some (List.map (mapTile f) tiles)
        | None => None
        end
  end.

(** The properties of the tiles of a hierarchy, a tile before its
    children and the children in order. *)
Fixpoint allData (tile : Tile) : list TileData :=
  match tile with
  | mkTile data children =>
      data :: match children with
              | Some tiles => concat (List.map allData tiles)
              | None => []
              end
  end.

(** The traversal calls the callback once on each tile of the
    hierarchy, in the order [visited], which depends on the shape of the
    hierarchy only. *)
Definition visitsInOrder {platform : UpgraderPlatform}
    (visited : Tile -> list TileData) : Prop :=
  (forall tile, visited tile ≡ₚ allData tile) /\
  (forall f tile, visited (mapTile f tile) = List.map f (visited tile)) /\
  (forall callback tile,
      traverseExplicit callback tile
      = (mapTile (fun data => fst (callback data)) tile,
         concat (List.map (fun data => snd (callback data))
                   (visited tile)))).

(** The contents of a tile: its [content], then its [contents]. *)
Definition tileContents (tile : TileData) : list Content.t :=
  match content tile with Some c => [c] | None => [] end
  ++ default [] (contents tile).

Definition allContents (tile : Tile) : list Content.t :=
  concat (List.map tileContents (allData tile)).

Definition allRefines (tile : Tile) : list (option string) :=
  List.map refine (allData tile).

(** A content is upgraded when it has no legacy [url] in place of a
    [uri]. *)
Definition upgradedContent (content : Content.t) : Prop :=
  truthy (Content.uri content) = false ->
  truthy (Content.url content) = false.

(** The properties of a tile without its [refine]. *)
Definition clearRefine (tile : TileData) : TileData := {|
  refine := None;
  content := content tile;
  contents := contents tile;
  tileOthers := tileOthers tile
|}.

(** The properties of a tile without its contents. *)
Definition clearContents (tile : TileData) : TileData := {|
  refine := refine tile;
  content := None;
  contents := None;
  tileOthers := tileOthers tile
|}.

(** A [refine] value that the upgrade leaves alone: absent, empty, ADD
    or REPLACE. *)
Definition keptRefine (value : option string) : bool :=
  negb (truthy value
        && negb (String.eqb (default "" value) "ADD")
        && negb (String.eqb (default "" value) "REPLACE")).

(** A legacy tileset of version 0.0: the root refines with "add" and has
    a content with a legacy [url]; its only child has two contents, one
    with a [uri] and a [url], one with neither. *)
Definition legacyTileset : Tileset := {|
  asset := {| version := "0.0"; assetOthers := "{}" |};
  root :=
    mkTile
      {| refine := Some "add";
         content := Some {| Content.uri := None;
                            Content.url := Some "root.b3dm";
                            Content.others := "{}" |};
         contents := None;
         tileOthers := "{}" |}
      (Some
         [mkTile
            {| refine := Some "REPLACE";
               content := None;
               contents :=
                 Some [{| Content.uri := Some "a.glb";
                          Content.url := Some "b.glb";
                          Content.others := "{}" |};
                       {| Content.uri := None;
                          Content.url := None;
                          Content.others := "{}" |}];
               tileOthers := "{}" |}
            None]);
  tilesetOthers := "{}"
|}.

Definition upgradeAll : TilesetUpgradeOptions.t := {|
  TilesetUpgradeOptions.upgradedAssetVersionNumber := Some "1.0";
  TilesetUpgradeOptions.upgradeRefineCase := true;
  TilesetUpgradeOptions.upgradeContentUrlToUri := true;
  TilesetUpgradeOptions.upgradeContentGltfExtensionDeclarations := false
|}.

(** No upgrade: the version number is the empty string. *)
Definition upgradeNothing : TilesetUpgradeOptions.t := {|
  TilesetUpgradeOptions.upgradedAssetVersionNumber := Some "";
  TilesetUpgradeOptions.upgradeRefineCase := false;
  TilesetUpgradeOptions.upgradeContentUrlToUri := false;
  TilesetUpgradeOptions.upgradeContentGltfExtensionDeclarations := false
|}.

(** The only exception that iterating [it] can raise is a range
    error. *)
Definition onlyRangeErrors (it : Iterable) : Prop :=
  forall e, Err e ∈ it -> e = RangeError.

(** The table of [colorsTable] with a BATCH_ID that declares unsigned
    bytes. *)
Definition byteBatchIdTable : PntsFeatureTable :=
  withBatchIds colorsTable
    (Some {| BinaryBodyOffset.byteOffset := 20;
             BinaryBodyOffset.componentType := Some UNSIGNED_BYTE |})
    (Some 1%nat).

(** * Properties *)

(** ** Results and runs *)

Lemma bind_Ok {A B} (r : Result A) (f : A -> Result B) (b : B) :
  r ≫= f = Ok b <-> exists a, r = Ok a /\ f a = Ok b.
Proof.
  destruct r as [a|e]; simpl; split.
  - intros Hf. by exists a.
  - intros (a' & Heq & Hf). simplify_eq. exact Hf.
  - intros [=].
  - intros (a' & [=] & _).
Qed.

Lemma run_app (steps1 steps2 : list Step) (pointCloud : DefaultPointCloud) :
  run (steps1 ++ steps2) pointCloud
  = run steps1 pointCloud ≫= run steps2.
Proof.
  revert pointCloud. induction steps1 as [|step rest IH]; intros pc; simpl.
  - done.
  - destruct (step pc) as [pc'|e]; simpl; [apply IH | done].
Qed.

Lemma run_monotone (steps : list Step) :
  Forall monotone steps -> monotone (run steps).
Proof.
  induction 1 as [|step rest Hstep _ IH]; intros pc pc'; simpl.
  - by intros [= ->].
  - intros (pc1 & H1 & H2)%bind_Ok.
    etrans; [by apply Hstep | by apply IH].
Qed.

Lemma reached_head (steps : list Step) (pointCloud : DefaultPointCloud) :
  reached steps pointCloud !! 0%nat = Some pointCloud.
Proof. by destruct steps. Qed.

(** Along a run of monotone statements, later states extend earlier
    ones. *)
Lemma reached_monotone (steps : list Step) :
  Forall monotone steps ->
  forall pointCloud i j si sj,
    (i <= j)%nat ->
    reached steps pointCloud !! i = Some si ->
    reached steps pointCloud !! j = Some sj ->
    attributes si ⊆ attributes sj.
Proof.
  induction 1 as [|step rest Hstep Hrest IH]; intros pc i j si sj Hij Hi Hj.
  - destruct i, j; simpl in *; simplify_eq; done.
  - simpl in Hi, Hj. destruct (step pc) as [pc'|e] eqn:Hpc.
    + destruct i as [|i], j as [|j]; simpl in *; simplify_eq.
      * done.
      * etrans; [by apply Hstep |].
        eapply (IH pc' 0%nat j); [lia | apply reached_head | done].
      * lia.
      * eapply (IH pc' i j); [lia | done | done].
    + destruct i, j; simpl in *; simplify_eq; done.
Qed.

(** The last state of a completed run is its result. *)
Lemma reached_last (steps : list Step) (pointCloud result : DefaultPointCloud) :
  run steps pointCloud = Ok result ->
  reached steps pointCloud !! length steps = Some result.
Proof.
  revert pointCloud. induction steps as [|step rest IH]; intros pc; simpl.
  - by intros [= ->].
  - intros (pc1 & H1 & H2)%bind_Ok. rewrite H1. by apply IH.
Qed.

(** ** The point cloud *)

Lemma addAttribute_Ok name type componentType values pointCloud pointCloud' :
  PointCloud.addAttribute name type componentType values pointCloud
    = Ok pointCloud' ->
  attributes pointCloud !! name = None /\
  attributes pointCloud'
    = <[name := {| attributeType := type;
                   attributeComponentType := componentType;
                   attributeValues := values |}]> (attributes pointCloud) /\
  globalPosition pointCloud' = globalPosition pointCloud /\
  globalColor pointCloud' = globalColor pointCloud.
Proof.
  unfold PointCloud.addAttribute.
  destruct (attributes pointCloud !! name); [done |].
  by intros [= <-].
Qed.

Lemma addAttribute_monotone name type componentType values :
  monotone (PointCloud.addAttribute name type componentType values).
Proof.
  intros pc pc' (Hnone & -> & _)%addAttribute_Ok.
  by apply insert_subseteq.
Qed.

Lemma addAttribute_touchesOnly name type componentType values :
  touchesOnly name (PointCloud.addAttribute name type componentType values).
Proof.
  intros pc pc' other (_ & -> & _)%addAttribute_Ok Hne.
  by rewrite lookup_insert_ne.
Qed.

Lemma addAttribute_lookup name type componentType values pointCloud pointCloud' :
  PointCloud.addAttribute name type componentType values pointCloud
    = Ok pointCloud' ->
  attributes pointCloud' !! name
  = Some {| attributeType := type;
            attributeComponentType := componentType;
            attributeValues := values |}.
Proof.
  intros (_ & -> & _)%addAttribute_Ok. by rewrite lookup_insert_eq.
Qed.

Lemma assignSlot_lookup name type componentType values pointCloud :
  attributes (PointCloud.assignSlot name type componentType values pointCloud)
    !! name
  = Some {| attributeType := type;
            attributeComponentType := componentType;
            attributeValues := values |}.
Proof. simpl. by rewrite lookup_insert_eq. Qed.

Lemma assignSlot_lookup_ne name type componentType values pointCloud other :
  other <> name ->
  attributes (PointCloud.assignSlot name type componentType values pointCloud)
    !! other
  = attributes pointCloud !! other.
Proof. intros Hne. simpl. by rewrite lookup_insert_ne. Qed.

Lemma assignSlot_Ok_lookup
    name type componentType values pointCloud pointCloud' :
  Ok (PointCloud.assignSlot name type componentType values pointCloud)
  = Ok pointCloud' ->
  attributes pointCloud' !! name
  = Some {| attributeType := type;
            attributeComponentType := componentType;
            attributeValues := values |}.
Proof. intros [= <-]. apply assignSlot_lookup. Qed.

(** Assigning an empty slot only adds an attribute. *)
Lemma assignSlot_absent name type componentType values pointCloud :
  attributes pointCloud !! name = None ->
  attributes pointCloud
  ⊆ attributes
      (PointCloud.assignSlot name type componentType values pointCloud).
Proof. intros Hnone. simpl. by apply insert_subseteq. Qed.

Lemma getAttributeValues_None name pointCloud :
  PointCloud.getAttributeValues name pointCloud = None <->
  attributes pointCloud !! name = None.
Proof.
  unfold PointCloud.getAttributeValues.
  destruct (attributes pointCloud !! name); simpl; split; done.
Qed.

Lemma monotone_keepsName name step : monotone step -> keepsName name step.
Proof.
  intros Hstep pc pc' attribute Hpc Hname.
  eapply lookup_weaken; [exact Hname | by apply Hstep].
Qed.

Lemma touchesOnly_keepsName name other step :
  touchesOnly name step -> other <> name -> keepsName other step.
Proof.
  intros Hstep Hne pc pc' attribute Hpc Hname.
  by rewrite (Hstep pc pc' other Hpc Hne).
Qed.

Lemma run_keepsName name (steps : list Step) :
  Forall (keepsName name) steps -> keepsName name (run steps).
Proof.
  induction 1 as [|step rest Hstep _ IH]; intros pc pc' attribute; simpl.
  - by intros [= ->].
  - intros (pc1 & H1 & H2)%bind_Ok Hname. eauto.
Qed.

Lemma touchesOnly_preserves name other step :
  touchesOnly name step -> other <> name -> preserves other step.
Proof. intros Hstep Hne pc pc' Hpc. by eapply Hstep. Qed.

Lemma run_preserves name (steps : list Step) :
  Forall (preserves name) steps -> preserves name (run steps).
Proof.
  induction 1 as [|step rest Hstep _ IH]; intros pc pc'; simpl.
  - by intros [= ->].
  - intros (pc1 & H1 & H2)%bind_Ok.
    rewrite (IH _ _ H2). by apply Hstep.
Qed.

Lemma addAttribute_keepsGlobalColor name type componentType values :
  keepsGlobalColor (PointCloud.addAttribute name type componentType values).
Proof. by intros pc pc' (_ & _ & _ & ->)%addAttribute_Ok. Qed.

Lemma run_keepsGlobalColor (steps : list Step) :
  Forall keepsGlobalColor steps -> keepsGlobalColor (run steps).
Proof.
  induction 1 as [|step rest Hstep _ IH]; intros pc pc'; simpl.
  - by intros [= ->].
  - intros (pc1 & H1 & H2)%bind_Ok.
    rewrite (IH _ _ H2). by apply Hstep.
Qed.

(** ** The legacy attribute reader *)

(** An unsigned 16-bit scalar is the little-endian value of its two
    bytes. *)
Lemma readElement_unsigned_short (binary : Buffer) byteOffset index lo hi :
  binary !! (byteOffset + 2 * index)%nat = Some lo ->
  binary !! (byteOffset + 2 * index + 1)%nat = Some hi ->
  TileTableData.readElement SCALAR UNSIGNED_SHORT binary byteOffset index
  = Ok (Num (numberOfZ (Z.of_N (Byte.to_N lo)
                        + 256 * Z.of_N (Byte.to_N hi)))).
Proof.
  intros Hlo Hhi.
  unfold TileTableData.readElement, TileTableData.readComponents,
    TileTableData.readComponent. simpl.
  replace (byteOffset + index * 2 + 0)%nat with (byteOffset + 2 * index)%nat
    by lia.
  pose proof (lookup_lt_Some _ _ _ Hhi) as Hlen.
  destruct (decide (byteOffset + 2 * index + 2 <= length binary)%nat);
    [| lia].
  rewrite (drop_S _ _ _ Hlo).
  replace (S (byteOffset + 2 * index)) with (byteOffset + 2 * index + 1)%nat
    by lia.
  rewrite (drop_S _ _ _ Hhi). simpl.
  unfold TileTableData.littleEndian. simpl.
  do 3 f_equal. lia.
Qed.

Example reads_float :
  TileTableData.readComponent FLOAT
    [x00; x00; x80; x3f; x00; x00; x00; xc0] 4
  = Ok (-2)%float.
Proof. reflexivity. Qed.

Example reads_float_past_the_end :
  TileTableData.readComponent FLOAT
    [x00; x00; x80; x3f; x00; x00; x00; xc0] 5
  = Err RangeError.
Proof. reflexivity. Qed.

Example reads_double :
  TileTableData.readComponent DOUBLE
    [x9a; x99; x99; x99; x99; x99; xb9; x3f] 0
  = Ok 0x1.999999999999ap-4%float.
Proof. reflexivity. Qed.

Example reads_signed_short :
  TileTableData.readComponent SHORT [xfe; xff] 0 = Ok (-2)%float.
Proof. reflexivity. Qed.

Example reads_elements :
  Iterables.toArray
    (TileTableData.createNumericArrayIterable VEC2 UNSIGNED_BYTE
       [x01; x02; x03; x04; x05] 1 2)
  = Ok [Arr [2; 3]%float; Arr [4; 5]%float].
Proof. reflexivity. Qed.

Lemma createNumericArrayIterable_lookup
    legacyType legacyComponentType (binary : Buffer) byteOffset numElements
    index :
  (index < numElements)%nat ->
  TileTableData.createNumericArrayIterable legacyType legacyComponentType
    binary byteOffset numElements !! index
  = Some (TileTableData.readElement legacyType legacyComponentType
            binary byteOffset index).
Proof.
  intros Hindex. unfold TileTableData.createNumericArrayIterable.
  rewrite list_lookup_fmap, lookup_seq_lt; done.
Qed.

(** ** Which exceptions are format errors *)

Lemma sequenceResults_Err {A} (rs : list (Result A)) e :
  sequenceResults rs = Err e -> Err e ∈ rs.
Proof.
  induction rs as [|r rest IH]; simpl; [done |].
  destruct r as [x|e']; simpl.
  - destruct (sequenceResults rest) as [xs|e'']; simpl; [done |].
    intros [= ->]. right. by apply IH.
  - intros [= ->]. left.
Qed.

(** The reader only fails with range errors. *)
Lemma readComponents_Err legacyComponentType binary byteOffset count e :
  TileTableData.readComponents legacyComponentType binary byteOffset count
    = Err e ->
  e = RangeError.
Proof.
  intros Hin%sequenceResults_Err.
  apply list_elem_of_In, in_map_iff in Hin as (k & Hk & _).
  unfold TileTableData.readComponent in Hk.
  case_decide; by simplify_eq.
Qed.

Lemma obtainNumberArray_Err binary property length componentType e :
  TileTableData.obtainNumberArray binary property length componentType
    = Err e ->
  e = RangeError.
Proof.
  destruct property as [values|reference]; simpl; [done |].
  apply readComponents_Err.
Qed.

Lemma addAttribute_Err name type componentType values pointCloud e :
  PointCloud.addAttribute name type componentType values pointCloud = Err e ->
  e = AttributeExists name.
Proof.
  unfold PointCloud.addAttribute.
  destruct (attributes pointCloud !! name); [by intros [= <-] | done].
Qed.

Lemma isFormatError_bind {A B} (r : Result A) (f : A -> Result B) :
  isFormatError (r ≫= f)
  = match r with
    | Ok a => isFormatError (f a)
    | Err _ => isFormatError r
    end.
Proof. by destruct r. Qed.

Lemma isFormatError_addAttribute name type componentType values pointCloud :
  isFormatError
    (PointCloud.addAttribute name type componentType values pointCloud)
  = false.
Proof.
  destruct (PointCloud.addAttribute _ _ _ _ _) as [pc|e] eqn:Hadd; [done |].
  by rewrite (addAttribute_Err _ _ _ _ _ _ Hadd).
Qed.

Lemma isFormatError_obtainNumberArray binary property length componentType :
  isFormatError
    (TileTableData.obtainNumberArray binary property length componentType)
  = false.
Proof.
  destruct (TileTableData.obtainNumberArray _ _ _ _) as [xs|e] eqn:Hread;
    [done |].
  by rewrite (obtainNumberArray_Err _ _ _ _ _ Hread).
Qed.

(** ** Statements of the pipeline *)

Section Pipeline.
Context {transfer : ColorTransfer} {decoder : DracoDecoder}.
Import PointCloud PntsPointClouds.

(** The statements that store through [addAttribute] are no-ops or
    stores that are refused on a present name. *)
Local Ltac step_monotone :=
  intros pc pc';
  repeat (case_match; try (intros [= <-]; done));
  try apply addAttribute_monotone;
  try (intros (? & ? & ?)%bind_Ok; simplify_eq; try done).

Lemma assignDracoBatchId_monotone n d : monotone (assignDracoBatchId n d).
Proof. unfold assignDracoBatchId. step_monotone. Qed.

Lemma assignDracoProperty_monotone n d bt name :
  monotone (assignDracoProperty n d bt name).
Proof. unfold assignDracoProperty. step_monotone. Qed.

Lemma dracoProperties_monotone n d bt names :
  Forall monotone (List.map (assignDracoProperty n d bt) names).
Proof.
  apply List.Forall_map, Forall_forall. intros name _.
  apply assignDracoProperty_monotone.
Qed.

(** The raw decodes assign a slot only when it is empty: this is what
    their presence checks are for. *)
Lemma assignPositions_monotone ft bin : monotone (assignPositions ft bin).
Proof.
  unfold assignPositions, setPositions. intros pc pc'.
  destruct (getAttributeValues "POSITION" pc) eqn:Hpresent;
    [by intros [= <-] |].
  intros (positions & _ & [= <-])%bind_Ok.
  by apply assignSlot_absent, getAttributeValues_None.
Qed.

Lemma assignNormals_monotone ft bin : monotone (assignNormals ft bin).
Proof.
  unfold assignNormals, setNormals. intros pc pc'.
  destruct (getAttributeValues "NORMAL" pc) eqn:Hpresent;
    [by intros [= <-] |].
  destruct (createNormals ft bin); intros [= <-]; [| done].
  by apply assignSlot_absent, getAttributeValues_None.
Qed.

Lemma assignColors_monotone ft bin : monotone (assignColors ft bin).
Proof.
  unfold assignColors, setNormalizedLinearColors. intros pc pc'.
  destruct (getAttributeValues "COLOR_0" pc) eqn:Hpresent;
    [by intros [= <-] |].
  destruct (createNormalizedLinearColors ft bin); intros [= <-]; [| done].
  by apply assignSlot_absent, getAttributeValues_None.
Qed.

Lemma assignBatchIds_monotone ft bin : monotone (assignBatchIds ft bin).
Proof.
  unfold assignBatchIds. intros pc pc'.
  case_match; [by intros [= <-] |].
  intros (batchIds & _ & Hadd)%bind_Ok. revert Hadd.
  repeat (case_match; try (intros [= <-]; done)).
  apply addAttribute_monotone.
Qed.

Lemma assignGlobalColor_monotone ft bin : monotone (assignGlobalColor ft bin).
Proof.
  unfold assignGlobalColor. intros pc pc'.
  case_match; [by intros [= <-] |].
  by intros (color & _ & [= <-])%bind_Ok.
Qed.

Lemma assignGlobalPosition_monotone ft bin :
  monotone (assignGlobalPosition ft bin).
Proof.
  unfold assignGlobalPosition. intros pc pc'.
  by intros (position & _ & [= <-])%bind_Ok.
Qed.

Lemma rawSteps_monotone ft bin : Forall monotone (rawSteps ft bin).
Proof.
  repeat constructor;
    auto using assignPositions_monotone, assignNormals_monotone,
      assignColors_monotone, assignBatchIds_monotone,
      assignGlobalColor_monotone, assignGlobalPosition_monotone.
Qed.


Lemma create_Ok ft bin bt s :
  create ft bin bt = Ok s <->
  exists d s1,
    obtainDracoDecodedAttributes ft bin bt = Ok d /\
    afterDraco ft d bt = Ok s1 /\
    run (rawSteps ft bin) s1 = Ok s.
Proof.
  unfold create. split.
  - intros (d & Hd & (s1 & Hs1 & Hrun)%bind_Ok)%bind_Ok. eauto.
  - intros (d & s1 & Hd & Hs1 & Hrun).
    apply bind_Ok. exists d. split; [done |]. apply bind_Ok. eauto.
Qed.

(** The raw decodes are guarded by presence checks: a statement of
    steps 2 to 6 whose attribute is already stored returns the point
    cloud as it is, without decoding anything. *)
Lemma raw_decodes_guarded ft bin s :
  (is_Some (getAttributeValues "POSITION" s) ->
   assignPositions ft bin s = Ok s) /\
  (is_Some (getAttributeValues "NORMAL" s) ->
   assignNormals ft bin s = Ok s) /\
  (is_Some (getAttributeValues "COLOR_0" s) ->
   assignColors ft bin s = Ok s /\ assignGlobalColor ft bin s = Ok s) /\
  (is_Some (getAttributeValues "_FEATURE_ID_0" s) ->
   assignBatchIds ft bin s = Ok s).
Proof.
  unfold assignPositions, assignNormals, assignColors, assignGlobalColor,
    assignBatchIds.
  split; [| split; [| split]]; intros [stored Hstored];
    by rewrite Hstored.
Qed.

(** *** The stages of [create] *)

Lemma create_afterStep1 ft bin bt :
  create ft bin bt = afterStep1 ft bin bt ≫= run (rawSteps ft bin).
Proof.
  unfold create, afterStep1.
  by destruct (obtainDracoDecodedAttributes ft bin bt).
Qed.

Lemma create_afterStep4 ft bin bt :
  create ft bin bt
  = afterStep4 ft bin bt
    ≫= run [assignBatchIds ft bin; assignGlobalColor ft bin;
            assignGlobalPosition ft bin].
Proof.
  rewrite create_afterStep1. unfold afterStep4.
  destruct (afterStep1 ft bin bt) as [s1|e]; [| done].
  change (rawSteps ft bin) with
    ([assignPositions ft bin; assignNormals ft bin; assignColors ft bin]
     ++ [assignBatchIds ft bin; assignGlobalColor ft bin;
         assignGlobalPosition ft bin]).
  apply run_app.
Qed.

Lemma afterStep4_Ok ft bin bt s4 :
  afterStep4 ft bin bt = Ok s4 <->
  exists s1 s2 s3,
    afterStep1 ft bin bt = Ok s1 /\
    assignPositions ft bin s1 = Ok s2 /\
    assignNormals ft bin s2 = Ok s3 /\
    assignColors ft bin s3 = Ok s4.
Proof.
  unfold afterStep4. simpl. split.
  - intros (s1 & H1 & (s2 & H2 & (s3 & H3 & (s4' & H4 & [= <-])%bind_Ok)
              %bind_Ok)%bind_Ok)%bind_Ok.
    by exists s1, s2, s3.
  - intros (s1 & s2 & s3 & H1 & H2 & H3 & H4).
    apply bind_Ok. exists s1. split; [done |].
    apply bind_Ok. exists s2. split; [done |].
    apply bind_Ok. exists s3. split; [done |].
    apply bind_Ok. by exists s4.
Qed.

Lemma create_Ok_afterStep4 ft bin bt s :
  create ft bin bt = Ok s <->
  exists s4 s5 s6,
    afterStep4 ft bin bt = Ok s4 /\
    assignBatchIds ft bin s4 = Ok s5 /\
    assignGlobalColor ft bin s5 = Ok s6 /\
    assignGlobalPosition ft bin s6 = Ok s.
Proof.
  rewrite create_afterStep4. simpl. split.
  - intros (s4 & H4 & (s5 & H5 & (s6 & H6 & (s' & H7 & [= <-])%bind_Ok)
              %bind_Ok)%bind_Ok)%bind_Ok.
    by exists s4, s5, s6.
  - intros (s4 & s5 & s6 & H4 & H5 & H6 & H7).
    apply bind_Ok. exists s4. split; [done |].
    apply bind_Ok. exists s5. split; [done |].
    apply bind_Ok. exists s6. split; [done |].
    apply bind_Ok. by exists s.
Qed.

(** *** Which attribute a statement can touch *)

Lemma assignPositions_touchesOnly ft bin :
  touchesOnly "POSITION" (assignPositions ft bin).
Proof.
  unfold assignPositions, setPositions. intros pc pc' other.
  case_match; [by intros [= <-] |].
  intros (positions & _ & [= <-])%bind_Ok Hne.
  by apply assignSlot_lookup_ne.
Qed.

Lemma assignNormals_touchesOnly ft bin :
  touchesOnly "NORMAL" (assignNormals ft bin).
Proof.
  unfold assignNormals, setNormals. intros pc pc' other.
  repeat (case_match; try (by intros [= <-])).
  intros [= <-] Hne. by apply assignSlot_lookup_ne.
Qed.

Lemma assignColors_touchesOnly ft bin :
  touchesOnly "COLOR_0" (assignColors ft bin).
Proof.
  unfold assignColors, setNormalizedLinearColors. intros pc pc' other.
  repeat (case_match; try (by intros [= <-])).
  intros [= <-] Hne. by apply assignSlot_lookup_ne.
Qed.

Lemma assignBatchIds_touchesOnly ft bin :
  touchesOnly "_FEATURE_ID_0" (assignBatchIds ft bin).
Proof.
  unfold assignBatchIds. intros pc pc' other.
  case_match; [by intros [= <-] |].
  intros (batchIds & _ & Hadd)%bind_Ok. revert Hadd.
  repeat (case_match; try (by intros [= <-])).
  apply addAttribute_touchesOnly.
Qed.

Lemma assignGlobalColor_attributes ft bin s s' :
  assignGlobalColor ft bin s = Ok s' -> attributes s' = attributes s.
Proof.
  unfold assignGlobalColor. case_match; [by intros [= <-] |].
  by intros (color & _ & [= <-])%bind_Ok.
Qed.

Lemma assignGlobalPosition_attributes ft bin s s' :
  assignGlobalPosition ft bin s = Ok s' ->
  attributes s' = attributes s /\ globalColor s' = globalColor s.
Proof.
  unfold assignGlobalPosition.
  by intros (position & _ & [= <-])%bind_Ok.
Qed.

(** The statements after step 4 leave every attribute other than
    _FEATURE_ID_0 as it is. *)
Lemma afterStep4_frame ft bin bt s4 s name :
  afterStep4 ft bin bt = Ok s4 ->
  create ft bin bt = Ok s ->
  name <> "_FEATURE_ID_0" ->
  attributes s !! name = attributes s4 !! name.
Proof.
  intros H4 (s4' & s5 & s6 & H4' & H5 & H6 & H7)%create_Ok_afterStep4 Hne.
  rewrite H4 in H4'. injection H4' as <-.
  apply assignGlobalPosition_attributes in H7 as [-> _].
  apply assignGlobalColor_attributes in H6 as ->.
  by eapply assignBatchIds_touchesOnly.
Qed.

(** *** What the mesh-compression block stores *)

Lemma assignDracoPositions_touchesOnly n d :
  touchesOnly "POSITION" (assignDracoPositions n d).
Proof.
  unfold assignDracoPositions, setPositions. intros pc pc' other.
  case_match; [| by intros [= <-]].
  intros [= <-] Hne. by apply assignSlot_lookup_ne.
Qed.

Lemma assignDracoNormals_touchesOnly n d :
  touchesOnly "NORMAL" (assignDracoNormals n d).
Proof.
  unfold assignDracoNormals, setNormals. intros pc pc' other.
  case_match; [| by intros [= <-]].
  intros [= <-] Hne. by apply assignSlot_lookup_ne.
Qed.

Lemma assignDracoRGB_touchesOnly n d :
  touchesOnly "COLOR_0" (assignDracoRGB n d).
Proof.
  unfold assignDracoRGB, setNormalizedLinearColors. intros pc pc' other.
  case_match; [| by intros [= <-]].
  intros [= <-] Hne. by apply assignSlot_lookup_ne.
Qed.

Lemma assignDracoRGBA_touchesOnly n d :
  touchesOnly "COLOR_0" (assignDracoRGBA n d).
Proof.
  unfold assignDracoRGBA, setNormalizedLinearColors. intros pc pc' other.
  case_match; [| by intros [= <-]].
  intros [= <-] Hne. by apply assignSlot_lookup_ne.
Qed.

Lemma assignDracoBatchId_touchesOnly n d :
  touchesOnly "_FEATURE_ID_0" (assignDracoBatchId n d).
Proof.
  unfold assignDracoBatchId. intros pc pc' other.
  case_match; [apply addAttribute_touchesOnly | by intros [= <-]].
Qed.

Lemma assignDracoProperty_touchesOnly n d bt name :
  touchesOnly name (assignDracoProperty n d bt name).
Proof.
  unfold assignDracoProperty. intros pc pc' other.
  repeat (case_match; try (by intros [= <-])).
  apply addAttribute_touchesOnly.
Qed.

(** A property that the decoder did not return is not stored by the
    loop over the batch table's property names. *)
Lemma assignDracoProperty_absent n d bt name other :
  d !! other = None ->
  preserves other (assignDracoProperty n d bt name).
Proof.
  intros Hother. destruct (decide (other = name)) as [-> | Hne].
  - unfold assignDracoProperty. intros pc pc'. rewrite Hother.
    by intros [= <-].
  - by eapply touchesOnly_preserves, Hne;
      apply assignDracoProperty_touchesOnly.
Qed.

(** A name that the decoder did not return, other than the three that
    NORMAL, RGB, RGBA and BATCH_ID are stored under, is not stored by
    the mesh-compression block. *)
Lemma dracoSteps_preserves n d bt name :
  d !! name = None ->
  name <> "NORMAL" -> name <> "COLOR_0" -> name <> "_FEATURE_ID_0" ->
  Forall (preserves name) (dracoSteps n d bt).
Proof.
  intros Hname Hnormal Hcolor Hid.
  unfold dracoSteps. apply Forall_app. split.
  - repeat constructor.
    + intros pc pc' Hpc.
      destruct (decide (name = "POSITION")) as [-> | Hne].
      * unfold assignDracoPositions in Hpc. rewrite Hname in Hpc.
        by injection Hpc as <-.
      * by eapply assignDracoPositions_touchesOnly.
    + by eapply touchesOnly_preserves;
        [apply assignDracoNormals_touchesOnly |].
    + by eapply touchesOnly_preserves; [apply assignDracoRGB_touchesOnly |].
    + by eapply touchesOnly_preserves; [apply assignDracoRGBA_touchesOnly |].
    + by eapply touchesOnly_preserves;
        [apply assignDracoBatchId_touchesOnly |].
  - apply List.Forall_map, Forall_forall. intros property _.
    by apply assignDracoProperty_absent.
Qed.

Lemma afterDraco_no_position ft d bt s1 :
  (forall decoded, d = Some decoded -> decoded !! "POSITION" = None) ->
  afterDraco ft d bt = Ok s1 ->
  attributes s1 !! "POSITION" = None.
Proof.
  intros Hd. unfold afterDraco, assignDracoDecodedAttributes.
  destruct d as [decoded|]; [| by intros [= <-]].
  intros Hrun.
  rewrite (run_preserves "POSITION" _
             (dracoSteps_preserves _ _ _ _ (Hd _ eq_refl)
                ltac:(done) ltac:(done) ltac:(done)) _ _ Hrun).
  done.
Qed.

Lemma afterDraco_position ft d bt s1 decoded dracoPositions :
  d = Some decoded ->
  decoded !! "POSITION" = Some dracoPositions ->
  afterDraco ft d bt = Ok s1 ->
  attributes s1 !! "POSITION"
  = Some {| attributeType := "VEC3";
            attributeComponentType := "FLOAT32";
            attributeValues :=
              createPositionsInternal (attributeData dracoPositions)
                (AttributeInfo.byteOffset (attributeInfo dracoPositions))
                (POINTS_LENGTH ft) |}.
Proof.
  intros -> Hp. unfold afterDraco, assignDracoDecodedAttributes.
  unfold dracoSteps. simpl.
  intros (s0 & Hfirst & Hrest)%bind_Ok.
  unfold assignDracoPositions, setPositions in Hfirst. rewrite Hp in Hfirst.
  injection Hfirst as <-.
  change (run ([assignDracoNormals (POINTS_LENGTH ft) decoded;
                assignDracoRGB (POINTS_LENGTH ft) decoded;
                assignDracoRGBA (POINTS_LENGTH ft) decoded;
                assignDracoBatchId (POINTS_LENGTH ft) decoded]
               ++ List.map
                    (assignDracoProperty (POINTS_LENGTH ft) decoded bt)
                    (BatchTables.obtainDracoPropertyNames bt))
            (assignSlot "POSITION" "VEC3" "FLOAT32"
               (createPositionsInternal (attributeData dracoPositions)
                  (AttributeInfo.byteOffset (attributeInfo dracoPositions))
                  (POINTS_LENGTH ft)) PointCloud.empty) = Ok s1)
    in Hrest.
  eapply (run_keepsName "POSITION"); [| exact Hrest | apply assignSlot_lookup].
  apply Forall_app. split.
  - repeat constructor.
    + by eapply touchesOnly_keepsName; [apply assignDracoNormals_touchesOnly |].
    + by eapply touchesOnly_keepsName; [apply assignDracoRGB_touchesOnly |].
    + by eapply touchesOnly_keepsName; [apply assignDracoRGBA_touchesOnly |].
    + apply monotone_keepsName, assignDracoBatchId_monotone.
  - eapply Forall_impl; [apply dracoProperties_monotone |].
    intros step. apply monotone_keepsName.
Qed.

(** *** Stored attributes stay *)








(** The second assignment of the colour slot: the colours decoded from
    RGBA replace what the slot holds. *)
Lemma assignDracoRGBA_lookup n result dracoRGBA pc pc' :
  result !! "RGBA" = Some dracoRGBA ->
  assignDracoRGBA n result pc = Ok pc' ->
  attributes pc' !! "COLOR_0"
  = Some {| attributeType := "VEC4";
            attributeComponentType := "FLOAT32";
            attributeValues :=
              Iterables.map Colors.standardRGBAToNormalizedLinearRGBA
                (createColorsStandardRGBAInternal (attributeData dracoRGBA)
                   (AttributeInfo.byteOffset (attributeInfo dracoRGBA))
                   n) |}.
Proof.
  intros Hrgba. unfold assignDracoRGBA, setNormalizedLinearColors.
  rewrite Hrgba. apply assignSlot_Ok_lookup.
Qed.




(** *** Positions *)

(** When step 1 stored no positions, the positions of the result are
    those of [createPositions]. *)
Lemma positions_from_table ft bin bt s1 s :
  afterStep1 ft bin bt = Ok s1 ->
  attributes s1 !! "POSITION" = None ->
  create ft bin bt = Ok s ->
  exists positions,
    createPositions ft bin = Ok positions /\
    getAttribute "POSITION" s
    = Some {| attributeType := "VEC3";
              attributeComponentType := "FLOAT32";
              attributeValues := positions |}.
Proof.
  intros H1 Hnone Hs. rewrite create_afterStep1, H1 in Hs. simpl in Hs.
  apply bind_Ok in Hs as (s2 & H2 & Hrest).
  unfold assignPositions, getAttributeValues in H2.
  rewrite Hnone in H2. simpl in H2.
  apply bind_Ok in H2 as (positions & Hpositions & [= <-]).
  exists positions. split; [done |].
  unfold getAttribute.
  eapply lookup_weaken; [apply assignSlot_lookup |].
  eapply (run_monotone
            [assignNormals ft bin; assignColors ft bin;
             assignBatchIds ft bin; assignGlobalColor ft bin;
             assignGlobalPosition ft bin]); [| exact Hrest].
  pose proof (rawSteps_monotone ft bin) as Hall. by inversion Hall.
Qed.

Lemma obtainQuantizationOffsetScale_Some ft bin volumeOffset volumeScale :
  obtainQuantizationOffsetScale ft bin = Ok (Some (volumeOffset, volumeScale))
  <->
  exists qvo qvs,
    QUANTIZED_VOLUME_OFFSET ft = Some qvo /\
    QUANTIZED_VOLUME_SCALE ft = Some qvs /\
    TileTableData.obtainNumberArray bin qvo 3 FLOAT = Ok volumeOffset /\
    TileTableData.obtainNumberArray bin qvs 3 FLOAT = Ok volumeScale.
Proof.
  unfold obtainQuantizationOffsetScale. split.
  - destruct (QUANTIZED_VOLUME_OFFSET ft) as [qvo|]; [| done].
    destruct (QUANTIZED_VOLUME_SCALE ft) as [qvs|]; [| done].
    intros (vo & Hvo & (vs & Hvs & [= <- <-])%bind_Ok)%bind_Ok.
    by exists qvo, qvs.
  - intros (qvo & qvs & -> & -> & -> & ->). done.
Qed.

Lemma obtainQuantizationOffsetScale_None ft bin :
  obtainQuantizationOffsetScale ft bin = Ok None <->
  QUANTIZED_VOLUME_OFFSET ft = None \/ QUANTIZED_VOLUME_SCALE ft = None.
Proof.
  unfold obtainQuantizationOffsetScale. split.
  - destruct (QUANTIZED_VOLUME_OFFSET ft) as [qvo|]; [| by left].
    destruct (QUANTIZED_VOLUME_SCALE ft) as [qvs|]; [| by right].
    by intros (vo & Hvo & (vs & Hvs & [=])%bind_Ok)%bind_Ok.
  - intros [-> | ->]; [done |].
    by destruct (QUANTIZED_VOLUME_OFFSET ft).
Qed.

(** C1: when the mesh-compression result did not provide POSITION, the
    positions of the point cloud come from the feature table.  If the
    table has POSITION, they are the float VEC3 elements read at the
    byte offset it declares, whether or not POSITION_QUANTIZED is
    present as well.  If the table has no POSITION but has
    POSITION_QUANTIZED, both QUANTIZED_VOLUME_OFFSET and
    QUANTIZED_VOLUME_SCALE are present and every component of a position
    is the unsigned 16-bit value read for it, times the scale of its
    axis divided by 65535, plus zero: the volume offset does not enter
    the positions. *)
Theorem positions_without_compression ft bin bt d s :
  obtainDracoDecodedAttributes ft bin bt = Ok d ->
  (forall decoded, d = Some decoded -> decoded !! "POSITION" = None) ->
  create ft bin bt = Ok s ->
  (forall position,
      POSITION ft = Some position ->
      getAttributeValues "POSITION" s
      = Some (TileTableData.createNumericArrayIterable VEC3 FLOAT bin
                (BinaryBodyOffset.byteOffset position) (POINTS_LENGTH ft)))
  /\
  (forall positionQuantized,
      POSITION ft = None ->
      POSITION_QUANTIZED ft = Some positionQuantized ->
      exists qvo qvs volumeScale,
        QUANTIZED_VOLUME_OFFSET ft = Some qvo /\
        QUANTIZED_VOLUME_SCALE ft = Some qvs /\
        TileTableData.obtainNumberArray bin qvs 3 FLOAT = Ok volumeScale /\
        getAttributeValues "POSITION" s
        = Some (Iterables.map
                  (fun quantized =>
                     Arr [(idx quantized 0 * (at_ volumeScale 0 / 65535) + 0)%float;
                          (idx quantized 1 * (at_ volumeScale 1 / 65535) + 0)%float;
                          (idx quantized 2 * (at_ volumeScale 2 / 65535) + 0)%float])
                  (TileTableData.createNumericArrayIterable
                     VEC3 UNSIGNED_SHORT bin
                     (BinaryBodyOffset.byteOffset positionQuantized)
                     (POINTS_LENGTH ft)))).
Proof.
  intros Hd Hnone Hs.
  destruct (proj1 (create_Ok _ _ _ _) Hs) as (d' & s1 & Hd' & Hs1 & _).
  rewrite Hd in Hd'. injection Hd' as <-.
  pose proof (afterDraco_no_position _ _ _ _ Hnone Hs1) as Habsent.
  assert (afterStep1 ft bin bt = Ok s1) as H1
    by (unfold afterStep1; by rewrite Hd).
  destruct (positions_from_table _ _ _ _ _ H1 Habsent Hs)
    as (positions & Hcreate & Hget).
  unfold getAttributeValues. unfold getAttribute in Hget. rewrite Hget.
  simpl. unfold createPositions in Hcreate. split.
  - intros position Hposition. rewrite Hposition in Hcreate.
    by injection Hcreate as <-.
  - intros pq Hposition Hpq. rewrite Hposition, Hpq in Hcreate.
    apply bind_Ok in Hcreate as (quantization & Hq & Hcreate).
    destruct quantization as [[volumeOffset volumeScale]|]; [| done].
    apply obtainQuantizationOffsetScale_Some in Hq
      as (qvo & qvs & Hqvo & Hqvs & _ & Hscale).
    exists qvo, qvs, volumeScale. repeat split; try done.
    by injection Hcreate as <-.
Qed.

(** C3: when the mesh-compression result contains POSITION, the
    positions of the returned point cloud are the ones decoded from it,
    and the POSITION and POSITION_QUANTIZED fields of the feature table
    are not consulted: replacing them by anything, or removing them,
    changes neither the returned point cloud nor a failure of the
    call. *)
Theorem compressed_positions_override ft bin bt decoded dracoPositions :
  obtainDracoDecodedAttributes ft bin bt = Ok (Some decoded) ->
  decoded !! "POSITION" = Some dracoPositions ->
  (forall s,
      create ft bin bt = Ok s ->
      getAttributeValues "POSITION" s
      = Some (TileTableData.createNumericArrayIterable VEC3 FLOAT
                (attributeData dracoPositions)
                (AttributeInfo.byteOffset (attributeInfo dracoPositions))
                (POINTS_LENGTH ft)))
  /\
  (forall position positionQuantized,
      create (withPositions ft position positionQuantized) bin bt
      = create ft bin bt).
Proof.
  intros Hd Hp. split.
  - intros s Hs.
    destruct (proj1 (create_Ok _ _ _ _) Hs) as (d' & s1 & Hd' & Hs1 & Hrun).
    rewrite Hd in Hd'. injection Hd' as <-.
    pose proof (afterDraco_position _ _ _ _ _ _ eq_refl Hp Hs1) as H1.
    pose proof (run_monotone _ (rawSteps_monotone ft bin) _ _ Hrun) as Hsub.
    unfold getAttributeValues.
    by rewrite (lookup_weaken _ _ _ _ H1 Hsub).
  - intros position positionQuantized.
    rewrite !create_afterStep1.
    change (afterStep1 (withPositions ft position positionQuantized) bin bt)
      with (afterStep1 ft bin bt).
    destruct (afterStep1 ft bin bt) as [s1|e] eqn:H1; [| done].
    unfold afterStep1 in H1. rewrite Hd in H1. simpl in H1.
    pose proof (afterDraco_position _ _ _ _ _ _ eq_refl Hp H1) as Hs1.
    simpl. unfold assignPositions, getAttributeValues.
    rewrite Hs1. reflexivity.
Qed.

(** *** Colours *)

(** When step 1 stored no colours, the colours of the result are those
    of [createNormalizedLinearColors]. *)
Lemma colors_from_table ft bin bt s1 s :
  afterStep1 ft bin bt = Ok s1 ->
  getAttributeValues "COLOR_0" s1 = None ->
  create ft bin bt = Ok s ->
  getAttributeValues "COLOR_0" s = createNormalizedLinearColors ft bin.
Proof.
  intros H1 Hnone Hs.
  destruct (proj1 (create_Ok_afterStep4 _ _ _ _) Hs)
    as (s4 & _ & _ & H4 & _).
  unfold getAttributeValues.
  rewrite (afterStep4_frame _ _ _ _ _ "COLOR_0" H4 Hs ltac:(done)).
  apply afterStep4_Ok in H4 as (s1' & s2 & s3 & H1' & H2 & H3 & H4).
  rewrite H1 in H1'. injection H1' as <-.
  apply getAttributeValues_None in Hnone.
  assert (attributes s3 !! "COLOR_0" = None) as Hs3.
  { rewrite (assignNormals_touchesOnly _ _ _ _ "COLOR_0" H3 ltac:(done)).
    by rewrite (assignPositions_touchesOnly _ _ _ _ "COLOR_0" H2
                  ltac:(done)). }
  unfold assignColors, getAttributeValues in H4. rewrite Hs3 in H4.
  simpl in H4.
  destruct (createNormalizedLinearColors ft bin) as [colors|].
  - apply assignSlot_Ok_lookup in H4. by rewrite H4.
  - injection H4 as <-. by rewrite Hs3.
Qed.

(** C5: when the mesh-compression block stored no COLOR_0, the
    per-point colours are taken from the first present of RGBA, RGB and
    RGB565, in this order, and converted to normalized-linear RGBA; the
    fields after the first present one are ignored, so a table with RGBA
    and RGB gets its colours from RGBA.  The colours converted from RGB
    or RGB565 have alpha 1.0. *)
Theorem colors_precedence ft bin bt s1 s :
  afterStep1 ft bin bt = Ok s1 ->
  getAttributeValues "COLOR_0" s1 = None ->
  create ft bin bt = Ok s ->
  (forall rgba,
      RGBA ft = Some rgba ->
      getAttributeValues "COLOR_0" s
      = Some (Iterables.map Colors.standardRGBAToNormalizedLinearRGBA
                (TileTableData.createNumericArrayIterable VEC4 UNSIGNED_BYTE
                   bin (BinaryBodyOffset.byteOffset rgba)
                   (POINTS_LENGTH ft))))
  /\
  (forall rgb,
      RGBA ft = None -> RGB ft = Some rgb ->
      getAttributeValues "COLOR_0" s
      = Some (Iterables.map Colors.standardRGBToNormalizedLinearRGBA
                (TileTableData.createNumericArrayIterable VEC3 UNSIGNED_BYTE
                   bin (BinaryBodyOffset.byteOffset rgb)
                   (POINTS_LENGTH ft))))
  /\
  (forall rgb565,
      RGBA ft = None -> RGB ft = None -> RGB565 ft = Some rgb565 ->
      getAttributeValues "COLOR_0" s
      = Some (Iterables.map Colors.standardRGB565ToNormalizedLinearRGBA
                (TileTableData.createNumericScalarIterable
                   SCALAR UNSIGNED_SHORT
                   bin (BinaryBodyOffset.byteOffset rgb565)
                   (POINTS_LENGTH ft))))
  /\
  (RGBA ft = None -> RGB ft = None -> RGB565 ft = None ->
   getAttributeValues "COLOR_0" s = None)
  /\
  (forall colors i color,
      RGBA ft = None ->
      getAttributeValues "COLOR_0" s = Some colors ->
      colors !! i = Some (Ok color) ->
      idx color 3 = 1%float).
Proof.
  intros H1 Hnone Hs.
  rewrite (colors_from_table _ _ _ _ _ H1 Hnone Hs).
  unfold createNormalizedLinearColors.
  repeat split.
  - by intros rgba ->.
  - by intros rgb -> ->.
  - by intros rgb565 -> -> ->.
  - by intros -> -> ->.
  - intros colors i color -> Hcolors Hi.
    destruct (RGB ft) as [rgb|];
      [| destruct (RGB565 ft) as [rgb565|]; [| done]];
      injection Hcolors as <-;
      unfold Iterables.map in Hi;
      apply list_lookup_fmap_Some in Hi as (r & Hcolor & _);
      (destruct r; [| done]); by injection Hcolor as ->.
Qed.

(** *** The global colour *)

Local Ltac step_keeps :=
  intros pc pc';
  repeat (case_match; try (by intros [= <-]));
  try apply addAttribute_keepsGlobalColor.

Lemma dracoSteps_keepsGlobalColor n d bt :
  Forall keepsGlobalColor (dracoSteps n d bt).
Proof.
  unfold dracoSteps. apply Forall_app. split.
  - repeat constructor;
      unfold assignDracoPositions, assignDracoNormals, assignDracoRGB,
        assignDracoRGBA, assignDracoBatchId, setPositions, setNormals,
        setNormalizedLinearColors; step_keeps.
  - apply List.Forall_map, Forall_forall. intros name _.
    unfold assignDracoProperty. step_keeps.
Qed.

Lemma assignBatchIds_keepsGlobalColor ft bin :
  keepsGlobalColor (assignBatchIds ft bin).
Proof.
  unfold assignBatchIds. intros pc pc'.
  case_match; [by intros [= <-] |].
  intros (batchIds & _ & Hadd)%bind_Ok. revert Hadd.
  repeat (case_match; try (by intros [= <-])).
  apply addAttribute_keepsGlobalColor.
Qed.

(** No statement of the first four steps assigns the global colour. *)
Lemma afterStep4_globalColor ft bin bt s4 :
  afterStep4 ft bin bt = Ok s4 -> globalColor s4 = None.
Proof.
  intros (s1 & s2 & s3 & H1 & H2 & H3 & H4)%afterStep4_Ok.
  assert (globalColor s1 = None) as Hs1.
  { unfold afterStep1 in H1.
    apply bind_Ok in H1 as (d & _ & H1). unfold afterDraco in H1.
    destruct d as [decoded|]; [| by injection H1 as <-].
    by rewrite (run_keepsGlobalColor _
                  (dracoSteps_keepsGlobalColor _ _ _) _ _ H1). }
  assert (keepsGlobalColor (assignPositions ft bin)) as Hp.
  { unfold assignPositions, setPositions. intros pc pc'.
    case_match; [by intros [= <-] |].
    by intros (positions & _ & [= <-])%bind_Ok. }
  assert (keepsGlobalColor (assignNormals ft bin)) as Hn
    by (unfold assignNormals, setNormals; step_keeps).
  assert (keepsGlobalColor (assignColors ft bin)) as Hc
    by (unfold assignColors, setNormalizedLinearColors; step_keeps).
  by rewrite (Hc _ _ H4), (Hn _ _ H3), (Hp _ _ H2).
Qed.

(** C7: when no per-point colour has been stored by the end of step 4
    and the table has CONSTANT_RGBA, its four unsigned bytes are
    converted to normalized-linear and assigned to the global colour
    slot only: the point cloud that is returned has no COLOR_0
    attribute.  When a per-point colour has been stored, CONSTANT_RGBA
    is not consulted: the call does the same whatever the field holds,
    and the global colour stays undefined. *)
Theorem constant_color_is_global ft bin bt s4 :
  afterStep4 ft bin bt = Ok s4 ->
  (getAttributeValues "COLOR_0" s4 = None ->
   forall constant s,
     CONSTANT_RGBA ft = Some constant ->
     create ft bin bt = Ok s ->
     exists constantRGBA,
       TileTableData.obtainNumberArray bin constant 4 UNSIGNED_BYTE
         = Ok constantRGBA /\
       globalColor s
       = (let normalizedLinearRGBA :=
            Colors.standardRGBAToNormalizedLinearRGBA (Arr constantRGBA) in
          Some (idx normalizedLinearRGBA 0, idx normalizedLinearRGBA 1,
                idx normalizedLinearRGBA 2, idx normalizedLinearRGBA 3)) /\
       getAttributeValues "COLOR_0" s = None)
  /\
  (is_Some (getAttributeValues "COLOR_0" s4) ->
   (forall constant,
       create (withConstantRGBA ft constant) bin bt = create ft bin bt) /\
   (forall s, create ft bin bt = Ok s -> globalColor s = None)).
Proof.
  intros H4. split.
  - intros Hnone constant s Hconstant Hs.
    pose proof (afterStep4_frame _ _ _ _ _ "COLOR_0" H4 Hs ltac:(done))
      as Hframe.
    apply create_Ok_afterStep4 in Hs
      as (s4' & s5 & s6 & H4' & H5 & H6 & H7).
    rewrite H4 in H4'. injection H4' as <-.
    apply getAttributeValues_None in Hnone.
    unfold assignGlobalColor, getAttributeValues in H6.
    rewrite (assignBatchIds_touchesOnly _ _ _ _ "COLOR_0" H5 ltac:(done)),
      Hnone in H6.
    simpl in H6. apply bind_Ok in H6 as (color & Hcolor & [= <-]).
    unfold createGlobalNormalizedLinearColor in Hcolor.
    rewrite Hconstant in Hcolor.
    apply bind_Ok in Hcolor as (constantRGBA & Hread & [= <-]).
    exists constantRGBA. split; [done |]. split.
    + by apply assignGlobalPosition_attributes in H7 as [_ ->].
    + unfold getAttributeValues. by rewrite Hframe, Hnone.
  - intros [colors Hcolors].
    assert (forall s5, assignBatchIds ft bin s4 = Ok s5 ->
              is_Some (getAttributeValues "COLOR_0" s5)) as Hs5.
    { intros s5 H5. unfold getAttributeValues in *.
      by rewrite (assignBatchIds_touchesOnly _ _ _ _ "COLOR_0" H5
                    ltac:(done)), Hcolors. }
    split.
    + intros constant. rewrite !create_afterStep4.
      change (afterStep4 (withConstantRGBA ft constant) bin bt)
        with (afterStep4 ft bin bt).
      rewrite H4. simpl.
      change (assignBatchIds (withConstantRGBA ft constant) bin s4)
        with (assignBatchIds ft bin s4).
      destruct (assignBatchIds ft bin s4) as [s5|e] eqn:H5; [| done].
      simpl. unfold assignGlobalColor.
      destruct (Hs5 s5 eq_refl) as [colors5 ->]. reflexivity.
    + intros s (s4' & s5 & s6 & H4' & H5 & H6 & H7)%create_Ok_afterStep4.
      rewrite H4 in H4'. injection H4' as <-.
      apply assignGlobalPosition_attributes in H7 as [_ ->].
      unfold assignGlobalColor in H6.
      destruct (Hs5 s5 H5) as [colors5 Hcolors5].
      rewrite Hcolors5 in H6. injection H6 as <-.
      rewrite (assignBatchIds_keepsGlobalColor _ _ _ _ H5).
      by eapply afterStep4_globalColor.
Qed.

(** *** Batch identifiers *)

(** C9: when _FEATURE_ID_0 is stored from a raw BATCH_ID field whose
    descriptor declares no component datatype, the batch identifiers
    are read as unsigned 16-bit integers (each is the little-endian
    value of two bytes of the binary body), and the attribute is stored
    as a scalar attribute whose component type is UINT16. *)
Theorem batch_id_defaults_to_unsigned_short ft bin bt s4 s batchId :
  afterStep4 ft bin bt = Ok s4 ->
  getAttributeValues "_FEATURE_ID_0" s4 = None ->
  BATCH_ID ft = Some batchId ->
  BinaryBodyOffset.componentType batchId = None ->
  create ft bin bt = Ok s ->
  getAttribute "_FEATURE_ID_0" s
  = Some {| attributeType := "SCALAR";
            attributeComponentType := "UINT16";
            attributeValues :=
              TileTableData.createNumericScalarIterable SCALAR UNSIGNED_SHORT
                bin (BinaryBodyOffset.byteOffset batchId)
                (POINTS_LENGTH ft) |}
  /\
  (forall index lo hi,
      (index < POINTS_LENGTH ft)%nat ->
      bin !! (BinaryBodyOffset.byteOffset batchId + 2 * index)%nat
        = Some lo ->
      bin !! (BinaryBodyOffset.byteOffset batchId + 2 * index + 1)%nat
        = Some hi ->
      TileTableData.createNumericScalarIterable SCALAR UNSIGNED_SHORT
        bin (BinaryBodyOffset.byteOffset batchId) (POINTS_LENGTH ft)
        !! index
      = Some (Ok (Num (numberOfZ (Z.of_N (Byte.to_N lo)
                                  + 256 * Z.of_N (Byte.to_N hi)))))).
Proof.
  intros H4 Hnone HbatchId Hunspecified Hs. split.
  - apply create_Ok_afterStep4 in Hs
      as (s4' & s5 & s6 & H4' & H5 & H6 & H7).
    rewrite H4 in H4'. injection H4' as <-.
    unfold getAttribute.
    apply assignGlobalPosition_attributes in H7 as [-> _].
    apply assignGlobalColor_attributes in H6 as ->.
    unfold assignBatchIds in H5. rewrite Hnone in H5.
    unfold createBatchIds, obtainBatchIdComponentType in H5.
    rewrite HbatchId, Hunspecified in H5. simpl in H5.
    destruct (BATCH_LENGTH ft) as [batchLength|]; [| done].
    simpl in H5. by apply addAttribute_lookup in H5.
  - intros index lo hi Hindex Hlo Hhi.
    unfold TileTableData.createNumericScalarIterable.
    rewrite createNumericArrayIterable_lookup by done.
    by rewrite (readElement_unsigned_short _ _ _ _ _ Hlo Hhi).
Qed.

(** *** The global position *)

Lemma create_globalPosition ft bin bt s :
  create ft bin bt = Ok s ->
  obtainGlobalPosition ft bin = Ok (globalPosition s).
Proof.
  intros (s4 & s5 & s6 & _ & _ & _ & H7)%create_Ok_afterStep4.
  unfold assignGlobalPosition in H7.
  by apply bind_Ok in H7 as (position & -> & [= <-]).
Qed.

(** C6: the global position of the returned point cloud is undefined
    when the table has neither RTC_CENTER nor both
    QUANTIZED_VOLUME_OFFSET and QUANTIZED_VOLUME_SCALE.  With
    RTC_CENTER = [x, y, z] it starts as [x, z, -y].  With both
    quantization fields, whether or not POSITION_QUANTIZED is present,
    it starts from [0, 0, 0] if RTC_CENTER is absent, and the
    quantization offset [ox, oy, oz] is added to it as
    [ox, oz, -oy]. *)
Theorem global_position ft bin bt s :
  create ft bin bt = Ok s ->
  (RTC_CENTER ft = None ->
   QUANTIZED_VOLUME_OFFSET ft = None \/ QUANTIZED_VOLUME_SCALE ft = None ->
   globalPosition s = None)
  /\
  (forall rtc x y z,
      RTC_CENTER ft = Some rtc ->
      TileTableData.obtainRtcCenter rtc bin = Ok [x; y; z] ->
      QUANTIZED_VOLUME_OFFSET ft = None \/ QUANTIZED_VOLUME_SCALE ft = None ->
      globalPosition s = Some (x, z, (- y)%float))
  /\
  (forall qvo qvs ox oy oz,
      RTC_CENTER ft = None ->
      QUANTIZED_VOLUME_OFFSET ft = Some qvo ->
      QUANTIZED_VOLUME_SCALE ft = Some qvs ->
      TileTableData.obtainNumberArray bin qvo 3 FLOAT = Ok [ox; oy; oz] ->
      globalPosition s
      = Some ((0 + ox)%float, (0 + oz)%float, (0 + - oy)%float))
  /\
  (forall rtc x y z qvo qvs ox oy oz,
      RTC_CENTER ft = Some rtc ->
      TileTableData.obtainRtcCenter rtc bin = Ok [x; y; z] ->
      QUANTIZED_VOLUME_OFFSET ft = Some qvo ->
      QUANTIZED_VOLUME_SCALE ft = Some qvs ->
      TileTableData.obtainNumberArray bin qvo 3 FLOAT = Ok [ox; oy; oz] ->
      globalPosition s
      = Some ((x + ox)%float, (z + oz)%float, (- y + - oy)%float)).
Proof.
  intros Hs. pose proof (create_globalPosition _ _ _ _ Hs) as Hglobal.
  unfold obtainGlobalPosition in Hglobal. repeat split.
  - intros Hrtc Hquantization.
    apply (proj2 (obtainQuantizationOffsetScale_None ft bin))
      in Hquantization.
    rewrite Hrtc, Hquantization in Hglobal. simpl in Hglobal.
    by injection Hglobal as <-.
  - intros rtc x y z Hrtc Hcenter Hquantization.
    apply (proj2 (obtainQuantizationOffsetScale_None ft bin))
      in Hquantization.
    rewrite Hrtc, Hcenter, Hquantization in Hglobal. simpl in Hglobal.
    by injection Hglobal as <-.
  - intros qvo qvs ox oy oz Hrtc Hqvo Hqvs Hoffset.
    rewrite Hrtc in Hglobal. simpl in Hglobal.
    apply bind_Ok in Hglobal as (quantization & Hq & Hglobal).
    unfold obtainQuantizationOffsetScale in Hq.
    rewrite Hqvo, Hqvs, Hoffset in Hq. simpl in Hq.
    apply bind_Ok in Hq as (volumeScale & _ & [= <-]).
    by injection Hglobal as <-.
  - intros rtc x y z qvo qvs ox oy oz Hrtc Hcenter Hqvo Hqvs Hoffset.
    rewrite Hrtc, Hcenter in Hglobal. simpl in Hglobal.
    apply bind_Ok in Hglobal as (quantization & Hq & Hglobal).
    unfold obtainQuantizationOffsetScale in Hq.
    rewrite Hqvo, Hqvs, Hoffset in Hq. simpl in Hq.
    apply bind_Ok in Hq as (volumeScale & _ & [= <-]).
    by injection Hglobal as <-.
Qed.

(** *** Format errors *)

Lemma run_neverFormatError (steps : list Step) :
  Forall neverFormatError steps -> neverFormatError (run steps).
Proof.
  induction 1 as [|step rest Hstep _ IH]; intros pc; simpl; [done |].
  rewrite isFormatError_bind. specialize (Hstep pc).
  destruct (step pc); [apply IH | done].
Qed.

Local Ltac step_never :=
  intros pc;
  repeat (case_match; try done);
  try apply isFormatError_addAttribute.

Lemma dracoSteps_neverFormatError n d bt :
  Forall neverFormatError (dracoSteps n d bt).
Proof.
  unfold dracoSteps. apply Forall_app. split.
  - repeat constructor;
      unfold assignDracoPositions, assignDracoNormals, assignDracoRGB,
        assignDracoRGBA, assignDracoBatchId, setPositions, setNormals,
        setNormalizedLinearColors; step_never.
  - apply List.Forall_map, Forall_forall. intros name _.
    unfold assignDracoProperty. step_never.
Qed.

(** Step 1 fails with a compression error or because a name is stored
    twice, never with a format error. *)
Lemma afterStep1_neverFormatError ft bin bt :
  isFormatError (afterStep1 ft bin bt) = false.
Proof.
  unfold afterStep1. rewrite isFormatError_bind.
  destruct (obtainDracoDecodedAttributes ft bin bt) as [d|e] eqn:Hd.
  - destruct d as [decoded|]; [| done].
    apply run_neverFormatError, dracoSteps_neverFormatError.
  - unfold obtainDracoDecodedAttributes in Hd.
    repeat case_match; by simplify_eq.
Qed.

Lemma isFormatError_obtainQuantizationOffsetScale ft bin :
  isFormatError (obtainQuantizationOffsetScale ft bin) = false.
Proof.
  unfold obtainQuantizationOffsetScale.
  destruct (QUANTIZED_VOLUME_OFFSET ft) as [qvo|]; [| done].
  destruct (QUANTIZED_VOLUME_SCALE ft) as [qvs|]; [| done].
  rewrite isFormatError_bind.
  pose proof (isFormatError_obtainNumberArray bin qvo 3 FLOAT) as Hqvo.
  destruct (TileTableData.obtainNumberArray bin qvo 3 FLOAT); [| done].
  rewrite isFormatError_bind.
  pose proof (isFormatError_obtainNumberArray bin qvs 3 FLOAT) as Hqvs.
  by destruct (TileTableData.obtainNumberArray bin qvs 3 FLOAT).
Qed.

Lemma createPositions_formatError ft bin :
  isFormatError (createPositions ft bin) = true <->
  POSITION ft = None /\
  (POSITION_QUANTIZED ft = None \/
   QUANTIZED_VOLUME_OFFSET ft = None \/ QUANTIZED_VOLUME_SCALE ft = None).
Proof.
  unfold createPositions.
  destruct (POSITION ft) as [position|]; [by split; [| intros [? _]] |].
  destruct (POSITION_QUANTIZED ft) as [positionQuantized|];
    [| by split; [intros _; split; [| left] |]].
  rewrite isFormatError_bind.
  pose proof (isFormatError_obtainQuantizationOffsetScale ft bin) as Hnever.
  pose proof (obtainQuantizationOffsetScale_None ft bin) as Hnone.
  destruct (obtainQuantizationOffsetScale ft bin)
    as [[[volumeOffset volumeScale]|]|e] eqn:Hq.
  - split; [done |]. intros [_ [? | Hmissing]]; [done |].
    by apply Hnone in Hmissing.
  - split; [| done]. intros _. split; [done |]. right. by apply Hnone.
  - split; [by rewrite Hnever |]. intros [_ [? | Hmissing]]; [done |].
    by apply Hnone in Hmissing.
Qed.

Lemma assignPositions_formatError ft bin s1 :
  isFormatError (assignPositions ft bin s1) = true <->
  getAttributeValues "POSITION" s1 = None /\
  POSITION ft = None /\
  (POSITION_QUANTIZED ft = None \/
   QUANTIZED_VOLUME_OFFSET ft = None \/ QUANTIZED_VOLUME_SCALE ft = None).
Proof.
  unfold assignPositions.
  destruct (getAttributeValues "POSITION" s1) as [stored|];
    [by split; [| intros [? _]] |].
  rewrite isFormatError_bind, <- (createPositions_formatError ft bin).
  destruct (createPositions ft bin) as [positions|e].
  - simpl. by split; [| intros [_ ?]].
  - by split; [| intros [_ ?]].
Qed.

Lemma assignNormals_neverFormatError ft bin :
  neverFormatError (assignNormals ft bin).
Proof. unfold assignNormals, setNormals. step_never. Qed.

Lemma assignColors_neverFormatError ft bin :
  neverFormatError (assignColors ft bin).
Proof. unfold assignColors, setNormalizedLinearColors. step_never. Qed.

Lemma assignBatchIds_formatError ft bin s4 :
  isFormatError (assignBatchIds ft bin s4) = true <->
  getAttributeValues "_FEATURE_ID_0" s4 = None /\
  is_Some (BATCH_ID ft) /\ BATCH_LENGTH ft = None.
Proof.
  unfold assignBatchIds, createBatchIds.
  destruct (getAttributeValues "_FEATURE_ID_0" s4) as [stored|];
    [by split; [| intros [? _]] |].
  destruct (BATCH_ID ft) as [batchId|]; simpl;
    [| by split; [| intros (_ & [? ?] & _)]].
  destruct (BATCH_LENGTH ft) as [batchLength|]; simpl.
  - case_match; [rewrite isFormatError_addAttribute |];
      by split; [| intros (_ & _ & ?)].
  - by split; [intros _; repeat split; eexists |].
Qed.

Lemma assignGlobalColor_neverFormatError ft bin :
  neverFormatError (assignGlobalColor ft bin).
Proof.
  unfold assignGlobalColor, createGlobalNormalizedLinearColor. intros pc.
  destruct (getAttributeValues "COLOR_0" pc); [done |].
  destruct (CONSTANT_RGBA ft) as [constant|]; [| done].
  rewrite !isFormatError_bind.
  pose proof (isFormatError_obtainNumberArray bin constant 4 UNSIGNED_BYTE)
    as Hread.
  by destruct (TileTableData.obtainNumberArray bin constant 4 UNSIGNED_BYTE).
Qed.

Lemma assignGlobalPosition_neverFormatError ft bin :
  neverFormatError (assignGlobalPosition ft bin).
Proof.
  unfold assignGlobalPosition, obtainGlobalPosition,
    TileTableData.obtainRtcCenter.
  intros pc. rewrite isFormatError_bind.
  pose proof (isFormatError_obtainQuantizationOffsetScale ft bin) as Hq.
  destruct (RTC_CENTER ft) as [rtc|]; simpl.
  - pose proof (isFormatError_obtainNumberArray bin rtc 3 FLOAT) as Hread.
    destruct (TileTableData.obtainNumberArray bin rtc 3 FLOAT) as [c|e];
      simpl; [| exact Hread].
    by destruct (obtainQuantizationOffsetScale ft bin)
      as [[[quantizationOffset quantizationScale]|]|e].
  - by destruct (obtainQuantizationOffsetScale ft bin)
      as [[[quantizationOffset quantizationScale]|]|e].
Qed.

(** C2, as amended: [create] raises a format error exactly when the
    mesh-compression block has completed and either (a) it stored no
    positions, the table has no POSITION, and POSITION_QUANTIZED is
    absent or comes without QUANTIZED_VOLUME_OFFSET or
    QUANTIZED_VOLUME_SCALE; or (b) steps 2 to 4 have completed, no
    _FEATURE_ID_0 is stored yet, and the table has BATCH_ID but no
    BATCH_LENGTH.  So every format error is one of the three structural
    cases of the design document, but a POSITION_QUANTIZED without its
    quantized volume raises nothing when POSITION is present or when the
    compressed result provides the positions.  When the error is raised
    no point cloud is returned. *)
Theorem format_error_cases ft bin bt :
  (isFormatError (create ft bin bt) = true <->
   (exists s1,
       afterStep1 ft bin bt = Ok s1 /\
       getAttributeValues "POSITION" s1 = None /\
       POSITION ft = None /\
       (POSITION_QUANTIZED ft = None \/
        QUANTIZED_VOLUME_OFFSET ft = None \/
        QUANTIZED_VOLUME_SCALE ft = None))
   \/
   (exists s4,
       afterStep4 ft bin bt = Ok s4 /\
       getAttributeValues "_FEATURE_ID_0" s4 = None /\
       is_Some (BATCH_ID ft) /\ BATCH_LENGTH ft = None))
  /\
  (isFormatError (create ft bin bt) = true -> formatErrorConditions ft)
  /\
  (isFormatError (create ft bin bt) = true ->
   forall s, create ft bin bt <> Ok s).
Proof.
  assert (isFormatError (create ft bin bt) = true <->
          (exists s1,
              afterStep1 ft bin bt = Ok s1 /\
              getAttributeValues "POSITION" s1 = None /\
              POSITION ft = None /\
              (POSITION_QUANTIZED ft = None \/
               QUANTIZED_VOLUME_OFFSET ft = None \/
               QUANTIZED_VOLUME_SCALE ft = None))
          \/
          (exists s4,
              afterStep4 ft bin bt = Ok s4 /\
              getAttributeValues "_FEATURE_ID_0" s4 = None /\
              is_Some (BATCH_ID ft) /\ BATCH_LENGTH ft = None)) as Hiff.
  { rewrite create_afterStep4. unfold afterStep4.
    pose proof (afterStep1_neverFormatError ft bin bt) as H1.
    destruct (afterStep1 ft bin bt) as [s1|e]; simpl in *;
      [| split; [by rewrite H1 | by intros [(? & ? & _) | (? & ? & _)]]].
    pose proof (assignPositions_formatError ft bin s1) as Hpositions.
    destruct (assignPositions ft bin s1) as [s2|e]; simpl in *.
    2: { rewrite Hpositions. split.
         - intros Hcase. left. by exists s1.
         - intros [(s1' & [= <-] & Hcase) | (? & ? & _)]; done. }
    assert (~ exists s1' : DefaultPointCloud,
              Ok s1 = Ok s1' /\
              getAttributeValues "POSITION" s1' = None /\
              POSITION ft = None /\
              (POSITION_QUANTIZED ft = None \/
               QUANTIZED_VOLUME_OFFSET ft = None \/
               QUANTIZED_VOLUME_SCALE ft = None)) as Hleft.
    { intros (s1' & [= <-] & Hcase). by apply Hpositions in Hcase. }
    pose proof (assignNormals_neverFormatError ft bin s2) as Hnormals.
    destruct (assignNormals ft bin s2) as [s3|e]; simpl in *;
      [| split; [by rewrite Hnormals
                | by intros [? | (? & ? & _)]]].
    pose proof (assignColors_neverFormatError ft bin s3) as Hcolors.
    destruct (assignColors ft bin s3) as [s4|e]; simpl in *;
      [| split; [by rewrite Hcolors
                | by intros [? | (? & ? & _)]]].
    pose proof (assignBatchIds_formatError ft bin s4) as HbatchIds.
    destruct (assignBatchIds ft bin s4) as [s5|e]; simpl in *.
    2: { rewrite HbatchIds. split.
         - intros Hcase. right. by exists s4.
         - intros [? | (s4' & [= <-] & Hcase)]; done. }
    pose proof (assignGlobalColor_neverFormatError ft bin s5) as Hcolor.
    pose proof (fun s6 => assignGlobalPosition_neverFormatError ft bin s6)
      as Hposition.
    split.
    - destruct (assignGlobalColor ft bin s5) as [s6|e]; simpl in *;
        [| by rewrite Hcolor].
      specialize (Hposition s6).
      destruct (assignGlobalPosition ft bin s6); simpl in *;
        [done | by rewrite Hposition].
    - intros [? | (s4' & [= <-] & Hcase)]; [done |].
      by apply HbatchIds in Hcase. }
  split; [exact Hiff |]. split.
  - intros Hraised. apply Hiff in Hraised
      as [(s1 & _ & _ & Hposition & Hquantized)
         | (s4 & _ & _ & HbatchId & HbatchLength)].
    + destruct (POSITION_QUANTIZED ft) as [positionQuantized|] eqn:Hpq.
      * left. split; [done |].
        by destruct Hquantized as [? | [? | ?]]; [| left | right].
      * right. right. by rewrite Hpq.
    + right. by left.
  - intros Hraised s Hs. by rewrite Hs in Hraised.
Qed.

(** *** Compressed properties of the batch table *)

Lemma dracoProperties_stored n d bt name dracoProperty reference :
  d !! name = Some dracoProperty ->
  batchTableProperties bt !! name = Some (BinaryBodyReference reference) ->
  forall names s0 s1,
    name ∈ names ->
    run (List.map (assignDracoProperty n d bt) names) s0 = Ok s1 ->
    attributes s1 !! name
    = Some {| attributeType :=
                TileTableData.convertLegacyTypeToType
                  (BatchTableBinaryBodyReference.type reference);
              attributeComponentType :=
                TileTableData.convertLegacyComponentTypeToComponentType
                  (AttributeInfo.componentDatatype
                     (attributeInfo dracoProperty));
              attributeValues :=
                TileTableData.createNumericScalarIterable
                  (BatchTableBinaryBodyReference.type reference)
                  (AttributeInfo.componentDatatype
                     (attributeInfo dracoProperty))
                  (attributeData dracoProperty)
                  (AttributeInfo.byteOffset (attributeInfo dracoProperty))
                  n |}.
Proof.
  intros Hd Hreference names.
  induction names as [|name' rest IH]; intros s0 s1 Hin; simpl.
  - by apply elem_of_nil in Hin.
  - intros (s0' & Hstep & Hrest)%bind_Ok.
    destruct (decide (name = name')) as [<- | Hne].
    + unfold assignDracoProperty, batchTableBinaryBodyReference in Hstep.
      rewrite Hd, Hreference in Hstep.
      apply addAttribute_lookup in Hstep.
      eapply lookup_weaken; [exact Hstep |].
      eapply run_monotone; [| exact Hrest].
      apply List.Forall_map, Forall_forall. intros property _.
      apply assignDracoProperty_monotone.
    + apply elem_of_cons in Hin as [? | Hin]; [done |]. by eapply IH.
Qed.

(** A name that is none of the four that the well-known attributes are
    stored under, and that is not a compressed property of the batch
    table given by a reference into the binary body and returned by the
    decoder, is not stored by the mesh-compression block. *)
Lemma dracoSteps_not_stored n d bt name :
  name <> "POSITION" -> name <> "NORMAL" ->
  name <> "COLOR_0" -> name <> "_FEATURE_ID_0" ->
  name ∉ BatchTables.obtainDracoPropertyNames bt \/
  d !! name = None \/
  batchTableBinaryBodyReference bt name = None ->
  Forall (preserves name) (dracoSteps n d bt).
Proof.
  intros Hposition Hnormal Hcolor Hid Hcase.
  unfold dracoSteps. apply Forall_app. split.
  - repeat constructor.
    + by eapply touchesOnly_preserves;
        [apply assignDracoPositions_touchesOnly |].
    + by eapply touchesOnly_preserves;
        [apply assignDracoNormals_touchesOnly |].
    + by eapply touchesOnly_preserves; [apply assignDracoRGB_touchesOnly |].
    + by eapply touchesOnly_preserves; [apply assignDracoRGBA_touchesOnly |].
    + by eapply touchesOnly_preserves;
        [apply assignDracoBatchId_touchesOnly |].
  - apply List.Forall_map, Forall_forall. intros property Hin.
    destruct (decide (name = property)) as [<- | Hne].
    + destruct Hcase as [Hnotin | [Hd | Hreference]].
      * done.
      * by apply assignDracoProperty_absent.
      * unfold assignDracoProperty. intros pc pc'. rewrite Hreference.
        by destruct (d !! name); intros [= <-].
    + by eapply touchesOnly_preserves;
        [apply assignDracoProperty_touchesOnly |].
Qed.

Lemma rawSteps_preserves ft bin name :
  name <> "POSITION" -> name <> "NORMAL" ->
  name <> "COLOR_0" -> name <> "_FEATURE_ID_0" ->
  Forall (preserves name) (rawSteps ft bin).
Proof.
  intros Hposition Hnormal Hcolor Hid. repeat constructor.
  - by eapply touchesOnly_preserves; [apply assignPositions_touchesOnly |].
  - by eapply touchesOnly_preserves; [apply assignNormals_touchesOnly |].
  - by eapply touchesOnly_preserves; [apply assignColors_touchesOnly |].
  - by eapply touchesOnly_preserves; [apply assignBatchIds_touchesOnly |].
  - intros pc pc' Hstep. by rewrite (assignGlobalColor_attributes _ _ _ _ Hstep).
  - intros pc pc' Hstep.
    by apply assignGlobalPosition_attributes in Hstep as [-> _].
Qed.

(** C8, as amended: the properties of the compressed result that
    become generic attributes are those that the batch table lists in
    its own mesh-compression extension and gives as a reference into
    the binary body.  Each of them is stored under its own name, with
    the element type translated from the legacy type that the batch
    table declares and the component type translated from the legacy
    component datatype that the decoder reports.  A property that the
    decoder returns under another name (the four names of the
    well-known attributes apart) is not stored. *)
Theorem compressed_batch_table_properties ft bin bt decoded s :
  obtainDracoDecodedAttributes ft bin bt = Ok (Some decoded) ->
  create ft bin bt = Ok s ->
  (forall name dracoProperty reference,
      name ∈ BatchTables.obtainDracoPropertyNames bt ->
      decoded !! name = Some dracoProperty ->
      batchTableProperties bt !! name
        = Some (BinaryBodyReference reference) ->
      getAttribute name s
      = Some {| attributeType :=
                  TileTableData.convertLegacyTypeToType
                    (BatchTableBinaryBodyReference.type reference);
                attributeComponentType :=
                  TileTableData.convertLegacyComponentTypeToComponentType
                    (AttributeInfo.componentDatatype
                       (attributeInfo dracoProperty));
                attributeValues :=
                  TileTableData.createNumericScalarIterable
                    (BatchTableBinaryBodyReference.type reference)
                    (AttributeInfo.componentDatatype
                       (attributeInfo dracoProperty))
                    (attributeData dracoProperty)
                    (AttributeInfo.byteOffset
                       (attributeInfo dracoProperty))
                    (POINTS_LENGTH ft) |})
  /\
  (forall name,
      name <> "POSITION" -> name <> "NORMAL" ->
      name <> "COLOR_0" -> name <> "_FEATURE_ID_0" ->
      name ∉ BatchTables.obtainDracoPropertyNames bt \/
      decoded !! name = None \/
      batchTableBinaryBodyReference bt name = None ->
      getAttribute name s = None).
Proof.
  intros Hd Hs.
  apply create_Ok in Hs as (d' & s1 & Hd' & Hs1 & Hrun).
  rewrite Hd in Hd'. injection Hd' as <-.
  unfold afterDraco, assignDracoDecodedAttributes in Hs1. split.
  - intros name dracoProperty reference Hin Hname Hreference.
    unfold dracoSteps in Hs1. rewrite run_app in Hs1.
    apply bind_Ok in Hs1 as (s0 & _ & Hloop).
    pose proof (dracoProperties_stored _ _ _ _ _ _ Hname Hreference
                  _ _ _ Hin Hloop) as Hstored.
    unfold getAttribute. eapply lookup_weaken; [exact Hstored |].
    by eapply run_monotone; [apply rawSteps_monotone |].
  - intros name Hposition Hnormal Hcolor Hid Hcase. unfold getAttribute.
    rewrite (run_preserves name _
               (rawSteps_preserves ft bin name Hposition Hnormal Hcolor Hid)
               _ _ Hrun).
    by rewrite (run_preserves name _
                  (dracoSteps_not_stored _ _ _ name
                     Hposition Hnormal Hcolor Hid Hcase) _ _ Hs1).
Qed.

End Pipeline.

(** The claim C2 as the design document states it fails: this table has
    POSITION_QUANTIZED without QUANTIZED_VOLUME_OFFSET, which is one of
    the listed conditions, and [create] returns a point cloud, because
    the table has POSITION as well. *)
Lemma format_error_not_raised_when_position_present :
  formatErrorConditions bothPositionsTable /\
  isFormatError
    (PntsPointClouds.create (transfer := exampleTransfer) (decoder := rejectingDecoder)
       bothPositionsTable [] emptyBatchTable)
  = false.
Proof.
  split; [| reflexivity].
  left. split; [by eexists | by left].
Qed.

(** The claim C8 as the design document states it fails: the decoder
    returns the property FOO, which is none of POSITION, NORMAL, RGB,
    RGBA and BATCH_ID, and the point cloud that [create] returns has no
    attribute FOO, because the batch table gives FOO inline and not as a
    reference into the binary body. *)
Lemma returned_property_not_stored :
  exists decoded dracoProperty s,
    PntsPointClouds.obtainDracoDecodedAttributes (decoder := echoDecoder FLOAT)
      compressedFeatureTable [] inlineFooBatchTable = Ok (Some decoded) /\
    decoded !! "FOO" = Some dracoProperty /\
    PntsPointClouds.create (transfer := exampleTransfer) (decoder := echoDecoder FLOAT)
      compressedFeatureTable [] inlineFooBatchTable = Ok s /\
    PointCloud.getAttribute "FOO" s = None.
Proof.
  do 3 eexists. split; [reflexivity |].
  split; [vm_compute; reflexivity |].
  split; [vm_compute; reflexivity |].
  vm_compute. reflexivity.
Qed.



(** ** The tileset source *)

Section TilesetSourceProperties.
Context {fileSystem : FileSystem}.
Import TilesetSource.

Lemma open_closed name source :
  ~ isOpened source ->
  open name source = Ok {| fullInputName := Some name |}.
Proof.
  unfold isOpened, open. by destruct (truthy (fullInputName source)).
Qed.

(** After [open] with a non-empty directory name the source is
    opened. *)
Lemma open_then_opened name source source' :
  name <> "" ->
  open name source = Ok source' ->
  isOpened source'.
Proof.
  intros Hname. unfold open, isOpened.
  destruct (truthy (fullInputName source)); [done |].
  intros [= <-]. simpl. apply negb_true_iff.
  by apply String.eqb_neq.
Qed.

(** The empty string is falsy: after [open] with the empty name the
    source still counts as not opened. *)
Lemma open_empty_name_not_opened source source' :
  open "" source = Ok source' -> ~ isOpened source'.
Proof.
  unfold open, isOpened.
  destruct (truthy (fullInputName source)); [done |].
  by intros [= <-].
Qed.

Lemma truthy_Some_nonempty name :
  name <> "" -> truthy (Some name) = true.
Proof.
  intros Hname. simpl. apply negb_true_iff. by apply String.eqb_neq.
Qed.




End TilesetSourceProperties.

(** ** The properties at concrete inputs *)

Section Witnesses.
Import PointCloud PntsPointClouds.
#[local] Existing Instance exampleTransfer.

(** The quantized point (1, 2, 65535) is stored as
    (1 * 65535/65535, 2 * 131070/65535, 65535 * 1/65535), without the
    volume offset. *)
Lemma positions_without_compression_witness :
  exists s qvo qvs volumeScale,
    create (decoder := rejectingDecoder)
      quantizedTable quantizedBinary emptyBatchTable = Ok s /\
    QUANTIZED_VOLUME_OFFSET quantizedTable = Some qvo /\
    QUANTIZED_VOLUME_SCALE quantizedTable = Some qvs /\
    TileTableData.obtainNumberArray quantizedBinary qvs 3 FLOAT
      = Ok volumeScale /\
    getAttributeValues "POSITION" s
    = Some (Iterables.map
              (fun quantized =>
                 Arr [(idx quantized 0 * (at_ volumeScale 0 / 65535) + 0)%float;
                      (idx quantized 1 * (at_ volumeScale 1 / 65535) + 0)%float;
                      (idx quantized 2 * (at_ volumeScale 2 / 65535) + 0)%float])
              (TileTableData.createNumericArrayIterable VEC3 UNSIGNED_SHORT
                 quantizedBinary 0 1)).
Proof.
  assert (exists s, create (decoder := rejectingDecoder)
            quantizedTable quantizedBinary emptyBatchTable = Ok s)
    as [s Hs] by (eexists; vm_compute; reflexivity).
  destruct (proj2 (positions_without_compression
                     (decoder := rejectingDecoder)
                     quantizedTable quantizedBinary emptyBatchTable None s
                     eq_refl ltac:(done) Hs) at0 eq_refl eq_refl)
    as (qvo & qvs & volumeScale & Hqvo & Hqvs & Hscale & Hpositions).
  by exists s, qvo, qvs, volumeScale.
Defined.

Example quantized_positions_values :
  (fun s => Iterables.toArray <$> getAttributeValues "POSITION" s)
    <$> create (decoder := rejectingDecoder)
          quantizedTable quantizedBinary emptyBatchTable
  = Ok (Some (Ok [Arr [1; 4; 1]%float])).
Proof. vm_compute. reflexivity. Qed.

(** The format error for a table with neither POSITION nor
    POSITION_QUANTIZED, from the characterization. *)
Lemma format_error_cases_witness :
  isFormatError
    (create (decoder := rejectingDecoder)
       (emptyFeatureTable 0) [] emptyBatchTable) = true.
Proof.
  apply (proj1 (format_error_cases (decoder := rejectingDecoder)
                  (emptyFeatureTable 0) [] emptyBatchTable)).
  left. exists PointCloud.empty. repeat split. by left.
Defined.

(** The compressed positions are stored although the table has a raw
    POSITION field. *)
Lemma compressed_positions_override_witness :
  exists decoded dracoPositions s,
    obtainDracoDecodedAttributes (decoder := echoDecoder UNSIGNED_BYTE)
      dracoTable colorsBinary emptyBatchTable = Ok (Some decoded) /\
    decoded !! "POSITION" = Some dracoPositions /\
    create (decoder := echoDecoder UNSIGNED_BYTE)
      dracoTable colorsBinary emptyBatchTable = Ok s /\
    getAttributeValues "POSITION" s
    = Some (TileTableData.createNumericArrayIterable VEC3 FLOAT
              (attributeData dracoPositions)
              (AttributeInfo.byteOffset (attributeInfo dracoPositions))
              1).
Proof.
  assert (exists decoded,
             obtainDracoDecodedAttributes (decoder := echoDecoder UNSIGNED_BYTE)
               dracoTable colorsBinary emptyBatchTable = Ok (Some decoded))
    as [decoded Hdecoded] by (eexists; reflexivity).
  assert (exists dracoPositions, decoded !! "POSITION" = Some dracoPositions)
    as [dracoPositions Hpositions].
  { injection Hdecoded as <-. eexists. vm_compute. reflexivity. }
  assert (exists s, create (decoder := echoDecoder UNSIGNED_BYTE)
            dracoTable colorsBinary emptyBatchTable = Ok s)
    as [s Hs] by (eexists; vm_compute; reflexivity).
  exists decoded, dracoPositions, s. repeat split; try done.
  exact (proj1 (compressed_positions_override
                  (decoder := echoDecoder UNSIGNED_BYTE)
                  dracoTable colorsBinary emptyBatchTable
                  decoded dracoPositions Hdecoded Hpositions) s Hs).
Defined.


(** With RGBA and RGB both in the table, the colours are those of
    RGBA. *)
Lemma colors_precedence_witness :
  exists s1 s,
    afterStep1 (decoder := rejectingDecoder)
      colorsTable colorsBinary emptyBatchTable = Ok s1 /\
    getAttributeValues "COLOR_0" s1 = None /\
    create (decoder := rejectingDecoder)
      colorsTable colorsBinary emptyBatchTable = Ok s /\
    getAttributeValues "COLOR_0" s
    = Some (Iterables.map Colors.standardRGBAToNormalizedLinearRGBA
              (TileTableData.createNumericArrayIterable VEC4 UNSIGNED_BYTE
                 colorsBinary 12 1)).
Proof.
  assert (exists s, create (decoder := rejectingDecoder)
            colorsTable colorsBinary emptyBatchTable = Ok s)
    as [s Hs] by (eexists; vm_compute; reflexivity).
  exists PointCloud.empty, s. repeat split; try done.
  exact (proj1 (colors_precedence (decoder := rejectingDecoder)
                  colorsTable colorsBinary emptyBatchTable
                  PointCloud.empty s eq_refl eq_refl Hs)
           _ eq_refl).
Defined.

(** RTC_CENTER = [1, 2, 3] without quantization gives the global
    position [1, 3, -2]. *)
Lemma global_position_witness :
  exists s,
    create (decoder := rejectingDecoder) rtcTable [] emptyBatchTable = Ok s /\
    globalPosition s = Some (1, 3, -2)%float.
Proof.
  assert (exists s, create (decoder := rejectingDecoder)
            rtcTable [] emptyBatchTable = Ok s)
    as [s Hs] by (eexists; vm_compute; reflexivity).
  exists s. split; [done |].
  apply (proj1 (proj2 (global_position (decoder := rejectingDecoder)
                         _ _ _ _ Hs))
           (InlineArray [1; 2; 3]%float) 1%float 2%float 3%float);
    [reflexivity | reflexivity | by left].
Defined.

(** With RTC_CENTER = [1, 2, 3] and the volume offset (10, 20, 30) the
    global position is (1 + 10, 3 + 30, -2 - 20). *)
Example global_position_with_quantization :
  globalPosition
    <$> create (decoder := rejectingDecoder)
          quantizedTable quantizedBinary emptyBatchTable
  = Ok (Some (11, 33, -22)%float).
Proof. vm_compute. reflexivity. Qed.

(** Without per-point colours, the constant colour red becomes the
    global colour, and there is no COLOR_0 attribute. *)
Lemma constant_color_is_global_witness :
  exists s4 s constantRGBA,
    afterStep4 (decoder := rejectingDecoder)
      quantizedTable quantizedBinary emptyBatchTable = Ok s4 /\
    getAttributeValues "COLOR_0" s4 = None /\
    create (decoder := rejectingDecoder)
      quantizedTable quantizedBinary emptyBatchTable = Ok s /\
    TileTableData.obtainNumberArray quantizedBinary
      (InlineArray [255; 0; 0; 255]%float) 4 UNSIGNED_BYTE
      = Ok constantRGBA /\
    globalColor s
    = (let normalizedLinearRGBA :=
         Colors.standardRGBAToNormalizedLinearRGBA (Arr constantRGBA) in
       Some (idx normalizedLinearRGBA 0, idx normalizedLinearRGBA 1,
             idx normalizedLinearRGBA 2, idx normalizedLinearRGBA 3)) /\
    getAttributeValues "COLOR_0" s = None.
Proof.
  assert (exists s4, afterStep4 (decoder := rejectingDecoder)
            quantizedTable quantizedBinary emptyBatchTable = Ok s4)
    as [s4 H4] by (eexists; vm_compute; reflexivity).
  assert (getAttributeValues "COLOR_0" s4 = None) as Hnone.
  { revert H4. vm_compute. by intros [= <-]. }
  assert (exists s, create (decoder := rejectingDecoder)
            quantizedTable quantizedBinary emptyBatchTable = Ok s)
    as [s Hs] by (eexists; vm_compute; reflexivity).
  destruct (proj1 (constant_color_is_global (decoder := rejectingDecoder)
                     quantizedTable quantizedBinary emptyBatchTable s4 H4)
              Hnone (InlineArray [255; 0; 0; 255]%float) s eq_refl Hs)
    as (constantRGBA & Hread & Hglobal & Hcolors).
  by exists s4, s, constantRGBA.
Defined.

Example constant_color_value :
  globalColor
    <$> create (decoder := rejectingDecoder)
          quantizedTable quantizedBinary emptyBatchTable
  = Ok (Some (1, 0, 0, 1)%float).
Proof. vm_compute. reflexivity. Qed.

(** The decoder reports unsigned shorts for FOO, which the batch table
    declares as VEC3 of FLOAT: FOO is stored as VEC3 of UINT16. *)
Lemma compressed_batch_table_properties_witness :
  exists decoded dracoProperty s,
    obtainDracoDecodedAttributes (decoder := echoDecoder UNSIGNED_SHORT)
      compressedFeatureTable [] referenceFooBatchTable
      = Ok (Some decoded) /\
    decoded !! "FOO" = Some dracoProperty /\
    create (decoder := echoDecoder UNSIGNED_SHORT)
      compressedFeatureTable [] referenceFooBatchTable = Ok s /\
    getAttribute "FOO" s
    = Some {| attributeType := "VEC3";
              attributeComponentType := "UINT16";
              attributeValues :=
                TileTableData.createNumericScalarIterable
                  VEC3 UNSIGNED_SHORT [] 0 0 |}.
Proof.
  assert (exists decoded,
             obtainDracoDecodedAttributes
               (decoder := echoDecoder UNSIGNED_SHORT)
               compressedFeatureTable [] referenceFooBatchTable
             = Ok (Some decoded))
    as [decoded Hdecoded] by (eexists; reflexivity).
  assert (decoded !! "FOO"
          = Some {| attributeData := [];
                    attributeInfo :=
                      {| AttributeInfo.byteOffset := 0;
                         AttributeInfo.componentDatatype :=
                           UNSIGNED_SHORT |} |}) as Hfoo.
  { injection Hdecoded as <-. vm_compute. reflexivity. }
  assert (exists s, create (decoder := echoDecoder UNSIGNED_SHORT)
            compressedFeatureTable [] referenceFooBatchTable = Ok s)
    as [s Hs] by (eexists; vm_compute; reflexivity).
  eexists decoded, _, s. repeat split; try done.
  exact (proj1 (compressed_batch_table_properties
                  (decoder := echoDecoder UNSIGNED_SHORT)
                  compressedFeatureTable [] referenceFooBatchTable
                  decoded s Hdecoded Hs)
           "FOO" _ _ ltac:(vm_compute; left) Hfoo
           ltac:(vm_compute; reflexivity)).
Defined.

(** The batch identifier 0x1234 of the single point, read from two
    bytes. *)
Lemma batch_id_defaults_to_unsigned_short_witness :
  exists s4 s,
    afterStep4 (decoder := rejectingDecoder)
      colorsTable colorsBinary emptyBatchTable = Ok s4 /\
    getAttributeValues "_FEATURE_ID_0" s4 = None /\
    create (decoder := rejectingDecoder)
      colorsTable colorsBinary emptyBatchTable = Ok s /\
    getAttribute "_FEATURE_ID_0" s
    = Some {| attributeType := "SCALAR";
              attributeComponentType := "UINT16";
              attributeValues :=
                TileTableData.createNumericScalarIterable
                  SCALAR UNSIGNED_SHORT colorsBinary 20 1 |}.
Proof.
  assert (exists s4, afterStep4 (decoder := rejectingDecoder)
            colorsTable colorsBinary emptyBatchTable = Ok s4)
    as [s4 H4] by (eexists; vm_compute; reflexivity).
  assert (getAttributeValues "_FEATURE_ID_0" s4 = None) as Hnone.
  { revert H4. vm_compute. by intros [= <-]. }
  assert (exists s, create (decoder := rejectingDecoder)
            colorsTable colorsBinary emptyBatchTable = Ok s)
    as [s Hs] by (eexists; vm_compute; reflexivity).
  exists s4, s. repeat split; try done.
  exact (proj1 (batch_id_defaults_to_unsigned_short
                  (decoder := rejectingDecoder)
                  colorsTable colorsBinary emptyBatchTable s4 s
                  {| BinaryBodyOffset.byteOffset := 20;
                     BinaryBodyOffset.componentType := None |}
                  H4 Hnone eq_refl eq_refl Hs)).
Defined.

Example batch_id_value :
  (fun s => Iterables.toArray <$> getAttributeValues "_FEATURE_ID_0" s)
    <$> create (decoder := rejectingDecoder)
          colorsTable colorsBinary emptyBatchTable
  = Ok (Some (Ok [Num 4660])).
Proof. vm_compute. reflexivity. Qed.

(** When the compressed result holds RGB and RGBA, the colours of the
    point cloud are those decoded from RGBA. *)
Example compressed_RGB_and_RGBA :
  getAttributeValues "COLOR_0"
    <$> create (decoder := echoDecoder UNSIGNED_BYTE)
          bothColorsTable colorsBinary emptyBatchTable
  = Ok (Some (Iterables.map Colors.standardRGBAToNormalizedLinearRGBA
                (TileTableData.createNumericArrayIterable VEC4 UNSIGNED_BYTE
                   (take 16 colorsBinary) 0 1))).
Proof. vm_compute. reflexivity. Qed.


Example tileset_source_reads_file :
  TilesetSource.getValue (fileSystem := exampleFileSystem)
    "tileset.json" openedSource = Ok (Some [x7b; x7d]).
Proof. reflexivity. Qed.

End Witnesses.

(** * Further properties of the decode pipeline *)

Section StoresProperties.
Context {transfer : ColorTransfer} {decoder : DracoDecoder}.
Import PointCloud PntsPointClouds.

Lemma addAttribute_keeps (P : string -> Attribute -> Prop)
    name type componentType values :
  P name {| attributeType := type;
            attributeComponentType := componentType;
            attributeValues := values |} ->
  stepKeeps P (addAttribute name type componentType values).
Proof.
  intros Hnew pc pc' Hall (_ & Hattributes & _)%addAttribute_Ok other a.
  rewrite Hattributes. destruct (decide (other = name)) as [-> | Hne].
  - rewrite lookup_insert_eq. by intros [= <-].
  - rewrite lookup_insert_ne by done. apply Hall.
Qed.

Lemma assignSlot_keeps (P : string -> Attribute -> Prop)
    name type componentType values :
  P name {| attributeType := type;
            attributeComponentType := componentType;
            attributeValues := values |} ->
  stepKeeps P
    (fun pointCloud =>
       Ok (assignSlot name type componentType values pointCloud)).
Proof.
  intros Hnew pc pc' Hall [= <-] other a. simpl.
  destruct (decide (other = name)) as [-> | Hne].
  - rewrite lookup_insert_eq. by intros [= <-].
  - rewrite lookup_insert_ne by done. apply Hall.
Qed.

Lemma stepKeeps_id (P : string -> Attribute -> Prop) : stepKeeps P Ok.
Proof. by intros pc pc' Hall [= <-]. Qed.

Lemma run_keeps (P : string -> Attribute -> Prop) (steps : list Step) :
  Forall (stepKeeps P) steps -> stepKeeps P (run steps).
Proof.
  induction 1 as [|step rest Hstep _ IH]; intros pc pc' Hall; simpl.
  - by intros [= <-].
  - intros (pc1 & H1 & H2)%bind_Ok. eapply IH; [| done]. by eapply Hstep.
Qed.

Lemma dracoSteps_keep_stored ft bin bt result :
  Forall (stepKeeps (Stored ft bin bt (Some result)))
    (dracoSteps (POINTS_LENGTH ft) result bt).
Proof.
  unfold dracoSteps. apply Forall_app. split.
  - repeat constructor.
    + unfold assignDracoPositions, setPositions.
      destruct (result !! "POSITION") eqn:Hp; [| apply stepKeeps_id].
      apply assignSlot_keeps. by econstructor.
    + unfold assignDracoNormals, setNormals.
      destruct (result !! "NORMAL") eqn:Hp; [| apply stepKeeps_id].
      apply assignSlot_keeps. by eapply StoredDracoNormals.
    + unfold assignDracoRGB, setNormalizedLinearColors.
      destruct (result !! "RGB") eqn:Hp; [| apply stepKeeps_id].
      apply assignSlot_keeps. by eapply StoredDracoRGB.
    + unfold assignDracoRGBA, setNormalizedLinearColors.
      destruct (result !! "RGBA") eqn:Hp; [| apply stepKeeps_id].
      apply assignSlot_keeps. by eapply StoredDracoRGBA.
    + unfold assignDracoBatchId.
      destruct (result !! "BATCH_ID") eqn:Hp; [| apply stepKeeps_id].
      apply addAttribute_keeps. by eapply StoredDracoBatchId.
  - apply List.Forall_map, Forall_forall. intros name Hin.
    unfold assignDracoProperty.
    destruct (result !! name) eqn:Hp; [| apply stepKeeps_id].
    destruct (batchTableBinaryBodyReference bt name) eqn:Hr;
      [| apply stepKeeps_id].
    apply addAttribute_keeps. by eapply StoredDracoProperty.
Qed.

Lemma rawSteps_keep_stored ft bin bt d :
  Forall (stepKeeps (Stored ft bin bt d)) (rawSteps ft bin).
Proof.
  repeat constructor.
  - unfold assignPositions, setPositions. intros pc pc' Hall.
    case_match; [by intros [= <-] |].
    intros (positions & Hpositions & Hadd)%bind_Ok.
    eapply assignSlot_keeps; [| done | exact Hadd]. by constructor.
  - unfold assignNormals, setNormals. intros pc pc' Hall.
    case_match; [by intros [= <-] |].
    destruct (createNormals ft bin) eqn:Hn; [| by intros [= <-]].
    intros Hadd. eapply assignSlot_keeps; [| done | exact Hadd].
    by constructor.
  - unfold assignColors, setNormalizedLinearColors. intros pc pc' Hall.
    case_match; [by intros [= <-] |].
    destruct (createNormalizedLinearColors ft bin) eqn:Hn;
      [| by intros [= <-]].
    intros Hadd. eapply assignSlot_keeps; [| done | exact Hadd].
    by constructor.
  - unfold assignBatchIds, createBatchIds, obtainBatchIdComponentType.
    intros pc pc' Hall.
    case_match; [by intros [= <-] |].
    destruct (BATCH_ID ft) as [batchId|] eqn:HbatchId;
      [| by intros [= <-]].
    destruct (BATCH_LENGTH ft) as [batchLength|] eqn:HbatchLength;
      [| done].
    simpl. case_match; [| by intros [= <-]].
    intros Hadd. eapply addAttribute_keeps; [| done | done].
    by econstructor.
  - intros pc pc' Hall Hstep name a.
    rewrite (assignGlobalColor_attributes _ _ _ _ Hstep). apply Hall.
  - intros pc pc' Hall Hstep name a.
    apply assignGlobalPosition_attributes in Hstep as [-> _]. apply Hall.
Qed.

(** The invariant of [create]: every attribute of the point cloud is
    one of the stores of the call. *)
Lemma create_stores ft bin bt d s name attribute :
  obtainDracoDecodedAttributes ft bin bt = Ok d ->
  create ft bin bt = Ok s ->
  getAttribute name s = Some attribute ->
  Stored ft bin bt d name attribute.
Proof.
  intros Hd (d' & s1 & Hd' & Hs1 & Hrun)%create_Ok.
  rewrite Hd in Hd'. injection Hd' as <-.
  assert (attributesSatisfy (Stored ft bin bt d) s1) as H1.
  { unfold afterDraco, assignDracoDecodedAttributes in Hs1.
    destruct d as [result|].
    - eapply run_keeps; [apply dracoSteps_keep_stored | | exact Hs1].
      intros other a. simpl. by rewrite lookup_empty.
    - injection Hs1 as <-. intros other a. simpl. by rewrite lookup_empty. }
  pose proof (run_keeps _ _ (rawSteps_keep_stored ft bin bt d) _ _ H1 Hrun)
    as Hs.
  apply Hs.
Qed.

(** X1: the returned point cloud holds nothing but what the statements
    of [create] store: each of its attributes is one of the stores of
    the mesh-compression block (POSITION, NORMAL, COLOR_0 from RGB or
    RGBA, _FEATURE_ID_0, a compressed batch-table property) or of the
    raw decodes (positions, normals, colours, batch identifiers), with
    the type, component type and values of that store. *)
Theorem attributes_are_stores ft bin bt d s name attribute :
  obtainDracoDecodedAttributes ft bin bt = Ok d ->
  create ft bin bt = Ok s ->
  getAttribute name s = Some attribute ->
  Stored ft bin bt d name attribute.
Proof. apply create_stores. Qed.

End StoresProperties.

Section StoresCorollaries.
Context {transfer : ColorTransfer} {decoder : DracoDecoder}.
Import PointCloud PntsPointClouds.

Lemma createNumericArrayIterable_length
    legacyType legacyComponentType (binary : Buffer) byteOffset numElements :
  length (TileTableData.createNumericArrayIterable legacyType
            legacyComponentType binary byteOffset numElements)
  = numElements.
Proof.
  unfold TileTableData.createNumericArrayIterable.
  by rewrite length_fmap, length_seq.
Qed.

Lemma Iterables_map_length f (it : Iterable) :
  length (Iterables.map f it) = length it.
Proof. unfold Iterables.map. apply length_fmap. Qed.

Lemma Stored_length ft bin bt d name attribute :
  Stored ft bin bt d name attribute ->
  length (attributeValues attribute) = POINTS_LENGTH ft.
Proof.
  destruct 1 as [| | | | | |positions Hpositions|normals Hnormals
                 |colors Hcolors|]; simpl;
    unfold createPositionsInternal, createNormalsInternal,
      createColorsStandardRGBInternal, createColorsStandardRGBAInternal,
      createBatchIdsInternal, TileTableData.createNumericScalarIterable;
    rewrite ?Iterables_map_length;
    try apply createNumericArrayIterable_length.
  - unfold createPositions in Hpositions.
    destruct (POSITION ft); [injection Hpositions as <- |].
    { apply createNumericArrayIterable_length. }
    destruct (POSITION_QUANTIZED ft); [| done].
    apply bind_Ok in Hpositions as ([[volumeOffset volumeScale]|] & _ & Hp);
      [| done].
    injection Hp as <-. rewrite Iterables_map_length.
    apply createNumericArrayIterable_length.
  - unfold createNormals in Hnormals.
    destruct (NORMAL ft); [injection Hnormals as <- |].
    { apply createNumericArrayIterable_length. }
    destruct (NORMAL_OCT16P ft); [| done].
    injection Hnormals as <-. rewrite Iterables_map_length.
    apply createNumericArrayIterable_length.
  - unfold createNormalizedLinearColors in Hcolors.
    destruct (RGBA ft); [injection Hcolors as <- |].
    { rewrite Iterables_map_length. apply createNumericArrayIterable_length. }
    destruct (RGB ft); [injection Hcolors as <- |].
    { rewrite Iterables_map_length. apply createNumericArrayIterable_length. }
    destruct (RGB565 ft); [| done].
    injection Hcolors as <-. rewrite Iterables_map_length.
    apply createNumericArrayIterable_length.
Qed.

Lemma sequenceResults_Ok_length {A} (rs : list (Result A)) xs :
  sequenceResults rs = Ok xs -> length xs = length rs.
Proof.
  revert xs. induction rs as [| r rest IH]; intros xs; simpl.
  - by intros [= <-].
  - intros (x & _ & (xs' & Hrest & [= <-])%bind_Ok)%bind_Ok.
    simpl. by rewrite (IH xs' Hrest).
Qed.

Lemma createNumericArrayIterable_range
    legacyType legacyComponentType (binary : Buffer) byteOffset numElements :
  onlyRangeErrors
    (TileTableData.createNumericArrayIterable legacyType
       legacyComponentType binary byteOffset numElements).
Proof.
  intros e (index & Hread & _)%(list_elem_of_fmap
                                   (TileTableData.readElement _ _ _ _)).
  symmetry in Hread. unfold TileTableData.readElement in Hread.
  destruct (TileTableData.readComponents _ _ _ _) as [components | e']
    eqn:Hcomponents; simpl in Hread; [done |].
  injection Hread as <-. by eapply readComponents_Err.
Qed.

Lemma Iterables_map_range f (it : Iterable) :
  onlyRangeErrors it -> onlyRangeErrors (Iterables.map f it).
Proof.
  intros Hit e (r & Hr & Hin)%(list_elem_of_fmap (fmap (M := Result) f)).
  destruct r as [value | e']; [done |].
  injection Hr as ->. by apply Hit.
Qed.

Lemma Stored_range ft bin bt d name attribute :
  Stored ft bin bt d name attribute ->
  onlyRangeErrors (attributeValues attribute).
Proof.
  destruct 1 as [| | | | | |positions Hpositions|normals Hnormals
                 |colors Hcolors|]; simpl;
    unfold createPositionsInternal, createNormalsInternal,
      createColorsStandardRGBInternal, createColorsStandardRGBAInternal,
      createBatchIdsInternal, TileTableData.createNumericScalarIterable;
    try apply Iterables_map_range;
    try apply createNumericArrayIterable_range.
  - unfold createPositions in Hpositions.
    destruct (POSITION ft); [injection Hpositions as <- |].
    { apply createNumericArrayIterable_range. }
    destruct (POSITION_QUANTIZED ft); [| done].
    apply bind_Ok in Hpositions as ([[volumeOffset volumeScale]|] & _ & Hp);
      [| done].
    injection Hp as <-. apply Iterables_map_range.
    apply createNumericArrayIterable_range.
  - unfold createNormals in Hnormals.
    destruct (NORMAL ft); [injection Hnormals as <- |].
    { apply createNumericArrayIterable_range. }
    destruct (NORMAL_OCT16P ft); [| done].
    injection Hnormals as <-. apply Iterables_map_range.
    apply createNumericArrayIterable_range.
  - unfold createNormalizedLinearColors in Hcolors.
    destruct (RGBA ft); [injection Hcolors as <- |].
    { apply Iterables_map_range, createNumericArrayIterable_range. }
    destruct (RGB ft); [injection Hcolors as <- |].
    { apply Iterables_map_range, createNumericArrayIterable_range. }
    destruct (RGB565 ft); [| done].
    injection Hcolors as <-.
    apply Iterables_map_range, createNumericArrayIterable_range.
Qed.

(** X2: iterating an attribute of the returned point cloud to its end
    yields exactly POINTS_LENGTH values, or it throws a range error,
    which it does when the binary body is too short for one of the
    reads: it never yields fewer or more values, and it throws no other
    exception.  For a table with POINTS_LENGTH = 0 every attribute
    iterates to the empty array without an exception. *)
Theorem attributes_have_points_length ft bin bt s name attribute :
  create ft bin bt = Ok s ->
  getAttribute name s = Some attribute ->
  ((exists values,
       Iterables.toArray (attributeValues attribute) = Ok values /\
       length values = POINTS_LENGTH ft)
   \/ Iterables.toArray (attributeValues attribute) = Err RangeError) /\
  (POINTS_LENGTH ft = 0%nat ->
   Iterables.toArray (attributeValues attribute) = Ok []).
Proof.
  intros Hs Hname.
  destruct (proj1 (create_Ok _ _ _ _) Hs) as (d & _ & Hd & _).
  pose proof (create_stores _ _ _ _ _ _ _ Hd Hs Hname) as Hstored.
  pose proof (Stored_length _ _ _ _ _ _ Hstored) as Hlength.
  pose proof (Stored_range _ _ _ _ _ _ Hstored) as Hrange.
  split.
  - unfold Iterables.toArray.
    destruct (sequenceResults (attributeValues attribute)) as [values | e]
      eqn:Hvalues.
    + left. exists values. split; [done |].
      by rewrite (sequenceResults_Ok_length _ _ Hvalues).
    + right. f_equal. by apply Hrange, sequenceResults_Err.
  - intros Hzero. rewrite Hzero in Hlength.
    by destruct (attributeValues attribute).
Qed.

(** X3: the attributes of the returned point cloud are named POSITION,
    NORMAL, COLOR_0, _FEATURE_ID_0 or after a compressed property of the
    batch table; for a feature table without the mesh-compression
    extension only the first four names occur. *)
Theorem attribute_names ft bin bt s name :
  create ft bin bt = Ok s ->
  is_Some (getAttribute name s) ->
  (name ∈ ["POSITION"; "NORMAL"; "COLOR_0"; "_FEATURE_ID_0"]
   \/ name ∈ BatchTables.obtainDracoPropertyNames bt) /\
  ((forall exts, extensions ft = Some exts ->
      ext_3DTILES_draco_point_compression exts = None) ->
   name ∈ ["POSITION"; "NORMAL"; "COLOR_0"; "_FEATURE_ID_0"]).
Proof.
  intros Hs [attribute Hname].
  destruct (proj1 (create_Ok _ _ _ _) Hs) as (d & _ & Hd & _).
  pose proof (create_stores _ _ _ _ _ _ _ Hd Hs Hname) as Hstored.
  split.
  - destruct Hstored; try (left; rewrite !elem_of_cons; by auto 6).
    by right.
  - intros Hnone.
    assert (d = None) as ->.
    { unfold obtainDracoDecodedAttributes in Hd.
      destruct (extensions ft) as [exts|] eqn:Hexts;
        [| by injection Hd as <-].
      rewrite (Hnone exts eq_refl) in Hd. by injection Hd as <-. }
    destruct Hstored; try done; rewrite !elem_of_cons; by auto 6.
Qed.

(** X4: the raw batch identifiers are tagged with the datatype they are
    read with.  When _FEATURE_ID_0 has not been stored by the end of
    step 4 and the table has BATCH_ID, the attribute is the scalar
    attribute whose component type names the component datatype that
    BATCH_ID declares, or UNSIGNED_SHORT when it declares none, and whose
    values are read from the binary body of the table, at the byte
    offset of BATCH_ID, as scalars of this same datatype; when the table
    has no BATCH_ID, the point cloud has no _FEATURE_ID_0. *)
Theorem batch_ids_tagged_as_read ft bin bt s4 s :
  afterStep4 ft bin bt = Ok s4 ->
  getAttributeValues "_FEATURE_ID_0" s4 = None ->
  create ft bin bt = Ok s ->
  (forall batchId,
      BATCH_ID ft = Some batchId ->
      getAttribute "_FEATURE_ID_0" s
      = Some {| attributeType := "SCALAR";
                attributeComponentType :=
                  TileTableData.convertLegacyComponentTypeToComponentType
                    (default UNSIGNED_SHORT
                       (BinaryBodyOffset.componentType batchId));
                attributeValues :=
                  TileTableData.createNumericScalarIterable SCALAR
                    (default UNSIGNED_SHORT
                       (BinaryBodyOffset.componentType batchId))
                    bin (BinaryBodyOffset.byteOffset batchId)
                    (POINTS_LENGTH ft) |})
  /\
  (BATCH_ID ft = None -> getAttribute "_FEATURE_ID_0" s = None).
Proof.
  intros H4 Hnone Hs.
  apply create_Ok_afterStep4 in Hs as (s4' & s5 & s6 & H4' & H5 & H6 & H7).
  rewrite H4 in H4'. injection H4' as <-.
  unfold getAttribute.
  apply assignGlobalPosition_attributes in H7 as [-> _].
  apply assignGlobalColor_attributes in H6 as ->.
  unfold assignBatchIds in H5. rewrite Hnone in H5.
  unfold createBatchIds, obtainBatchIdComponentType in H5.
  apply getAttributeValues_None in Hnone.
  split.
  - intros batchId HbatchId. rewrite HbatchId in H5.
    destruct (BATCH_LENGTH ft) as [batchLength|]; [| done].
    simpl in H5.
    destruct (default UNSIGNED_SHORT (BinaryBodyOffset.componentType batchId));
      simpl in H5; by apply addAttribute_lookup in H5.
  - intros HbatchId. rewrite HbatchId in H5. simpl in H5.
    by injection H5 as <-.
Qed.

(** X5: a point cloud that [create] returns always has positions: when
    neither the compressed result nor the table provides them, the call
    fails instead. *)
Theorem positions_always_present ft bin bt s :
  create ft bin bt = Ok s ->
  is_Some (getAttributeValues "POSITION" s).
Proof.
  intros Hs.
  destruct (proj1 (create_Ok _ _ _ _) Hs) as (d & s1 & Hd & Hs1 & Hrun).
  assert (afterStep1 ft bin bt = Ok s1) as H1
    by (unfold afterStep1; by rewrite Hd).
  unfold getAttributeValues.
  destruct (attributes s1 !! "POSITION") as [stored|] eqn:Hstored.
  - pose proof (run_monotone _ (rawSteps_monotone ft bin) _ _ Hrun) as Hsub.
    by rewrite (lookup_weaken _ _ _ _ Hstored Hsub).
  - destruct (positions_from_table _ _ _ _ _ H1 Hstored Hs)
      as (positions & _ & Hget).
    unfold getAttribute in Hget. by rewrite Hget.
Qed.

(** X6: the global colour and the per-point colours exclude each other:
    a returned point cloud with a global colour comes from a table with
    CONSTANT_RGBA and has no COLOR_0 attribute. *)
Theorem global_color_excludes_colors ft bin bt s :
  create ft bin bt = Ok s ->
  is_Some (globalColor s) ->
  is_Some (CONSTANT_RGBA ft) /\ getAttributeValues "COLOR_0" s = None.
Proof.
  intros Hs Hglobal.
  destruct (proj1 (create_Ok_afterStep4 _ _ _ _) Hs)
    as (s4 & s5 & s6 & H4 & H5 & H6 & H7).
  pose proof (afterStep4_globalColor _ _ _ _ H4) as Hnone4.
  pose proof (assignBatchIds_keepsGlobalColor _ _ _ _ H5) as Hkeep5.
  destruct (assignGlobalPosition_attributes _ _ _ _ H7) as [Hattrs Hcolor].
  rewrite Hcolor in Hglobal.
  unfold assignGlobalColor in H6.
  destruct (getAttributeValues "COLOR_0" s5) as [colors|] eqn:Hcolors.
  - injection H6 as <-. rewrite Hkeep5, Hnone4 in Hglobal.
    by destruct Hglobal.
  - apply bind_Ok in H6 as (color & Hcreate & [= <-]).
    unfold createGlobalNormalizedLinearColor in Hcreate. split.
    + destruct (CONSTANT_RGBA ft); [done |].
      injection Hcreate as <-. by destruct Hglobal.
    + unfold getAttributeValues in *. by rewrite Hattrs.
Qed.

End StoresCorollaries.

Section Overrides.
Context {transfer : ColorTransfer} {decoder : DracoDecoder}.
Import PointCloud PntsPointClouds.

(** What a statement stores is still there at the end of the run. *)
Lemma run_store_kept (before after : list Step) (step : Step)
    (P : Attribute -> Prop) name pc pc' :
  Forall (keepsName name) after ->
  (forall s s', step s = Ok s' ->
     exists attribute, attributes s' !! name = Some attribute /\ P attribute) ->
  run (before ++ step :: after) pc = Ok pc' ->
  exists attribute, attributes pc' !! name = Some attribute /\ P attribute.
Proof.
  intros Hafter Hstep Hrun. rewrite run_app in Hrun.
  apply bind_Ok in Hrun as (s & _ & Hrun). simpl in Hrun.
  apply bind_Ok in Hrun as (s' & Hs' & Hrun).
  destruct (Hstep _ _ Hs') as (attribute & Hlookup & HP).
  exists attribute. split; [| done].
  by eapply (run_keepsName name after).
Qed.

(** The statements of the mesh-compression block after its slot
    assignments leave every stored attribute as it is. *)
Lemma dracoSteps_tail_keeps n result bt name :
  Forall (keepsName name)
    (assignDracoBatchId n result
     :: List.map (assignDracoProperty n result bt)
          (BatchTables.obtainDracoPropertyNames bt)).
Proof.
  constructor; [apply monotone_keepsName, assignDracoBatchId_monotone |].
  eapply Forall_impl; [apply dracoProperties_monotone |].
  intros step. apply monotone_keepsName.
Qed.

(** The colour assignments leave every other attribute as it is, and
    the assignment from RGBA does nothing when the compressed result
    holds no RGBA. *)
Lemma dracoSteps_colors_keep n result bt name :
  name <> "COLOR_0" ->
  Forall (keepsName name)
    (assignDracoRGB n result :: assignDracoRGBA n result
     :: assignDracoBatchId n result
     :: List.map (assignDracoProperty n result bt)
          (BatchTables.obtainDracoPropertyNames bt)).
Proof.
  intros Hne.
  constructor;
    [by eapply touchesOnly_keepsName; [apply assignDracoRGB_touchesOnly |] |].
  constructor;
    [by eapply touchesOnly_keepsName; [apply assignDracoRGBA_touchesOnly |] |].
  apply dracoSteps_tail_keeps.
Qed.

Lemma assignDracoRGBA_none n result name :
  result !! "RGBA" = None -> keepsName name (assignDracoRGBA n result).
Proof.
  intros Hnone pc pc' attribute. unfold assignDracoRGBA. rewrite Hnone.
  by intros [= <-].
Qed.

Lemma afterDraco_normal ft result bt s1 dracoNormals :
  result !! "NORMAL" = Some dracoNormals ->
  afterDraco ft (Some result) bt = Ok s1 ->
  attributes s1 !! "NORMAL"
  = Some {| attributeType := "VEC3";
            attributeComponentType := "FLOAT32";
            attributeValues :=
              createNormalsInternal (attributeData dracoNormals)
                (AttributeInfo.byteOffset (attributeInfo dracoNormals))
                (POINTS_LENGTH ft) |}.
Proof.
  intros Hn Hrun. unfold afterDraco, assignDracoDecodedAttributes in Hrun.
  destruct (run_store_kept
              [assignDracoPositions (POINTS_LENGTH ft) result]
              (drop 2 (dracoSteps (POINTS_LENGTH ft) result bt))
              (assignDracoNormals (POINTS_LENGTH ft) result)
              (fun a => a = {| attributeType := "VEC3";
                               attributeComponentType := "FLOAT32";
                               attributeValues :=
                                 createNormalsInternal
                                   (attributeData dracoNormals)
                                   (AttributeInfo.byteOffset
                                      (attributeInfo dracoNormals))
                                   (POINTS_LENGTH ft) |})
              "NORMAL" PointCloud.empty s1
              (dracoSteps_colors_keep _ _ _ "NORMAL" ltac:(done)))
    as (attribute & Hlookup & ->); [| exact Hrun | done].
  intros s s' Hs. unfold assignDracoNormals, setNormals in Hs.
  rewrite Hn in Hs. apply assignSlot_Ok_lookup in Hs. eauto.
Qed.

Lemma afterDraco_colors ft result bt s1 :
  is_Some (result !! "RGB") \/ is_Some (result !! "RGBA") ->
  afterDraco ft (Some result) bt = Ok s1 ->
  is_Some (attributes s1 !! "COLOR_0").
Proof.
  intros Hcase Hrun. unfold afterDraco, assignDracoDecodedAttributes in Hrun.
  destruct (result !! "RGBA") as [rgba |] eqn:Hrgba.
  - destruct (run_store_kept
                [assignDracoPositions (POINTS_LENGTH ft) result;
                 assignDracoNormals (POINTS_LENGTH ft) result;
                 assignDracoRGB (POINTS_LENGTH ft) result]
                (drop 4 (dracoSteps (POINTS_LENGTH ft) result bt))
                (assignDracoRGBA (POINTS_LENGTH ft) result)
                (fun _ => True)
                "COLOR_0" PointCloud.empty s1
                (dracoSteps_tail_keeps _ _ _ "COLOR_0"))
      as (attribute & Hlookup & _); [| exact Hrun | by eexists].
    intros s s' Hs.
    rewrite (assignDracoRGBA_lookup _ _ _ _ _ Hrgba Hs). eauto.
  - destruct Hcase as [[rgb Hrgb] | [? ?]]; [| done].
    destruct (run_store_kept
                [assignDracoPositions (POINTS_LENGTH ft) result;
                 assignDracoNormals (POINTS_LENGTH ft) result]
                (drop 3 (dracoSteps (POINTS_LENGTH ft) result bt))
                (assignDracoRGB (POINTS_LENGTH ft) result)
                (fun _ => True)
                "COLOR_0" PointCloud.empty s1)
      as (attribute & Hlookup & _); [| | exact Hrun | by eexists].
    + constructor; [by apply assignDracoRGBA_none |].
      apply dracoSteps_tail_keeps.
    + intros s s' Hs. unfold assignDracoRGB, setNormalizedLinearColors in Hs.
      rewrite Hrgb in Hs. apply assignSlot_Ok_lookup in Hs. eauto.
Qed.

Lemma afterDraco_batchId ft result bt s1 dracoBatchId :
  result !! "BATCH_ID" = Some dracoBatchId ->
  afterDraco ft (Some result) bt = Ok s1 ->
  attributes s1 !! "_FEATURE_ID_0"
  = Some {| attributeType := "SCALAR";
            attributeComponentType :=
              TileTableData.convertLegacyComponentTypeToComponentType
                (AttributeInfo.componentDatatype (attributeInfo dracoBatchId));
            attributeValues :=
              createBatchIdsInternal (attributeData dracoBatchId)
                (AttributeInfo.byteOffset (attributeInfo dracoBatchId))
                (AttributeInfo.componentDatatype (attributeInfo dracoBatchId))
                (POINTS_LENGTH ft) |}.
Proof.
  intros Hb Hrun. unfold afterDraco, assignDracoDecodedAttributes in Hrun.
  destruct (run_store_kept
              [assignDracoPositions (POINTS_LENGTH ft) result;
               assignDracoNormals (POINTS_LENGTH ft) result;
               assignDracoRGB (POINTS_LENGTH ft) result;
               assignDracoRGBA (POINTS_LENGTH ft) result]
              (drop 5 (dracoSteps (POINTS_LENGTH ft) result bt))
              (assignDracoBatchId (POINTS_LENGTH ft) result)
              (fun a => a = {| attributeType := "SCALAR";
                               attributeComponentType :=
                                 TileTableData.convertLegacyComponentTypeToComponentType
                                   (AttributeInfo.componentDatatype
                                      (attributeInfo dracoBatchId));
                               attributeValues :=
                                 createBatchIdsInternal
                                   (attributeData dracoBatchId)
                                   (AttributeInfo.byteOffset
                                      (attributeInfo dracoBatchId))
                                   (AttributeInfo.componentDatatype
                                      (attributeInfo dracoBatchId))
                                   (POINTS_LENGTH ft) |})
              "_FEATURE_ID_0" PointCloud.empty s1
              (Forall_inv_tail (dracoSteps_tail_keeps _ _ _ "_FEATURE_ID_0")))
    as (attribute & Hlookup & ->); [| exact Hrun | done].
  intros s s' Hs. unfold assignDracoBatchId in Hs.
  rewrite Hb in Hs. apply addAttribute_lookup in Hs. eauto.
Qed.

(** When step 1 stored no normals, the normals of the result are those
    of [createNormals]. *)
Lemma normals_from_table ft bin bt s1 s :
  afterStep1 ft bin bt = Ok s1 ->
  getAttributeValues "NORMAL" s1 = None ->
  create ft bin bt = Ok s ->
  getAttributeValues "NORMAL" s = createNormals ft bin.
Proof.
  intros H1 Hnone Hs.
  destruct (proj1 (create_Ok_afterStep4 _ _ _ _) Hs)
    as (s4 & _ & _ & H4 & _).
  unfold getAttributeValues.
  rewrite (afterStep4_frame _ _ _ _ _ "NORMAL" H4 Hs ltac:(done)).
  apply afterStep4_Ok in H4 as (s1' & s2 & s3 & H1' & H2 & H3 & H4).
  rewrite H1 in H1'. injection H1' as <-.
  apply getAttributeValues_None in Hnone.
  rewrite (assignColors_touchesOnly _ _ _ _ "NORMAL" H4 ltac:(done)).
  assert (attributes s2 !! "NORMAL" = None) as Hs2
    by (by rewrite (assignPositions_touchesOnly _ _ _ _ "NORMAL" H2
                      ltac:(done))).
  unfold assignNormals, getAttributeValues in H3. rewrite Hs2 in H3.
  simpl in H3.
  destruct (createNormals ft bin) as [normals|].
  - apply assignSlot_Ok_lookup in H3. by rewrite H3.
  - injection H3 as <-. by rewrite Hs2.
Qed.

(** X7: when the mesh-compression block stored no NORMAL, the normals
    are the float VEC3 elements at the offset of the table's NORMAL if it
    has one, whether or not NORMAL_OCT16P is present too; else the
    oct-decoded two-byte elements at the offset of NORMAL_OCT16P; and the
    point cloud has no NORMAL attribute when the table has neither. *)
Theorem normals_precedence ft bin bt s1 s :
  afterStep1 ft bin bt = Ok s1 ->
  getAttributeValues "NORMAL" s1 = None ->
  create ft bin bt = Ok s ->
  (forall normal,
      NORMAL ft = Some normal ->
      getAttributeValues "NORMAL" s
      = Some (TileTableData.createNumericArrayIterable VEC3 FLOAT bin
                (BinaryBodyOffset.byteOffset normal) (POINTS_LENGTH ft)))
  /\
  (forall normalOct16p,
      NORMAL ft = None -> NORMAL_OCT16P ft = Some normalOct16p ->
      getAttributeValues "NORMAL" s
      = Some (Iterables.map AttributeCompression.octDecode
                (TileTableData.createNumericArrayIterable VEC2 UNSIGNED_BYTE
                   bin (BinaryBodyOffset.byteOffset normalOct16p)
                   (POINTS_LENGTH ft))))
  /\
  (NORMAL ft = None -> NORMAL_OCT16P ft = None ->
   getAttributeValues "NORMAL" s = None).
Proof.
  intros H1 Hnone Hs. rewrite (normals_from_table _ _ _ _ _ H1 Hnone Hs).
  unfold createNormals. repeat split.
  - by intros normal ->.
  - by intros normalOct16p -> ->.
  - by intros -> ->.
Qed.

(** X8: when the compressed result contains NORMAL, the normals of the
    returned point cloud are the ones decoded from it, and the NORMAL and
    NORMAL_OCT16P fields of the table are not consulted: the call does
    the same whatever they hold. *)
Theorem compressed_normals_override ft bin bt result dracoNormals :
  obtainDracoDecodedAttributes ft bin bt = Ok (Some result) ->
  result !! "NORMAL" = Some dracoNormals ->
  (forall s,
      create ft bin bt = Ok s ->
      getAttributeValues "NORMAL" s
      = Some (TileTableData.createNumericArrayIterable VEC3 FLOAT
                (attributeData dracoNormals)
                (AttributeInfo.byteOffset (attributeInfo dracoNormals))
                (POINTS_LENGTH ft)))
  /\
  (forall normal normalOct16p,
      create (withNormals ft normal normalOct16p) bin bt
      = create ft bin bt).
Proof.
  intros Hd Hn. split.
  - intros s Hs.
    destruct (proj1 (create_Ok _ _ _ _) Hs) as (d' & s1 & Hd' & Hs1 & Hrun).
    rewrite Hd in Hd'. injection Hd' as <-.
    pose proof (afterDraco_normal _ _ _ _ _ Hn Hs1) as H1.
    pose proof (run_monotone _ (rawSteps_monotone ft bin) _ _ Hrun) as Hsub.
    unfold getAttributeValues.
    by rewrite (lookup_weaken _ _ _ _ H1 Hsub).
  - intros normal normalOct16p. rewrite !create_afterStep1.
    change (afterStep1 (withNormals ft normal normalOct16p) bin bt)
      with (afterStep1 ft bin bt).
    destruct (afterStep1 ft bin bt) as [s1|e] eqn:H1; [| done].
    unfold afterStep1 in H1. rewrite Hd in H1. simpl in H1.
    pose proof (afterDraco_normal _ _ _ _ _ Hn H1) as Hs1.
    simpl.
    change (assignPositions (withNormals ft normal normalOct16p) bin s1)
      with (assignPositions ft bin s1).
    destruct (assignPositions ft bin s1) as [s2|e] eqn:H2; [| done].
    simpl.
    pose proof (lookup_weaken _ _ _ _ Hs1
                  (assignPositions_monotone _ _ _ _ H2)) as Hs2.
    unfold assignNormals, getAttributeValues. rewrite Hs2. reflexivity.
Qed.

(** X9: when the compressed result contains RGB or RGBA, none of the
    colour fields of the table (RGBA, RGB, RGB565, CONSTANT_RGBA) is
    consulted: the call does the same whatever they hold, and a point
    cloud that it returns has per-point colours and no global colour. *)
Theorem compressed_colors_override ft bin bt result :
  obtainDracoDecodedAttributes ft bin bt = Ok (Some result) ->
  is_Some (result !! "RGB") \/ is_Some (result !! "RGBA") ->
  (forall rgba rgb rgb565 constant,
      create (withColors ft rgba rgb rgb565 constant) bin bt
      = create ft bin bt)
  /\
  (forall s,
      create ft bin bt = Ok s ->
      is_Some (getAttributeValues "COLOR_0" s) /\ globalColor s = None).
Proof.
  intros Hd Hcase.
  assert (forall s1, afterStep1 ft bin bt = Ok s1 ->
            is_Some (attributes s1 !! "COLOR_0")) as Hstored.
  { intros s1 H1. unfold afterStep1 in H1. rewrite Hd in H1.
    by eapply afterDraco_colors. }
  split.
  - intros rgba rgb rgb565 constant. rewrite !create_afterStep1.
    change (afterStep1 (withColors ft rgba rgb rgb565 constant) bin bt)
      with (afterStep1 ft bin bt).
    destruct (afterStep1 ft bin bt) as [s1|e] eqn:H1; [| done].
    destruct (Hstored s1 eq_refl) as [colors Hs1]. simpl.
    change (assignPositions (withColors ft rgba rgb rgb565 constant) bin s1)
      with (assignPositions ft bin s1).
    destruct (assignPositions ft bin s1) as [s2|e] eqn:H2; [| done].
    simpl.
    change (assignNormals (withColors ft rgba rgb rgb565 constant) bin s2)
      with (assignNormals ft bin s2).
    destruct (assignNormals ft bin s2) as [s3|e] eqn:H3; [| done].
    simpl.
    pose proof (lookup_weaken _ _ _ _
                  (lookup_weaken _ _ _ _ Hs1
                     (assignPositions_monotone _ _ _ _ H2))
                  (assignNormals_monotone _ _ _ _ H3)) as Hs3.
    assert (is_Some (getAttributeValues "COLOR_0" s3)) as Hget3
      by (unfold getAttributeValues; rewrite Hs3; by eexists).
    rewrite (proj1 (proj1 (proj2 (proj2 (raw_decodes_guarded
               (withColors ft rgba rgb rgb565 constant) bin s3))) Hget3)),
      (proj1 (proj1 (proj2 (proj2 (raw_decodes_guarded ft bin s3))) Hget3)).
    simpl.
    change (assignBatchIds (withColors ft rgba rgb rgb565 constant) bin s3)
      with (assignBatchIds ft bin s3).
    destruct (assignBatchIds ft bin s3) as [s5|e] eqn:H5; [| done].
    simpl.
    pose proof (lookup_weaken _ _ _ _ Hs3
                  (assignBatchIds_monotone _ _ _ _ H5)) as Hs5.
    assert (is_Some (getAttributeValues "COLOR_0" s5)) as Hget5
      by (unfold getAttributeValues; rewrite Hs5; by eexists).
    rewrite (proj2 (proj1 (proj2 (proj2 (raw_decodes_guarded
               (withColors ft rgba rgb rgb565 constant) bin s5))) Hget5)),
      (proj2 (proj1 (proj2 (proj2 (raw_decodes_guarded ft bin s5))) Hget5)).
    reflexivity.
  - intros s Hs.
    destruct (proj1 (create_Ok_afterStep4 _ _ _ _) Hs)
      as (s4 & s5 & s6 & H4 & H5 & H6 & H7).
    pose proof (afterStep4_globalColor _ _ _ _ H4) as Hnone4.
    destruct (proj1 (afterStep4_Ok _ _ _ _) H4)
      as (s1 & s2 & s3 & H1 & H2 & H3 & H4').
    destruct (Hstored s1 H1) as [colors Hs1].
    pose proof (lookup_weaken _ _ _ _
                  (lookup_weaken _ _ _ _
                     (lookup_weaken _ _ _ _
                        (lookup_weaken _ _ _ _ Hs1
                           (assignPositions_monotone _ _ _ _ H2))
                        (assignNormals_monotone _ _ _ _ H3))
                     (assignColors_monotone _ _ _ _ H4'))
                  (assignBatchIds_monotone _ _ _ _ H5)) as Hs5.
    unfold assignGlobalColor, getAttributeValues in H6.
    rewrite Hs5 in H6. injection H6 as <-.
    destruct (assignGlobalPosition_attributes _ _ _ _ H7) as [Hattrs Hcolor].
    unfold getAttributeValues. rewrite Hattrs, Hs5, Hcolor.
    rewrite (assignBatchIds_keepsGlobalColor _ _ _ _ H5). by split.
Qed.

(** X10: when the compressed result contains BATCH_ID, _FEATURE_ID_0 is
    stored from it, with the component type that the decoder reports,
    and the BATCH_ID and BATCH_LENGTH fields of the table are not
    consulted: the call does the same whatever they hold, so a BATCH_ID
    without BATCH_LENGTH raises no format error. *)
Theorem compressed_batch_ids_override ft bin bt result dracoBatchId :
  obtainDracoDecodedAttributes ft bin bt = Ok (Some result) ->
  result !! "BATCH_ID" = Some dracoBatchId ->
  (forall s,
      create ft bin bt = Ok s ->
      getAttribute "_FEATURE_ID_0" s
      = Some {| attributeType := "SCALAR";
                attributeComponentType :=
                  TileTableData.convertLegacyComponentTypeToComponentType
                    (AttributeInfo.componentDatatype
                       (attributeInfo dracoBatchId));
                attributeValues :=
                  TileTableData.createNumericScalarIterable SCALAR
                    (AttributeInfo.componentDatatype
                       (attributeInfo dracoBatchId))
                    (attributeData dracoBatchId)
                    (AttributeInfo.byteOffset (attributeInfo dracoBatchId))
                    (POINTS_LENGTH ft) |})
  /\
  (forall batchId batchLength,
      create (withBatchIds ft batchId batchLength) bin bt
      = create ft bin bt).
Proof.
  intros Hd Hb. split.
  - intros s Hs.
    destruct (proj1 (create_Ok _ _ _ _) Hs) as (d' & s1 & Hd' & Hs1 & Hrun).
    rewrite Hd in Hd'. injection Hd' as <-.
    pose proof (afterDraco_batchId _ _ _ _ _ Hb Hs1) as H1.
    pose proof (run_monotone _ (rawSteps_monotone ft bin) _ _ Hrun) as Hsub.
    unfold getAttribute. by rewrite (lookup_weaken _ _ _ _ H1 Hsub).
  - intros batchId batchLength. rewrite !create_afterStep4.
    change (afterStep4 (withBatchIds ft batchId batchLength) bin bt)
      with (afterStep4 ft bin bt).
    destruct (afterStep4 ft bin bt) as [s4|e] eqn:H4; [| done].
    destruct (proj1 (afterStep4_Ok _ _ _ _) H4)
      as (s1 & s2 & s3 & H1 & H2 & H3 & H4').
    unfold afterStep1 in H1. rewrite Hd in H1. simpl in H1.
    pose proof (lookup_weaken _ _ _ _
                  (lookup_weaken _ _ _ _
                     (lookup_weaken _ _ _ _
                        (afterDraco_batchId _ _ _ _ _ Hb H1)
                        (assignPositions_monotone _ _ _ _ H2))
                     (assignNormals_monotone _ _ _ _ H3))
                  (assignColors_monotone _ _ _ _ H4')) as Hs4.
    assert (is_Some (getAttributeValues "_FEATURE_ID_0" s4)) as Hget4
      by (unfold getAttributeValues; rewrite Hs4; by eexists).
    simpl.
    rewrite (proj2 (proj2 (proj2 (raw_decodes_guarded
               (withBatchIds ft batchId batchLength) bin s4))) Hget4),
      (proj2 (proj2 (proj2 (raw_decodes_guarded ft bin s4))) Hget4).
    reflexivity.
Qed.

End Overrides.

Section Failures.
Context {transfer : ColorTransfer} {decoder : DracoDecoder}.
Import PointCloud PntsPointClouds.

Lemma obtainQuantizationOffsetScale_Err ft bin e :
  obtainQuantizationOffsetScale ft bin = Err e -> e = RangeError.
Proof.
  unfold obtainQuantizationOffsetScale.
  destruct (QUANTIZED_VOLUME_OFFSET ft) as [qvo|]; [| done].
  destruct (QUANTIZED_VOLUME_SCALE ft) as [qvs|]; [| done].
  destruct (TileTableData.obtainNumberArray bin qvo 3 FLOAT) eqn:Hqvo; simpl.
  - destruct (TileTableData.obtainNumberArray bin qvs 3 FLOAT) eqn:Hqvs;
      simpl; [done |].
    intros [= <-]. by eapply obtainNumberArray_Err.
  - intros [= <-]. by eapply obtainNumberArray_Err.
Qed.

Lemma addAttribute_absent name type componentType values pc :
  attributes pc !! name = None ->
  exists pc', addAttribute name type componentType values pc = Ok pc'.
Proof. unfold addAttribute. intros ->. by eexists. Qed.

(** The raw decodes fail with format errors and range errors only: their
    presence checks keep them from storing a name twice. *)
Lemma rawSteps_Err ft bin pc e :
  run (rawSteps ft bin) pc = Err e -> isDecodeError e = true.
Proof.
  simpl.
  assert (forall s, assignPositions ft bin s = Err e ->
            isDecodeError e = true) as Hpositions.
  { intros s. unfold assignPositions, setPositions.
    destruct (getAttributeValues "POSITION" s) eqn:Hget; [done |].
    apply getAttributeValues_None in Hget.
    destruct (createPositions ft bin) as [positions|e'] eqn:Hcreate; simpl.
    - done.
    - intros [= <-]. unfold createPositions in Hcreate.
      destruct (POSITION ft); [done |].
      destruct (POSITION_QUANTIZED ft); [| by injection Hcreate as <-].
      destruct (obtainQuantizationOffsetScale ft bin)
        as [[[vo vs]|]|e''] eqn:Hq; simpl in Hcreate.
      + done.
      + by injection Hcreate as <-.
      + injection Hcreate as <-.
        by rewrite (obtainQuantizationOffsetScale_Err _ _ _ Hq). }
  assert (forall s, assignNormals ft bin s <> Err e) as Hnormals.
  { intros s. unfold assignNormals, setNormals.
    destruct (getAttributeValues "NORMAL" s) eqn:Hget; [done |].
    apply getAttributeValues_None in Hget.
    by destruct (createNormals ft bin) as [normals|]. }
  assert (forall s, assignColors ft bin s <> Err e) as Hcolors.
  { intros s. unfold assignColors, setNormalizedLinearColors.
    destruct (getAttributeValues "COLOR_0" s) eqn:Hget; [done |].
    apply getAttributeValues_None in Hget.
    by destruct (createNormalizedLinearColors ft bin) as [colors|]. }
  assert (forall s, assignBatchIds ft bin s = Err e ->
            isDecodeError e = true) as HbatchIds.
  { intros s. unfold assignBatchIds, createBatchIds.
    destruct (getAttributeValues "_FEATURE_ID_0" s) eqn:Hget; [done |].
    apply getAttributeValues_None in Hget.
    destruct (BATCH_ID ft) as [batchId|]; [| done].
    destruct (BATCH_LENGTH ft) as [batchLength|]; simpl;
      [| by intros [= <-]].
    case_match; [| done].
    match goal with
    | |- addAttribute ?n ?t ?c ?v s = _ -> _ =>
        by destruct (addAttribute_absent n t c v s Hget) as [pc' ->]
    end. }
  assert (forall s, assignGlobalColor ft bin s = Err e ->
            isDecodeError e = true) as Hcolor.
  { intros s. unfold assignGlobalColor, createGlobalNormalizedLinearColor.
    destruct (getAttributeValues "COLOR_0" s); [done |].
    destruct (CONSTANT_RGBA ft) as [constant|]; [| done].
    destruct (TileTableData.obtainNumberArray bin constant 4 UNSIGNED_BYTE)
      eqn:Hread; simpl; [done |].
    intros [= <-]. by rewrite (obtainNumberArray_Err _ _ _ _ _ Hread). }
  assert (forall s, assignGlobalPosition ft bin s = Err e ->
            isDecodeError e = true) as Hposition.
  { intros s. unfold assignGlobalPosition, obtainGlobalPosition,
      TileTableData.obtainRtcCenter.
    assert (forall fromRtcCenter : option (number * number * number),
               (obtainQuantizationOffsetScale ft bin ≫= fun quantization =>
                  match quantization with
                  | Some (quantizationOffset, _) =>
                      let '(g0, g1, g2) :=
                        default (0, 0, 0)%float fromRtcCenter in
                      Ok (Some ((g0 + at_ quantizationOffset 0)%float,
                                (g1 + at_ quantizationOffset 2)%float,
                                (g2 + - at_ quantizationOffset 1)%float))
                  | None => Ok fromRtcCenter
                  end)
               ≫= (fun globalPosition =>
                     Ok (setGlobalPosition globalPosition s)) = Err e ->
               isDecodeError e = true) as Hrest.
    { intros fromRtcCenter.
      destruct (obtainQuantizationOffsetScale ft bin)
        as [[[vo vs]|]|e'] eqn:Hq; simpl.
      - by destruct (default (0, 0, 0)%float fromRtcCenter) as [[g0 g1] g2].
      - done.
      - intros [= <-].
        by rewrite (obtainQuantizationOffsetScale_Err _ _ _ Hq). }
    destruct (RTC_CENTER ft) as [rtc|]; [| exact (Hrest None)].
    destruct (TileTableData.obtainNumberArray bin rtc 3 FLOAT)
      as [rtcCenter|e'] eqn:Hread.
    - exact (Hrest (Some (at_ rtcCenter 0, at_ rtcCenter 2,
                          (- at_ rtcCenter 1)%float))).
    - simpl. intros [= <-].
      by rewrite (obtainNumberArray_Err _ _ _ _ _ Hread). }
  destruct (assignPositions ft bin pc) as [s2|] eqn:H2; simpl;
    [| intros [= <-]; by eapply Hpositions].
  destruct (assignNormals ft bin s2) as [s3|] eqn:H3; simpl;
    [| intros [= <-]; by destruct (Hnormals s2)].
  destruct (assignColors ft bin s3) as [s4|] eqn:H4; simpl;
    [| intros [= <-]; by destruct (Hcolors s3)].
  destruct (assignBatchIds ft bin s4) as [s5|] eqn:H5; simpl;
    [| intros [= <-]; by eapply HbatchIds].
  destruct (assignGlobalColor ft bin s5) as [s6|] eqn:H6; simpl;
    [| intros [= <-]; by eapply Hcolor].
  destruct (assignGlobalPosition ft bin s6) as [s7|] eqn:H7; simpl;
    [done | intros [= <-]; by eapply Hposition].
Qed.

Lemma withoutCompression_afterStep1 ft bin bt :
  withoutCompression ft -> afterStep1 ft bin bt = Ok PointCloud.empty.
Proof.
  intros Hnone. unfold afterStep1, obtainDracoDecodedAttributes.
  destruct (extensions ft) as [exts|] eqn:Hexts; [| done].
  by rewrite (Hnone exts Hexts).
Qed.

(** X11: how [create] can fail.  For a table without the
    mesh-compression extension it fails only with a format error or a
    range error.  In general a failure that is neither is raised by the
    mesh-compression block: it is the compression error of a table that
    declares the extension, or the refusal to store a name twice; the raw
    decodes after the block never store a name twice. *)
Theorem create_failures ft bin bt e :
  create ft bin bt = Err e ->
  (isDecodeError e = true \/ afterStep1 ft bin bt = Err e) /\
  (withoutCompression ft -> isDecodeError e = true) /\
  (e = DracoError -> ~ withoutCompression ft).
Proof.
  intros He. rewrite create_afterStep1 in He.
  assert (isDecodeError e = true \/ afterStep1 ft bin bt = Err e) as Hcase.
  { destruct (afterStep1 ft bin bt) as [s1|e'] eqn:H1.
    - left. exact (rawSteps_Err ft bin s1 e He).
    - right. by injection He as <-. }
  split; [done |]. split.
  - intros Hnone. destruct Hcase as [? | Hfail]; [done |].
    by rewrite (withoutCompression_afterStep1 _ _ _ Hnone) in Hfail.
  - intros -> Hnone. destruct Hcase as [? | Hfail]; [done |].
    by rewrite (withoutCompression_afterStep1 _ _ _ Hnone) in Hfail.
Qed.

(** X13: [mayRequireAlpha] is a sound prediction for tables whose
    colours are not mesh-compressed: when it answers false, the returned
    point cloud has no global colour and every per-point colour that its
    COLOR_0 attribute yields has alpha 1.0. *)
Theorem mayRequireAlpha_false ft bin bt s1 s :
  afterStep1 ft bin bt = Ok s1 ->
  getAttributeValues "COLOR_0" s1 = None ->
  create ft bin bt = Ok s ->
  mayRequireAlpha ft = false ->
  globalColor s = None /\
  (forall colors i color,
      getAttributeValues "COLOR_0" s = Some colors ->
      colors !! i = Some (Ok color) ->
      idx color 3 = 1%float).
Proof.
  intros H1 Hnone Hs Halpha.
  pose proof (colors_from_table _ _ _ _ _ H1 Hnone Hs) as Hcolors.
  unfold mayRequireAlpha in Halpha.
  destruct (RGBA ft) as [rgba|] eqn:Hrgba; [done |]. split.
  - destruct (proj1 (create_Ok_afterStep4 _ _ _ _) Hs)
      as (s4 & s5 & s6 & H4 & H5 & H6 & H7).
    destruct (assignGlobalPosition_attributes _ _ _ _ H7) as [Hattrs ->].
    unfold assignGlobalColor in H6.
    destruct (getAttributeValues "COLOR_0" s5) as [stored|] eqn:Hs5.
    + injection H6 as <-.
      rewrite (assignBatchIds_keepsGlobalColor _ _ _ _ H5).
      by eapply afterStep4_globalColor.
    + apply bind_Ok in H6 as (color & Hcreate & [= <-]). simpl.
      unfold createGlobalNormalizedLinearColor in Hcreate.
      assert (getAttributeValues "COLOR_0" s = None) as Hs0
        by (unfold getAttributeValues in *; by rewrite Hattrs).
      rewrite Hs0 in Hcolors. unfold createNormalizedLinearColors in Hcolors.
      rewrite Hrgba in Hcolors.
      destruct (RGB ft); [done |]. destruct (RGB565 ft); [done |].
      destruct (CONSTANT_RGBA ft); [done |]. by injection Hcreate as <-.
  - intros colors i color Hget Hi. rewrite Hget in Hcolors.
    unfold createNormalizedLinearColors in Hcolors. rewrite Hrgba in Hcolors.
    destruct (RGB ft) as [rgb|];
      [| destruct (RGB565 ft) as [rgb565|]; [| done]];
      injection Hcolors as ->;
      unfold Iterables.map in Hi;
      apply list_lookup_fmap_Some in Hi as (r & Hcolor & _);
      (destruct r; [| done]); by injection Hcolor as ->.
Qed.

End Failures.

(** X12: a table without the mesh-compression extension never reaches
    the decoder: [create] returns the same result with any two
    decoders. *)
Theorem decoder_not_invoked_without_extension
    (transfer : ColorTransfer) (decoder1 decoder2 : DracoDecoder)
    ft bin bt :
  withoutCompression ft ->
  PntsPointClouds.create (decoder := decoder1) ft bin bt
  = PntsPointClouds.create (decoder := decoder2) ft bin bt.
Proof.
  intros Hnone.
  rewrite (create_afterStep1 (decoder := decoder1)),
    (create_afterStep1 (decoder := decoder2)).
  by rewrite (withoutCompression_afterStep1 (decoder := decoder1) _ _ _ Hnone),
    (withoutCompression_afterStep1 (decoder := decoder2) _ _ _ Hnone).
Qed.


(** * Examples for the further properties *)

Section PipelineWitnesses.
Import PointCloud PntsPointClouds.
#[local] Existing Instance exampleTransfer.

(** The colours of the point cloud decoded from the compressed RGB are
    the store of the compressed RGB. *)
Lemma attributes_are_stores_witness :
  exists d s attribute,
    obtainDracoDecodedAttributes (decoder := echoDecoder UNSIGNED_BYTE)
      dracoTable colorsBinary emptyBatchTable = Ok d /\
    create (decoder := echoDecoder UNSIGNED_BYTE)
      dracoTable colorsBinary emptyBatchTable = Ok s /\
    getAttribute "COLOR_0" s = Some attribute /\
    Stored dracoTable colorsBinary emptyBatchTable d "COLOR_0" attribute.
Proof.
  assert (exists d,
             obtainDracoDecodedAttributes (decoder := echoDecoder UNSIGNED_BYTE)
               dracoTable colorsBinary emptyBatchTable = Ok d)
    as [d Hd] by (eexists; reflexivity).
  assert (exists s, create (decoder := echoDecoder UNSIGNED_BYTE)
            dracoTable colorsBinary emptyBatchTable = Ok s)
    as [s Hs] by (eexists; vm_compute; reflexivity).
  assert (exists attribute, getAttribute "COLOR_0" s = Some attribute)
    as [attribute Hattribute].
  { injection Hs as <-. eexists. vm_compute. reflexivity. }
  exists d, s, attribute. repeat split; try done.
  exact (attributes_are_stores (decoder := echoDecoder UNSIGNED_BYTE)
           dracoTable colorsBinary emptyBatchTable d s "COLOR_0" attribute
           Hd Hs Hattribute).
Defined.

(** The batch identifiers of the single point iterate to one value. *)
Lemma attributes_have_points_length_witness :
  exists s attribute values,
    create (decoder := rejectingDecoder)
      colorsTable colorsBinary emptyBatchTable = Ok s /\
    getAttribute "_FEATURE_ID_0" s = Some attribute /\
    Iterables.toArray (attributeValues attribute) = Ok values /\
    length values = 1%nat.
Proof.
  assert (exists s, create (decoder := rejectingDecoder)
            colorsTable colorsBinary emptyBatchTable = Ok s)
    as [s Hs] by (eexists; vm_compute; reflexivity).
  assert (exists attribute, getAttribute "_FEATURE_ID_0" s = Some attribute)
    as [attribute Hattribute].
  { injection Hs as <-. eexists. vm_compute. reflexivity. }
  assert (Iterables.toArray (attributeValues attribute) <> Err RangeError)
    as Hread.
  { injection Hs as <-. injection Hattribute as <-. by vm_compute. }
  destruct (proj1 (attributes_have_points_length (decoder := rejectingDecoder)
                     colorsTable colorsBinary emptyBatchTable s
                     "_FEATURE_ID_0" attribute Hs Hattribute))
    as [(values & Hvalues & Hlength) | Hfails]; [| done].
  by exists s, attribute, values.
Defined.

(** With an empty binary body the call returns, and iterating the
    positions throws a range error. *)
Example positions_of_short_binary :
  (fun s => Iterables.toArray <$> getAttributeValues "POSITION" s)
    <$> create (decoder := rejectingDecoder)
          colorsTable [] emptyBatchTable
  = Ok (Some (Err RangeError)).
Proof. vm_compute. reflexivity. Qed.

(** The attribute FOO is named after a compressed property of the batch
    table. *)
Lemma attribute_names_witness :
  exists s,
    create (decoder := echoDecoder UNSIGNED_SHORT)
      compressedFeatureTable [] referenceFooBatchTable = Ok s /\
    is_Some (getAttribute "FOO" s) /\
    ("FOO" ∈ ["POSITION"; "NORMAL"; "COLOR_0"; "_FEATURE_ID_0"]
     \/ "FOO" ∈ BatchTables.obtainDracoPropertyNames referenceFooBatchTable).
Proof.
  assert (exists s, create (decoder := echoDecoder UNSIGNED_SHORT)
            compressedFeatureTable [] referenceFooBatchTable = Ok s)
    as [s Hs] by (eexists; vm_compute; reflexivity).
  assert (is_Some (getAttribute "FOO" s)) as Hfoo.
  { injection Hs as <-. eexists. vm_compute. reflexivity. }
  exists s. repeat split; try done.
  exact (proj1 (attribute_names (decoder := echoDecoder UNSIGNED_SHORT)
                  compressedFeatureTable [] referenceFooBatchTable s "FOO"
                  Hs Hfoo)).
Defined.

(** The batch identifiers of a BATCH_ID that declares unsigned bytes
    are tagged UINT8 and read as single bytes. *)
Lemma batch_ids_tagged_as_read_witness :
  exists s,
    create (decoder := rejectingDecoder)
      byteBatchIdTable colorsBinary emptyBatchTable = Ok s /\
    getAttribute "_FEATURE_ID_0" s
    = Some {| attributeType := "SCALAR";
              attributeComponentType := "UINT8";
              attributeValues :=
                TileTableData.createNumericScalarIterable SCALAR
                  UNSIGNED_BYTE colorsBinary 20 1 |}.
Proof.
  assert (exists s4, afterStep4 (decoder := rejectingDecoder)
            byteBatchIdTable colorsBinary emptyBatchTable = Ok s4)
    as [s4 H4] by (eexists; vm_compute; reflexivity).
  assert (getAttributeValues "_FEATURE_ID_0" s4 = None) as Hnone.
  { revert H4. vm_compute. by intros [= <-]. }
  assert (exists s, create (decoder := rejectingDecoder)
            byteBatchIdTable colorsBinary emptyBatchTable = Ok s)
    as [s Hs] by (eexists; vm_compute; reflexivity).
  exists s. split; [exact Hs |].
  exact (proj1 (batch_ids_tagged_as_read (decoder := rejectingDecoder)
                  byteBatchIdTable colorsBinary emptyBatchTable s4 s
                  H4 Hnone Hs)
           _ eq_refl).
Defined.

Example byte_batch_id_value :
  (fun s => Iterables.toArray <$> getAttributeValues "_FEATURE_ID_0" s)
    <$> create (decoder := rejectingDecoder)
          byteBatchIdTable colorsBinary emptyBatchTable
  = Ok (Some (Ok [Num 52])).
Proof. vm_compute. reflexivity. Qed.

Lemma positions_always_present_witness :
  exists s,
    create (decoder := rejectingDecoder)
      colorsTable colorsBinary emptyBatchTable = Ok s /\
    is_Some (getAttributeValues "POSITION" s).
Proof.
  assert (exists s, create (decoder := rejectingDecoder)
            colorsTable colorsBinary emptyBatchTable = Ok s)
    as [s Hs] by (eexists; vm_compute; reflexivity).
  exists s. split; [done |].
  exact (positions_always_present (decoder := rejectingDecoder)
           colorsTable colorsBinary emptyBatchTable s Hs).
Defined.

(** The point cloud with the global colour red has no COLOR_0. *)
Lemma global_color_excludes_colors_witness :
  exists s,
    create (decoder := rejectingDecoder)
      quantizedTable quantizedBinary emptyBatchTable = Ok s /\
    is_Some (globalColor s) /\
    is_Some (CONSTANT_RGBA quantizedTable) /\
    getAttributeValues "COLOR_0" s = None.
Proof.
  assert (exists s, create (decoder := rejectingDecoder)
            quantizedTable quantizedBinary emptyBatchTable = Ok s)
    as [s Hs] by (eexists; vm_compute; reflexivity).
  assert (is_Some (globalColor s)) as Hglobal.
  { injection Hs as <-. eexists. vm_compute. reflexivity. }
  exists s. split; [done |]. split; [done |].
  exact (global_color_excludes_colors (decoder := rejectingDecoder)
           quantizedTable quantizedBinary emptyBatchTable s Hs Hglobal).
Defined.

(** With NORMAL and NORMAL_OCT16P both in the table, the normals are
    those of NORMAL. *)
Lemma normals_precedence_witness :
  exists s,
    create (decoder := rejectingDecoder)
      normalsTable normalsBinary emptyBatchTable = Ok s /\
    getAttributeValues "NORMAL" s
    = Some (TileTableData.createNumericArrayIterable VEC3 FLOAT
              normalsBinary 12 1).
Proof.
  assert (exists s, create (decoder := rejectingDecoder)
            normalsTable normalsBinary emptyBatchTable = Ok s)
    as [s Hs] by (eexists; vm_compute; reflexivity).
  exists s. split; [done |].
  exact (proj1 (normals_precedence (decoder := rejectingDecoder)
                  normalsTable normalsBinary emptyBatchTable
                  PointCloud.empty s eq_refl eq_refl Hs)
           _ eq_refl).
Defined.

Example normals_values :
  (fun s => Iterables.toArray <$> getAttributeValues "NORMAL" s)
    <$> create (decoder := rejectingDecoder)
          normalsTable normalsBinary emptyBatchTable
  = Ok (Some (Ok [Arr [0; 0; 1]%float])).
Proof. vm_compute. reflexivity. Qed.

(** The compressed normals are stored although the table has a raw
    NORMAL field. *)
Lemma compressed_normals_override_witness :
  exists decoded dracoNormals s,
    obtainDracoDecodedAttributes (decoder := echoDecoder UNSIGNED_BYTE)
      dracoNormalsTable colorsBinary emptyBatchTable = Ok (Some decoded) /\
    decoded !! "NORMAL" = Some dracoNormals /\
    create (decoder := echoDecoder UNSIGNED_BYTE)
      dracoNormalsTable colorsBinary emptyBatchTable = Ok s /\
    getAttributeValues "NORMAL" s
    = Some (TileTableData.createNumericArrayIterable VEC3 FLOAT
              (attributeData dracoNormals)
              (AttributeInfo.byteOffset (attributeInfo dracoNormals))
              1).
Proof.
  assert (exists decoded,
             obtainDracoDecodedAttributes (decoder := echoDecoder UNSIGNED_BYTE)
               dracoNormalsTable colorsBinary emptyBatchTable
             = Ok (Some decoded))
    as [decoded Hdecoded] by (eexists; reflexivity).
  assert (exists dracoNormals, decoded !! "NORMAL" = Some dracoNormals)
    as [dracoNormals Hnormals].
  { injection Hdecoded as <-. eexists. vm_compute. reflexivity. }
  assert (exists s, create (decoder := echoDecoder UNSIGNED_BYTE)
            dracoNormalsTable colorsBinary emptyBatchTable = Ok s)
    as [s Hs] by (eexists; vm_compute; reflexivity).
  exists decoded, dracoNormals, s. repeat split; try done.
  exact (proj1 (compressed_normals_override
                  (decoder := echoDecoder UNSIGNED_BYTE)
                  dracoNormalsTable colorsBinary emptyBatchTable
                  decoded dracoNormals Hdecoded Hnormals) s Hs).
Defined.

(** With a compressed RGB, the raw RGBA field of the table can be
    replaced by any other colour fields. *)
Lemma compressed_colors_override_witness :
  exists decoded,
    obtainDracoDecodedAttributes (decoder := echoDecoder UNSIGNED_BYTE)
      dracoTable colorsBinary emptyBatchTable = Ok (Some decoded) /\
    is_Some (decoded !! "RGB") /\
    create (decoder := echoDecoder UNSIGNED_BYTE)
      (withColors dracoTable None None (Some at0)
         (Some (InlineArray [255; 0; 0; 255]%float)))
      colorsBinary emptyBatchTable
    = create (decoder := echoDecoder UNSIGNED_BYTE)
        dracoTable colorsBinary emptyBatchTable.
Proof.
  assert (exists decoded,
             obtainDracoDecodedAttributes (decoder := echoDecoder UNSIGNED_BYTE)
               dracoTable colorsBinary emptyBatchTable = Ok (Some decoded))
    as [decoded Hdecoded] by (eexists; reflexivity).
  assert (is_Some (decoded !! "RGB")) as Hrgb.
  { injection Hdecoded as <-. eexists. vm_compute. reflexivity. }
  exists decoded. split; [exact Hdecoded |]. split; [exact Hrgb |].
  exact (proj1 (compressed_colors_override
                  (decoder := echoDecoder UNSIGNED_BYTE)
                  dracoTable colorsBinary emptyBatchTable
                  decoded Hdecoded (or_introl Hrgb))
           None None (Some at0) (Some (InlineArray [255; 0; 0; 255]%float))).
Defined.

(** The compressed batch identifiers are stored as UINT8, the datatype
    that the decoder reports, although the table has a raw BATCH_ID
    without BATCH_LENGTH. *)
Lemma compressed_batch_ids_override_witness :
  exists decoded dracoBatchId s,
    obtainDracoDecodedAttributes (decoder := echoDecoder UNSIGNED_BYTE)
      dracoNormalsTable colorsBinary emptyBatchTable = Ok (Some decoded) /\
    decoded !! "BATCH_ID" = Some dracoBatchId /\
    create (decoder := echoDecoder UNSIGNED_BYTE)
      dracoNormalsTable colorsBinary emptyBatchTable = Ok s /\
    attributeComponentType <$> getAttribute "_FEATURE_ID_0" s
    = Some "UINT8".
Proof.
  assert (exists decoded,
             obtainDracoDecodedAttributes (decoder := echoDecoder UNSIGNED_BYTE)
               dracoNormalsTable colorsBinary emptyBatchTable
             = Ok (Some decoded))
    as [decoded Hdecoded] by (eexists; reflexivity).
  assert (decoded !! "BATCH_ID"
          = Some {| attributeData := take 12 colorsBinary;
                    attributeInfo :=
                      {| AttributeInfo.byteOffset := 0;
                         AttributeInfo.componentDatatype :=
                           UNSIGNED_BYTE |} |}) as HbatchId.
  { injection Hdecoded as <-. vm_compute. reflexivity. }
  assert (exists s, create (decoder := echoDecoder UNSIGNED_BYTE)
            dracoNormalsTable colorsBinary emptyBatchTable = Ok s)
    as [s Hs] by (eexists; vm_compute; reflexivity).
  eexists decoded, _, s. repeat split; try done.
  by rewrite (proj1 (compressed_batch_ids_override
                       (decoder := echoDecoder UNSIGNED_BYTE)
                       dracoNormalsTable colorsBinary emptyBatchTable
                       decoded _ Hdecoded HbatchId) s Hs).
Defined.

(** A decoder that rejects the compressed data makes the call fail with
    an error that is neither a format error nor a range error, which
    only a table with the extension can raise. *)
Lemma create_failures_witness :
  create (decoder := rejectingDecoder)
    dracoTable colorsBinary emptyBatchTable = Err DracoError /\
  ~ withoutCompression dracoTable.
Proof.
  assert (create (decoder := rejectingDecoder)
            dracoTable colorsBinary emptyBatchTable = Err DracoError)
    as He by reflexivity.
  split; [done |].
  exact (proj2 (proj2 (create_failures (decoder := rejectingDecoder)
                         dracoTable colorsBinary emptyBatchTable DracoError
                         He))
           eq_refl).
Defined.

(** The colour decoded from RGB has alpha 1. *)
Lemma mayRequireAlpha_false_witness :
  exists s colors color,
    create (decoder := rejectingDecoder)
      normalsTable normalsBinary emptyBatchTable = Ok s /\
    mayRequireAlpha normalsTable = false /\
    getAttributeValues "COLOR_0" s = Some colors /\
    colors !! 0%nat = Some (Ok color) /\
    idx color 3 = 1%float.
Proof.
  assert (exists s, create (decoder := rejectingDecoder)
            normalsTable normalsBinary emptyBatchTable = Ok s)
    as [s Hs] by (eexists; vm_compute; reflexivity).
  assert (exists colors, getAttributeValues "COLOR_0" s = Some colors)
    as [colors Hcolors].
  { injection Hs as <-. eexists. vm_compute. reflexivity. }
  assert (exists color, colors !! 0%nat = Some (Ok color))
    as [color Hcolor].
  { injection Hs as <-. injection Hcolors as <-. eexists.
    vm_compute. reflexivity. }
  exists s, colors, color. repeat split; try done.
  exact (proj2 (mayRequireAlpha_false (decoder := rejectingDecoder)
                  normalsTable normalsBinary emptyBatchTable
                  PointCloud.empty s eq_refl eq_refl Hs eq_refl)
           colors 0%nat color Hcolors Hcolor).
Defined.

(** The table without the extension is decoded in the same way with a
    decoder that rejects everything and with one that accepts
    everything. *)
Lemma decoder_not_invoked_without_extension_witness :
  withoutCompression colorsTable /\
  create (decoder := rejectingDecoder)
    colorsTable colorsBinary emptyBatchTable
  = create (decoder := echoDecoder UNSIGNED_BYTE)
      colorsTable colorsBinary emptyBatchTable.
Proof.
  assert (withoutCompression colorsTable) as Hnone by (by intros exts).
  split; [exact Hnone |].
  exact (decoder_not_invoked_without_extension exampleTransfer
           rejectingDecoder (echoDecoder UNSIGNED_BYTE)
           colorsTable colorsBinary emptyBatchTable Hnone).
Defined.

End PipelineWitnesses.


(** * Further properties of the tileset source *)

Section TilesetSourceLifecycle.
Context {fileSystem : FileSystem}.
Import TilesetSource.

(** X14: a sequence of [open] (with non-empty names) and [close] calls
    runs without an exception exactly when the calls alternate, starting
    with [open] on a source that is not opened and with [close] on an
    opened one. *)
Theorem lifecycle_calls_alternate calls source :
  Forall opensNonEmptyName calls ->
  (exists source', callAll calls source = Ok source')
  <-> alternates (truthy (fullInputName source)) calls = true.
Proof.
  intros Hnames. revert source.
  induction Hnames as [| call rest Hname _ IH]; intros source.
  - simpl. split; [done | by eexists].
  - destruct call as [name |]; simpl; unfold open, close;
      destruct (truthy (fullInputName source)); simpl.
    + split; [by intros [? ?] | done].
    + rewrite IH. simpl fullInputName.
      by rewrite (truthy_Some_nonempty name Hname).
    + by rewrite IH.
    + split; [by intros [? ?] | done].
Qed.

(** X15: the empty directory name does not open the source.  After
    [open] with the empty name on a source that is not opened, which
    succeeds, [getKeys], [getValue] and [close] still throw the error of
    a source that is not opened, and [open] succeeds once more. *)
Theorem open_with_empty_name source :
  ~ isOpened source ->
  exists source',
    open "" source = Ok source' /\
    getKeys source' = Err notOpened /\
    (forall key, getValue key source' = Err notOpened) /\
    close source' = Err notOpened /\
    (forall name, open name source' = Ok {| fullInputName := Some name |}).
Proof.
  intros Hclosed. eexists. split; [by apply open_closed |].
  by repeat split.
Qed.

(** X16: every key that [getKeys] lists has a value.  When the
    directory walk yields files that exist, and joining the directory
    with the relativized name of a file gives the file back, [getValue]
    on a listed key reads the file of that key and never answers
    [undefined]. *)
Theorem listed_keys_have_values source name files :
  fullInputName source = Some name ->
  isOpened source ->
  overFiles name true = Ok files ->
  (forall file,
      file ∈ files ->
      existsSync file = true /\ pathJoin name (relativize name file) = file) ->
  getKeys source = Ok (List.map (relativize name) files) /\
  (forall key,
      key ∈ List.map (relativize name) files ->
      exists file,
        file ∈ files /\ key = relativize name file /\
        getValue key source = (data ← readFileSync file; Ok (Some data))).
Proof.
  unfold isOpened. intros Hname Hopened Hfiles Hwalk. split.
  - unfold getKeys. rewrite Hopened, Hname. simpl. by rewrite Hfiles.
  - intros key (file & -> & Hfile)%(list_elem_of_fmap (relativize name)).
    exists file. split; [done |]. split; [done |].
    destruct (Hwalk file Hfile) as [Hexists Hjoin].
    unfold getValue. rewrite Hopened, Hname. simpl.
    by rewrite Hjoin, Hexists.
Qed.

End TilesetSourceLifecycle.

Section TilesetSourceWitnesses.
Import TilesetSource.

Lemma lifecycle_calls_alternate_witness :
  exists source',
    callAll [CallOpen "tiles"; CallClose; CallOpen "other"] new
    = Ok source'.
Proof.
  apply (proj2 (lifecycle_calls_alternate
                  [CallOpen "tiles"; CallClose; CallOpen "other"] new
                  ltac:(by repeat constructor))).
  reflexivity.
Defined.

Lemma open_with_empty_name_witness :
  exists source',
    open "" new = Ok source' /\
    getKeys (fileSystem := exampleFileSystem) source' = Err notOpened /\
    (forall key,
        getValue (fileSystem := exampleFileSystem) key source'
        = Err notOpened) /\
    close source' = Err notOpened /\
    (forall name, open name source' = Ok {| fullInputName := Some name |}).
Proof.
  apply (open_with_empty_name (fileSystem := exampleFileSystem) new).
  by unfold isOpened.
Defined.

Lemma listed_keys_have_values_witness :
  getKeys (fileSystem := exampleFileSystem) openedSource
  = Ok ["tileset.json"] /\
  exists file,
    file ∈ ["tiles/tileset.json"] /\
    "tileset.json" = relativize (FileSystem := exampleFileSystem) "tiles" file /\
    getValue (fileSystem := exampleFileSystem) "tileset.json" openedSource
    = (data ← readFileSync (FileSystem := exampleFileSystem) file;
       Ok (Some data)).
Proof.
  pose proof (listed_keys_have_values (fileSystem := exampleFileSystem)
                openedSource "tiles" ["tiles/tileset.json"]
                eq_refl eq_refl eq_refl) as Hlisted.
  destruct Hlisted as [Hkeys Hvalues].
  { intros file ->%list_elem_of_singleton. by split. }
  split; [exact Hkeys |].
  apply (Hvalues "tileset.json"). by left.
Defined.

End TilesetSourceWitnesses.


(** * Properties of the tileset object upgrader *)

Section UpgraderProperties.
Context {platform : UpgraderPlatform}.
Import TilesetObjectUpgrader.

(** ** The traversal *)

Lemma mapTile_ext_in f g tile :
  (forall data, data ∈ allData tile -> f data = g data) ->
  mapTile f tile = mapTile g tile.
Proof.
  induction tile as [data children IH] using Tile_induction.
  intros Hfg. simpl. f_equal.
  - apply Hfg. simpl. by left.
  - destruct children as [tiles |]; [| done]. f_equal.
    assert (forall d, d ∈ concat (List.map allData tiles) -> f d = g d)
      as Hrest.
    { intros d Hd. apply Hfg. simpl. by right. }
    clear Hfg. induction IH as [| tile rest Htile _ IHrest]; [done |].
    simpl in *. f_equal.
    + apply Htile. intros d Hd. apply Hrest.
      apply elem_of_app. by left.
    + apply IHrest. intros d Hd. apply Hrest.
      apply elem_of_app. by right.
Qed.

Lemma mapTile_ext f g tile :
  (forall data, f data = g data) -> mapTile f tile = mapTile g tile.
Proof. intros Hfg. apply mapTile_ext_in. intros data _. apply Hfg. Qed.

Lemma mapTile_id tile : mapTile (fun data => data) tile = tile.
Proof.
  induction tile as [data children IH] using Tile_induction.
  simpl. f_equal. destruct children as [tiles |]; [| done]. f_equal.
  induction IH as [| tile rest Htile _ IHrest]; [done |].
  simpl. by rewrite Htile, IHrest.
Qed.

Lemma mapTile_fixed f tile :
  (forall data, data ∈ allData tile -> f data = data) ->
  mapTile f tile = tile.
Proof.
  intros Hf. rewrite <- (mapTile_id tile) at 2. by apply mapTile_ext_in.
Qed.

Lemma mapTile_compose f g tile :
  mapTile g (mapTile f tile) = mapTile (fun data => g (f data)) tile.
Proof.
  induction tile as [data children IH] using Tile_induction.
  simpl. f_equal. destruct children as [tiles |]; [| done]. f_equal.
  induction IH as [| tile rest Htile _ IHrest]; [done |].
  simpl. by rewrite Htile, IHrest.
Qed.

Lemma allData_mapTile f tile :
  allData (mapTile f tile) = List.map f (allData tile).
Proof.
  induction tile as [data children IH] using Tile_induction.
  simpl. f_equal. destruct children as [tiles |]; [| done].
  induction IH as [| tile rest Htile _ IHrest]; [done |].
  simpl. by rewrite List.map_app, Htile, IHrest.
Qed.

(** The traversal of the examples applies the callback to the
    properties of every tile and logs the messages of the calls in the
    order of [allData]. *)
Lemma preorderTraversal_mapTile callback tile :
  preorderTraversal callback tile
  = (mapTile (fun data => fst (callback data)) tile,
     concat (List.map (fun data => snd (callback data)) (allData tile))).
Proof.
  induction tile as [data children IH] using Tile_induction.
  simpl. destruct (callback data) as [data' messages] eqn:Hdata.
  destruct children as [tiles |]; simpl.
  - assert (List.map fst (List.map (preorderTraversal callback) tiles)
            = List.map (mapTile (fun data => fst (callback data))) tiles
            /\ concat (List.map snd
                        (List.map (preorderTraversal callback) tiles))
               = concat (List.map (fun data => snd (callback data))
                           (concat (List.map allData tiles))))
      as [-> ->]; [| done].
    induction IH as [| tile rest Htile _ [IHfst IHsnd]]; [done |].
    simpl. rewrite Htile, IHfst, IHsnd. simpl.
    by rewrite List.map_app, concat_app.
  - by rewrite app_nil_r.
Qed.

(** ** One content *)

Lemma upgradeContentUrlToUri_location content :
  contentLocation (fst (upgradeContentUrlToUri content))
  = contentLocation content.
Proof.
  unfold upgradeContentUrlToUri, contentLocation.
  destruct (truthy (Content.uri content)) eqn:Huri; simpl;
    [by rewrite Huri |].
  destruct (truthy (Content.url content)) eqn:Hurl; simpl.
  - by rewrite Hurl.
  - by rewrite Huri, Hurl.
Qed.

Lemma upgradeContentUrlToUri_upgraded content :
  upgradedContent (fst (upgradeContentUrlToUri content)).
Proof.
  unfold upgradeContentUrlToUri, upgradedContent.
  destruct (truthy (Content.uri content)) eqn:Huri; simpl;
    [by rewrite Huri |].
  destruct (truthy (Content.url content)) eqn:Hurl; simpl; done.
Qed.

Lemma upgradeContentUrlToUri_fixed content :
  upgradedContent content ->
  fst (upgradeContentUrlToUri content) = content.
Proof.
  unfold upgradeContentUrlToUri, upgradedContent. intros Hupgraded.
  destruct (truthy (Content.uri content)) eqn:Huri; [done |].
  by rewrite (Hupgraded eq_refl).
Qed.

Lemma upgradeContentUrlToUri_silent content :
  snd (upgradeContentUrlToUri content) = [] ->
  fst (upgradeContentUrlToUri content) = content.
Proof.
  unfold upgradeContentUrlToUri.
  destruct (truthy (Content.uri content)); [done |].
  by destruct (truthy (Content.url content)).
Qed.

(** X17: the upgrade of one content keeps the location that the content
    refers to (its [uri], or its [url] when it has no [uri]) and its
    other properties, never replaces a [uri], leaves no [url] in a
    content without [uri], and does nothing when applied again. *)
Theorem content_upgrade_keeps_location content :
  let upgraded := fst (upgradeContentUrlToUri content) in
  contentLocation upgraded = contentLocation content /\
  Content.others upgraded = Content.others content /\
  (truthy (Content.uri content) = true -> upgraded = content) /\
  upgradedContent upgraded /\
  upgradeContentUrlToUri upgraded
  = (upgraded,
     if truthy (contentLocation content) then []
     else ["  The content does not have a 'uri' property (and no legacy 'url' property)"]).
Proof.
  simpl. split; [apply upgradeContentUrlToUri_location |].
  split; [| split; [| split; [apply upgradeContentUrlToUri_upgraded |]]].
  - unfold upgradeContentUrlToUri.
    destruct (truthy (Content.uri content)); [done |].
    by destruct (truthy (Content.url content)).
  - unfold upgradeContentUrlToUri. by intros ->.
  - unfold upgradeContentUrlToUri, contentLocation.
    destruct (truthy (Content.uri content)) eqn:Huri; simpl.
    + by rewrite !Huri.
    + destruct (truthy (Content.url content)) eqn:Hurl; simpl.
      * by rewrite !Hurl.
      * by rewrite Huri, Hurl.
Qed.

End UpgraderProperties.


Section UpgraderTreeProperties.
Context {platform : UpgraderPlatform}.
Variable visited : Tile -> list TileData.
Hypothesis Hvisits : visitsInOrder visited.
Import TilesetObjectUpgrader.

(** ** The callbacks *)

Lemma upgradeContents_map contents :
  upgradeContents contents
  = (List.map (fun c => fst (upgradeContentUrlToUri c)) contents,
     concat (List.map (fun c => snd (upgradeContentUrlToUri c)) contents)).
Proof.
  induction contents as [| c rest IH]; [done |].
  simpl. rewrite IH. by destruct (upgradeContentUrlToUri c).
Qed.

Lemma upgradeTileContents_fst tile :
  fst (upgradeTileContents tile)
  = {| refine := refine tile;
       content := (fun c => fst (upgradeContentUrlToUri c)) <$> content tile;
       contents :=
         List.map (fun c => fst (upgradeContentUrlToUri c))
           <$> contents tile;
       tileOthers := tileOthers tile |}.
Proof.
  unfold upgradeTileContents.
  destruct (content tile) as [c |], (contents tile) as [cs |]; simpl;
    rewrite ?upgradeContents_map;
    try destruct (upgradeContentUrlToUri c); done.
Qed.

Lemma upgradeTileContents_snd tile :
  snd (upgradeTileContents tile)
  = concat (List.map (fun c => snd (upgradeContentUrlToUri c))
              (tileContents tile)).
Proof.
  unfold upgradeTileContents, tileContents.
  destruct (content tile) as [c |], (contents tile) as [cs |]; simpl;
    rewrite ?upgradeContents_map;
    try destruct (upgradeContentUrlToUri c); simpl;
    by rewrite ?app_nil_r.
Qed.

Lemma upgradeTileContents_tileContents tile :
  tileContents (fst (upgradeTileContents tile))
  = List.map (fun c => fst (upgradeContentUrlToUri c)) (tileContents tile).
Proof.
  rewrite upgradeTileContents_fst. unfold tileContents. simpl.
  by destruct (content tile), (contents tile).
Qed.

Lemma upgradeTileContents_clearContents tile :
  clearContents (fst (upgradeTileContents tile)) = clearContents tile.
Proof. by rewrite upgradeTileContents_fst. Qed.

Lemma upgradeTileRefine_fst tile :
  fst (upgradeTileRefine tile)
  = {| refine :=
         if keptRefine (refine tile) then refine tile
         else Some (toUpperCase (default "" (refine tile)));
       content := content tile;
       contents := contents tile;
       tileOthers := tileOthers tile |}.
Proof.
  unfold upgradeTileRefine, keptRefine.
  destruct (truthy (refine tile)
            && negb (String.eqb (default "" (refine tile)) "ADD")
            && negb (String.eqb (default "" (refine tile)) "REPLACE"));
    [done | by destruct tile].
Qed.

Lemma upgradeTileRefine_snd_refine tile tile' :
  refine tile' = refine tile ->
  snd (upgradeTileRefine tile') = snd (upgradeTileRefine tile).
Proof.
  unfold upgradeTileRefine. intros ->.
  by destruct (truthy (refine tile)
               && negb (String.eqb (default "" (refine tile)) "ADD")
               && negb (String.eqb (default "" (refine tile)) "REPLACE")).
Qed.

Lemma upgradeTileRefine_clearRefine tile :
  clearRefine (fst (upgradeTileRefine tile)) = clearRefine tile.
Proof. by rewrite upgradeTileRefine_fst. Qed.

Lemma upgradeTileRefine_silent tile :
  snd (upgradeTileRefine tile) = [] -> fst (upgradeTileRefine tile) = tile.
Proof.
  unfold upgradeTileRefine.
  by destruct (truthy (refine tile)
               && negb (String.eqb (default "" (refine tile)) "ADD")
               && negb (String.eqb (default "" (refine tile)) "REPLACE")).
Qed.

Lemma upgradeTileContents_silent tile :
  snd (upgradeTileContents tile) = [] ->
  fst (upgradeTileContents tile) = tile.
Proof.
  rewrite upgradeTileContents_snd, upgradeTileContents_fst.
  unfold tileContents. intros Hsilent.
  assert (forall cs,
             concat (List.map (fun c => snd (upgradeContentUrlToUri c)) cs)
             = [] ->
             List.map (fun c => fst (upgradeContentUrlToUri c)) cs = cs)
    as Hall.
  { induction cs as [| c rest IH]; [done |]. simpl.
    intros [Hc Hrest]%app_eq_nil.
    by rewrite (upgradeContentUrlToUri_silent c Hc), (IH Hrest). }
  rewrite List.map_app, concat_app in Hsilent.
  apply app_eq_nil in Hsilent as [Hcontent Hcontents].
  destruct tile as [r c cs o]. simpl in *. f_equal.
  - destruct c as [c |]; [| done]. simpl in *.
    rewrite app_nil_r in Hcontent.
    by rewrite (upgradeContentUrlToUri_silent c Hcontent).
  - destruct cs as [cs |]; [| done]. simpl in *. by rewrite (Hall cs).
Qed.

(** The two callbacks work on different properties of a tile. *)
Lemma upgradeTile_commute tile :
  fst (upgradeTileRefine (fst (upgradeTileContents tile)))
  = fst (upgradeTileContents (fst (upgradeTileRefine tile))).
Proof.
  by rewrite !upgradeTileRefine_fst, !upgradeTileContents_fst.
Qed.

Lemma upgradeTileContents_idempotent tile :
  fst (upgradeTileContents (fst (upgradeTileContents tile)))
  = fst (upgradeTileContents tile).
Proof.
  rewrite !upgradeTileContents_fst. simpl. f_equal.
  - destruct (content tile) as [c |]; [| done]. simpl. f_equal.
    apply upgradeContentUrlToUri_fixed, upgradeContentUrlToUri_upgraded.
  - destruct (contents tile) as [cs |]; [| done]. simpl. f_equal.
    rewrite List.map_map. apply List.map_ext. intros c.
    apply upgradeContentUrlToUri_fixed, upgradeContentUrlToUri_upgraded.
Qed.

Lemma upgradeTileRefine_idempotent tile :
  (forall s, toUpperCase (toUpperCase s) = toUpperCase s) ->
  fst (upgradeTileRefine (fst (upgradeTileRefine tile)))
  = fst (upgradeTileRefine tile).
Proof.
  intros Hupper. rewrite !upgradeTileRefine_fst. simpl. f_equal.
  destruct (keptRefine (refine tile)) eqn:Hkept; [by rewrite Hkept |].
  destruct (keptRefine (Some (toUpperCase (default "" (refine tile)))));
    [done |].
  simpl. by rewrite Hupper.
Qed.

(** ** The upgrades of the hierarchy *)

Lemma upgradeRefineValues_mapTile tileset :
  upgradeRefineValues tileset
  = ({| asset := asset tileset;
        root := mapTile (fun data => fst (upgradeTileRefine data))
                  (root tileset);
        tilesetOthers := tilesetOthers tileset |},
     concat (List.map (fun data => snd (upgradeTileRefine data))
               (visited (root tileset)))).
Proof.
  unfold upgradeRefineValues.
  by rewrite (proj2 (proj2 Hvisits) upgradeTileRefine).
Qed.

Lemma upgradeEachContentUrlToUri_mapTile tileset :
  upgradeEachContentUrlToUri tileset
  = ({| asset := asset tileset;
        root := mapTile (fun data => fst (upgradeTileContents data))
                  (root tileset);
        tilesetOthers := tilesetOthers tileset |},
     concat (List.map (fun data => snd (upgradeTileContents data))
               (visited (root tileset)))).
Proof.
  unfold upgradeEachContentUrlToUri.
  by rewrite (proj2 (proj2 Hvisits) upgradeTileContents).
Qed.

Lemma allContents_upgraded tile :
  allContents (mapTile (fun data => fst (upgradeTileContents data)) tile)
  = List.map (fun c => fst (upgradeContentUrlToUri c)) (allContents tile).
Proof.
  unfold allContents. rewrite allData_mapTile, List.map_map.
  rewrite concat_map, List.map_map. f_equal.
  apply List.map_ext. intros data. apply upgradeTileContents_tileContents.
Qed.

Lemma concat_silent {A B} (f : A -> list B) (l : list A) x :
  concat (List.map f l) = [] -> x ∈ l -> f x = [].
Proof.
  induction l as [| y rest IH]; simpl.
  - by intros _ ?%elem_of_nil.
  - intros [Hy Hrest]%app_eq_nil [-> | Hx]%elem_of_cons; auto.
Qed.

(** X18: the upgrade of the contents of a tileset reaches every content
    of the hierarchy, the [content] and each of the [contents] of every
    tile: afterwards no content has a legacy [url] in place of a [uri],
    and the contents refer to the same locations, in the same order.
    Nothing but the contents is changed: the hierarchy without the
    contents, the asset and the other properties of the tileset are as
    before. *)
Theorem all_contents_upgraded tileset :
  let upgraded := fst (upgradeEachContentUrlToUri tileset) in
  Forall upgradedContent (allContents (root upgraded)) /\
  List.map contentLocation (allContents (root upgraded))
  = List.map contentLocation (allContents (root tileset)) /\
  mapTile clearContents (root upgraded)
  = mapTile clearContents (root tileset) /\
  asset upgraded = asset tileset /\
  tilesetOthers upgraded = tilesetOthers tileset.
Proof.
  rewrite upgradeEachContentUrlToUri_mapTile. simpl.
  rewrite allContents_upgraded. repeat split.
  - apply List.Forall_map, Forall_forall. intros c _.
    apply upgradeContentUrlToUri_upgraded.
  - rewrite List.map_map. apply List.map_ext. intros c.
    apply upgradeContentUrlToUri_location.
  - rewrite mapTile_compose. apply mapTile_ext. intros data.
    apply upgradeTileContents_clearContents.
Qed.

(** X19: the upgrade of the refine values changes nothing but [refine]
    properties: the hierarchy without them, the asset and the other
    properties of the tileset are as before.  A [refine] that is absent,
    empty, ADD or REPLACE is kept, and every other one is replaced by its
    upper case. *)
Theorem refine_values_upgraded tileset :
  let upgraded := fst (upgradeRefineValues tileset) in
  mapTile clearRefine (root upgraded) = mapTile clearRefine (root tileset) /\
  allContents (root upgraded) = allContents (root tileset) /\
  asset upgraded = asset tileset /\
  tilesetOthers upgraded = tilesetOthers tileset /\
  allRefines (root upgraded)
  = List.map (fun value =>
                if keptRefine value then value
                else Some (toUpperCase (default "" value)))
      (allRefines (root tileset)).
Proof.
  rewrite upgradeRefineValues_mapTile. simpl. repeat split.
  - rewrite mapTile_compose. apply mapTile_ext. intros data.
    apply upgradeTileRefine_clearRefine.
  - unfold allContents. rewrite allData_mapTile, List.map_map. f_equal.
    apply List.map_ext. intros data. by rewrite upgradeTileRefine_fst.
  - unfold allRefines. rewrite allData_mapTile, !List.map_map.
    apply List.map_ext. intros data. by rewrite upgradeTileRefine_fst.
Qed.

(** X20: the upgrade of the refine values and the upgrade of the
    contents do not depend on each other: in either order they give the
    same tileset, and each logs the same messages after the other as
    before it. *)
Theorem upgrades_commute tileset :
  fst (upgradeRefineValues (fst (upgradeEachContentUrlToUri tileset)))
  = fst (upgradeEachContentUrlToUri (fst (upgradeRefineValues tileset))) /\
  snd (upgradeRefineValues (fst (upgradeEachContentUrlToUri tileset)))
  = snd (upgradeRefineValues tileset) /\
  snd (upgradeEachContentUrlToUri (fst (upgradeRefineValues tileset)))
  = snd (upgradeEachContentUrlToUri tileset).
Proof.
  rewrite !upgradeRefineValues_mapTile, !upgradeEachContentUrlToUri_mapTile.
  simpl. repeat split.
  - f_equal. rewrite !mapTile_compose. apply mapTile_ext.
    apply upgradeTile_commute.
  - rewrite (proj1 (proj2 Hvisits)), List.map_map. f_equal.
    apply List.map_ext. intros data. apply upgradeTileRefine_snd_refine.
    by rewrite upgradeTileContents_fst.
  - rewrite (proj1 (proj2 Hvisits)), List.map_map. f_equal.
    apply List.map_ext. intros data.
    rewrite !upgradeTileContents_snd. f_equal. f_equal.
    unfold tileContents. by rewrite upgradeTileRefine_fst.
Qed.

(** ** The whole upgrade *)

(** The upgraded tileset when the extension declarations are left
    alone. *)
Lemma upgradeTilesetObject_fst upgradeOptions tileset :
  TilesetUpgradeOptions.upgradeContentGltfExtensionDeclarations upgradeOptions
  = false ->
  fst (upgradeTilesetObject upgradeOptions tileset)
  = {| asset :=
         {| version :=
              if truthy (TilesetUpgradeOptions.upgradedAssetVersionNumber
                           upgradeOptions)
              then default "" (TilesetUpgradeOptions.upgradedAssetVersionNumber
                                 upgradeOptions)
              else version (asset tileset);
            assetOthers := assetOthers (asset tileset) |};
       root :=
         mapTile
           (fun data =>
              let data1 :=
                if TilesetUpgradeOptions.upgradeRefineCase upgradeOptions
                then fst (upgradeTileRefine data) else data in
              if TilesetUpgradeOptions.upgradeContentUrlToUri upgradeOptions
              then fst (upgradeTileContents data1) else data1)
           (root tileset);
       tilesetOthers := tilesetOthers tileset |}.
Proof.
  intros Hext. unfold upgradeTilesetObject. rewrite Hext.
  destruct tileset as [[v ao] r o]. simpl.
  destruct (truthy (TilesetUpgradeOptions.upgradedAssetVersionNumber
                      upgradeOptions)).
  - unfold upgradeAssetVersionNumber. simpl.
    destruct (String.eqb v _) eqn:Hv; simpl.
    + apply String.eqb_eq in Hv as <-.
      destruct (TilesetUpgradeOptions.upgradeRefineCase upgradeOptions),
        (TilesetUpgradeOptions.upgradeContentUrlToUri upgradeOptions);
        rewrite ?upgradeRefineValues_mapTile; simpl;
        rewrite ?upgradeEachContentUrlToUri_mapTile; simpl;
        rewrite ?mapTile_compose, ?mapTile_id; done.
    + destruct (TilesetUpgradeOptions.upgradeRefineCase upgradeOptions),
        (TilesetUpgradeOptions.upgradeContentUrlToUri upgradeOptions);
        rewrite ?upgradeRefineValues_mapTile; simpl;
        rewrite ?upgradeEachContentUrlToUri_mapTile; simpl;
        rewrite ?mapTile_compose, ?mapTile_id; done.
  - destruct (TilesetUpgradeOptions.upgradeRefineCase upgradeOptions),
      (TilesetUpgradeOptions.upgradeContentUrlToUri upgradeOptions);
      rewrite ?upgradeRefineValues_mapTile; simpl;
      rewrite ?upgradeEachContentUrlToUri_mapTile; simpl;
      rewrite ?mapTile_compose, ?mapTile_id; done.
Qed.

(** X21: upgrading an upgraded tileset changes nothing.  For a platform
    whose upper case of an upper case is itself, and options that leave
    the extension declarations alone, a second run of the upgrade with
    the same options returns the tileset of the first run. *)
Theorem upgrade_idempotent upgradeOptions tileset :
  (forall s, toUpperCase (toUpperCase s) = toUpperCase s) ->
  TilesetUpgradeOptions.upgradeContentGltfExtensionDeclarations upgradeOptions
  = false ->
  fst (upgradeTilesetObject upgradeOptions
         (fst (upgradeTilesetObject upgradeOptions tileset)))
  = fst (upgradeTilesetObject upgradeOptions tileset).
Proof.
  intros Hupper Hext. rewrite !(upgradeTilesetObject_fst _ _ Hext). simpl.
  f_equal.
  - f_equal.
    by destruct (truthy (TilesetUpgradeOptions.upgradedAssetVersionNumber
                           upgradeOptions)).
  - rewrite mapTile_compose. apply mapTile_ext. intros data.
    destruct (TilesetUpgradeOptions.upgradeRefineCase upgradeOptions),
      (TilesetUpgradeOptions.upgradeContentUrlToUri upgradeOptions);
      simpl; try done.
    + rewrite upgradeTile_commute, (upgradeTileRefine_idempotent _ Hupper).
      apply upgradeTileContents_idempotent.
    + apply (upgradeTileRefine_idempotent _ Hupper).
    + apply upgradeTileContents_idempotent.
Qed.

(** X22: what an upgrade leaves alone.  With options that leave the
    extension declarations alone, the upgraded tileset has the version
    number of the options, or its own when the options name none or the
    empty one; the refine values are as before unless their upgrade is
    chosen, the contents are as before unless their upgrade is chosen,
    and the hierarchy without both, and the other properties of the asset
    and of the tileset, are as before in any case.  With no upgrade
    chosen the tileset is returned as it is and nothing is logged. *)
Theorem upgrade_frame upgradeOptions tileset :
  TilesetUpgradeOptions.upgradeContentGltfExtensionDeclarations upgradeOptions
  = false ->
  let upgraded := fst (upgradeTilesetObject upgradeOptions tileset) in
  version (asset upgraded)
  = (if truthy (TilesetUpgradeOptions.upgradedAssetVersionNumber
                  upgradeOptions)
     then default "" (TilesetUpgradeOptions.upgradedAssetVersionNumber
                        upgradeOptions)
     else version (asset tileset)) /\
  assetOthers (asset upgraded) = assetOthers (asset tileset) /\
  tilesetOthers upgraded = tilesetOthers tileset /\
  mapTile (fun data => clearRefine (clearContents data)) (root upgraded)
  = mapTile (fun data => clearRefine (clearContents data)) (root tileset) /\
  (TilesetUpgradeOptions.upgradeRefineCase upgradeOptions = false ->
   allRefines (root upgraded) = allRefines (root tileset)) /\
  (TilesetUpgradeOptions.upgradeContentUrlToUri upgradeOptions = false ->
   allContents (root upgraded) = allContents (root tileset)) /\
  (truthy (TilesetUpgradeOptions.upgradedAssetVersionNumber upgradeOptions)
   = false ->
   TilesetUpgradeOptions.upgradeRefineCase upgradeOptions = false ->
   TilesetUpgradeOptions.upgradeContentUrlToUri upgradeOptions = false ->
   upgradeTilesetObject upgradeOptions tileset = (tileset, [])).
Proof.
  intros Hext. simpl. rewrite (upgradeTilesetObject_fst _ _ Hext). simpl.
  split; [done |]. split; [done |]. split; [done |].
  split; [| split; [| split]].
  - rewrite mapTile_compose. apply mapTile_ext. intros data.
    destruct (TilesetUpgradeOptions.upgradeRefineCase upgradeOptions),
      (TilesetUpgradeOptions.upgradeContentUrlToUri upgradeOptions);
      by rewrite ?upgradeTileContents_fst, ?upgradeTileRefine_fst.
  - intros ->. unfold allRefines. rewrite allData_mapTile, List.map_map.
    apply List.map_ext. intros data.
    destruct (TilesetUpgradeOptions.upgradeContentUrlToUri upgradeOptions);
      by rewrite ?upgradeTileContents_fst.
  - intros ->. unfold allContents.
    rewrite allData_mapTile, List.map_map. f_equal.
    apply List.map_ext. intros data.
    destruct (TilesetUpgradeOptions.upgradeRefineCase upgradeOptions);
      by rewrite ?upgradeTileRefine_fst.
  - intros Hversion Hrefine Hcontents. unfold upgradeTilesetObject.
    by rewrite Hversion, Hrefine, Hcontents, Hext.
Qed.

(** X23: no upgrade changes the tileset without a message.  When the
    upgrade of the refine values, of the contents, of the version number
    or the whole upgrade logs nothing, the tileset is as before. *)
Theorem silent_upgrade_changes_nothing tileset :
  (snd (upgradeRefineValues tileset) = [] ->
   fst (upgradeRefineValues tileset) = tileset) /\
  (snd (upgradeEachContentUrlToUri tileset) = [] ->
   fst (upgradeEachContentUrlToUri tileset) = tileset) /\
  (forall targetVersion,
      snd (upgradeAssetVersionNumber tileset targetVersion) = [] ->
      fst (upgradeAssetVersionNumber tileset targetVersion) = tileset) /\
  (forall upgradeOptions,
      snd (upgradeTilesetObject upgradeOptions tileset) = [] ->
      fst (upgradeTilesetObject upgradeOptions tileset) = tileset).
Proof.
  split; [| split; [| split]].
  - rewrite upgradeRefineValues_mapTile. simpl. intros Hsilent.
    destruct tileset as [a r o]. simpl in *. f_equal.
    apply mapTile_fixed. intros data Hdata.
    apply upgradeTileRefine_silent.
    apply (concat_silent _ _ data Hsilent).
    by rewrite (proj1 Hvisits).
  - rewrite upgradeEachContentUrlToUri_mapTile. simpl. intros Hsilent.
    destruct tileset as [a r o]. simpl in *. f_equal.
    apply mapTile_fixed. intros data Hdata.
    apply upgradeTileContents_silent.
    apply (concat_silent _ _ data Hsilent).
    by rewrite (proj1 Hvisits).
  - intros targetVersion. unfold upgradeAssetVersionNumber.
    by destruct (String.eqb (version (asset tileset)) targetVersion).
  - intros upgradeOptions. unfold upgradeTilesetObject.
    destruct (truthy (TilesetUpgradeOptions.upgradedAssetVersionNumber
                        upgradeOptions)),
      (TilesetUpgradeOptions.upgradeRefineCase upgradeOptions),
      (TilesetUpgradeOptions.upgradeContentUrlToUri upgradeOptions),
      (TilesetUpgradeOptions.upgradeContentGltfExtensionDeclarations
         upgradeOptions);
      simpl;
      repeat (match goal with
              | |- context [upgradeAssetVersionNumber ?t ?v] =>
                  destruct (upgradeAssetVersionNumber t v)
              | |- context [upgradeRefineValues ?t] =>
                  destruct (upgradeRefineValues t)
              | |- context [upgradeEachContentUrlToUri ?t] =>
                  destruct (upgradeEachContentUrlToUri t)
              end; simpl);
      done.
Qed.

End UpgraderTreeProperties.


Section UpgraderWitnesses.
Import TilesetObjectUpgrader.
#[local] Existing Instance examplePlatform.

Lemma asciiUpperCase_idempotent c :
  asciiUpperCase (asciiUpperCase c) = asciiUpperCase c.
Proof. by destruct c as [[] [] [] [] [] [] [] []]. Qed.

Lemma exampleUpperCase_idempotent s :
  toUpperCase (toUpperCase s) = toUpperCase s.
Proof.
  simpl. induction s as [| c rest IH]; [done |].
  simpl. by rewrite asciiUpperCase_idempotent, IH.
Qed.

Lemma preorderTraversal_visits : visitsInOrder allData.
Proof.
  split; [done |]. split; [apply allData_mapTile |].
  apply preorderTraversal_mapTile.
Qed.

(** The upgrade of the legacy tileset: the version is set, "add" becomes
    "ADD", the [url] of the root content becomes its [uri], the content
    with a [uri] keeps it (and its [url]), and the content without either
    is reported. *)
Example legacy_tileset_upgraded :
  upgradeTilesetObject upgradeAll legacyTileset
  = ({| asset := {| version := "1.0"; assetOthers := "{}" |};
        root :=
          mkTile
            {| refine := Some "ADD";
               content := Some {| Content.uri := Some "root.b3dm";
                                  Content.url := None;
                                  Content.others := "{}" |};
               contents := None;
               tileOthers := "{}" |}
            (Some
               [mkTile
                  {| refine := Some "REPLACE";
                     content := None;
                     contents :=
                       Some [{| Content.uri := Some "a.glb";
                                Content.url := Some "b.glb";
                                Content.others := "{}" |};
                             {| Content.uri := None;
                                Content.url := None;
                                Content.others := "{}" |}];
                     tileOthers := "{}" |}
                  None]);
        tilesetOthers := "{}" |},
     ["Upgrading asset version number";
      "  Upgrading asset version from 0.0 to 1.0";
      "Upgrading refine to be in uppercase";
      "  Renaming 'refine' value from add to ADD";
      "Upgrading content.url to content.uri";
      "  Renaming 'url' property for content root.b3dm to 'uri'";
      "  The content does not have a 'uri' property (and no legacy 'url' property)"]).
Proof. vm_compute. reflexivity. Qed.

Lemma upgrade_idempotent_witness :
  fst (upgradeTilesetObject upgradeAll
         (fst (upgradeTilesetObject upgradeAll legacyTileset)))
  = fst (upgradeTilesetObject upgradeAll legacyTileset).
Proof.
  exact (upgrade_idempotent allData preorderTraversal_visits
           upgradeAll legacyTileset exampleUpperCase_idempotent eq_refl).
Defined.

(** After the upgrade of the contents of the legacy tileset no content
    has a [url] in place of a [uri]. *)
Lemma all_contents_upgraded_witness :
  Forall upgradedContent
    (allContents (root (fst (upgradeEachContentUrlToUri legacyTileset)))).
Proof.
  exact (proj1 (all_contents_upgraded allData preorderTraversal_visits
                  legacyTileset)).
Defined.

(** The refine values "add" and "REPLACE" of the legacy tileset become
    "ADD" and "REPLACE". *)
Lemma refine_values_upgraded_witness :
  allRefines (root (fst (upgradeRefineValues legacyTileset)))
  = [Some "ADD"; Some "REPLACE"].
Proof.
  by rewrite (proj2 (proj2 (proj2 (proj2
                (refine_values_upgraded allData preorderTraversal_visits
                   legacyTileset))))).
Defined.

Lemma upgrades_commute_witness :
  fst (upgradeRefineValues (fst (upgradeEachContentUrlToUri legacyTileset)))
  = fst (upgradeEachContentUrlToUri (fst (upgradeRefineValues legacyTileset))).
Proof.
  exact (proj1 (upgrades_commute allData preorderTraversal_visits
                  legacyTileset)).
Defined.

(** The empty version number chooses no upgrade. *)
Lemma upgrade_frame_witness :
  upgradeTilesetObject upgradeNothing legacyTileset = (legacyTileset, []).
Proof.
  destruct (upgrade_frame allData preorderTraversal_visits
              upgradeNothing legacyTileset eq_refl)
    as (_ & _ & _ & _ & _ & _ & Hnothing).
  exact (Hnothing eq_refl eq_refl eq_refl).
Defined.

(** The upgrade to the version that the tileset has logs nothing. *)
Lemma silent_upgrade_changes_nothing_witness :
  snd (upgradeAssetVersionNumber legacyTileset "0.0") = [] /\
  fst (upgradeAssetVersionNumber legacyTileset "0.0") = legacyTileset.
Proof.
  split; [reflexivity |].
  exact (proj1 (proj2 (proj2 (silent_upgrade_changes_nothing
                                allData preorderTraversal_visits
                                legacyTileset)))
           "0.0" eq_refl).
Defined.

End UpgraderWitnesses.
